(** * Trip-duration prediction pipeline (deployscript.py)

    A shallow embedding of the request-to-prediction pipeline of
    [deployscript.py]: the schema column list, the Great Expectations
    validation gate, the pandas feature derivation, the scikit-learn
    preprocessing and the call of the pickled model; and of the form front
    end [front_end.py] that posts requests to it.

    Python objects are modelled as follows.
    - a JSON record (a [dict], insertion ordered) is an association list;
    - a [pandas.DataFrame] is the ordered list of its named columns, with
      distinct labels;
    - Python [float] / numpy [float64] cells are binary64 primitive floats;
    - a raised exception is the [Raise] case of the [result] type, and the
      statements of a Python function are chained with [;;].

    What pandas, numpy and scikit-learn compute on one column or one cell
    (reading a column of date-times, reading a number from text, the mean and
    scale a scaler fits) is a parameter, the class [Runtime]; the way the
    script combines these calls is modelled once, for every instance.  The
    pickled model is not part of the sources and is modelled from the
    specification of the inference engine. *)

From Stdlib Require Import ZArith String Ascii List Bool Lia Permutation.
From Stdlib Require Import Floats.PrimFloat Floats.FloatOps Floats.SpecFloat.
From Stdlib Require Import Floats.FloatAxioms.
Import ListNotations.

Open Scope string_scope.
Open Scope list_scope.
Open Scope Z_scope.

(** ** Cells, records and frames *)

(** A [pandas.Timestamp], down to the second. *)
Record Timestamp : Set := mkTimestamp {
  ts_year : Z;
  ts_month : Z;
  ts_day : Z;
  ts_hour : Z;
  ts_minute : Z;
  ts_second : Z
}.

(** The cells a frame of this pipeline can hold: the JSON scalars of the
    request, the [NaN] pandas fills in for a key a record lacks, and the
    [Timestamp] / [NaT] cells [pd.to_datetime] produces. *)
Inductive value : Set :=
| VNone
| VNaN
| VNaT
| VBool (b : bool)
| VInt (z : Z)
| VFloat (x : float)
| VStr (s : string)
| VTime (t : Timestamp).

(** A record of the request, [data["data"][i]]: keys in insertion order. *)
Definition record : Set := list (string * value).

(** [r.get(k)] on a dict. *)
Fixpoint get (r : record) (k : string) : option value :=
  match r with
  | [] => None
  | (k', v) :: r' => if String.eqb k k' then Some v else get r' k
  end.

(** A data frame: its columns, left to right, each with its label.  The
    frames the pipeline builds have distinct labels; a column of timestamps
    and [NaT] stands for a column of dtype [datetime64]. *)
Definition DataFrame : Set := list (string * list value).

Definition labels (df : DataFrame) : list string := map fst df.

(** [df[c]] read: the cells of column [c], [None] for a [KeyError]. *)
Fixpoint column (df : DataFrame) (c : string) : option (list value) :=
  match df with
  | [] => None
  | (c', vs) :: df' => if String.eqb c c' then Some vs else column df' c
  end.

(** [df[c] = vs]: overwrite the column in place when the label exists,
    append it on the right otherwise. *)
Fixpoint setitem (df : DataFrame) (c : string) (vs : list value) : DataFrame :=
  match df with
  | [] => [(c, vs)]
  | (c', vs') :: df' =>
      if String.eqb c c' then (c', vs) :: df' else (c', vs') :: setitem df' c vs
  end.

(** Number of rows: the length of the first column. *)
Definition nrows (df : DataFrame) : nat :=
  match df with
  | [] => 0%nat
  | (_, vs) :: _ => length vs
  end.

(** [pd.DataFrame(records, columns=cols)]: one column per requested label,
    in the order of [cols]; a record without the key contributes [NaN];
    keys outside [cols] are not looked at. *)
Definition cell_of (c : string) (r : record) : value :=
  match get r c with
  | Some v => v
  | None => VNaN
  end.

Definition pd_DataFrame (records : list record) (cols : list string) : DataFrame :=
  map (fun c => (c, map (cell_of c) records)) cols.

(** [pandas.isnull] on a cell. *)
Definition isnull (v : value) : bool :=
  match v with
  | VNone | VNaN | VNaT => true
  | VFloat x => is_nan x
  | _ => false
  end.

(** ** Exceptions *)

(** The expectations of the suite built in [validate_input_data]. *)
Inductive expectation : Set :=
| ExpectColumnValuesToNotBeNull (col : string)
| ExpectColumnValuesToBeInSet (col : string) (value_set : list string)
| ExpectTableColumnsToMatchOrderedList (column_list : list string).

(** What a request can raise, by the statement that raises it. *)
Inductive error : Set :=
| ValidationError (n : nat) (failed : list expectation)
    (* the ValueError of validate_input_data: count and list of failures *)
| DateParseError (col : string)      (* pd.to_datetime raising on a column *)
| KeyError (col : string)            (* df[c] on a label the frame does not have *)
| LabelsNotFound (missing : list string)
    (* the KeyError of df[[...]] and of df.drop: it names every missing label *)
| AttributeError (col : string)      (* .dt on a column that is not datetime-like *)
| ScalerError (col : string)         (* StandardScaler input check *)
| EncoderError (col : string)        (* OneHotEncoder input check *)
| SignatureMismatch (expected got : nat). (* the model's input check *)

Inductive result (A : Type) : Type :=
| Ok (a : A)
| Raise (e : error).

Arguments Ok {A} a.
Arguments Raise {A} e.

Definition bind {A B : Type} (m : result A) (k : A -> result B) : result B :=
  match m with
  | Ok a => k a
  | Raise e => Raise e
  end.

Notation "x <- m ;; k" := (bind m (fun x => k))
  (at level 61, m at next level, right associativity).

(** Run [f] over a list, stopping at the first exception. *)
Fixpoint mapM {A B : Type} (f : A -> result B) (l : list A) : result (list B) :=
  match l with
  | [] => Ok []
  | a :: l' => b <- f a ;; bs <- mapM f l' ;; Ok (b :: bs)
  end.

(** ** Schema contract *)

Definition columns : list string := [
  "VendorID"; "lpep_pickup_datetime"; "lpep_dropoff_datetime";
  "store_and_fwd_flag"; "RatecodeID"; "PULocationID"; "DOLocationID";
  "passenger_count"; "trip_distance"; "fare_amount"; "extra"; "mta_tax";
  "tip_amount"; "tolls_amount"; "ehail_fee"; "improvement_surcharge";
  "total_amount"; "payment_type"; "trip_type"; "congestion_surcharge"
].

(** ** Validation gate *)

Definition in_value_set (value_set : list string) (v : value) : bool :=
  match v with
  | VStr s => existsb (String.eqb s) value_set
  | _ => false
  end.

Fixpoint list_eqb (l1 l2 : list string) : bool :=
  match l1, l2 with
  | [], [] => true
  | a :: l1', b :: l2' => String.eqb a b && list_eqb l1' l2'
  | _, _ => false
  end.

(** The [success] field Great Expectations computes for one expectation on
    the batch.  Column expectations look at the non-null cells only, except
    the not-null one; an expectation on a column the frame lacks does not
    succeed. *)
Definition success (df : DataFrame) (e : expectation) : bool :=
  match e with
  | ExpectColumnValuesToNotBeNull c =>
      match column df c with
      | Some vs => forallb (fun v => negb (isnull v)) vs
      | None => false
      end
  | ExpectColumnValuesToBeInSet c value_set =>
      match column df c with
      | Some vs => forallb (fun v => isnull v || in_value_set value_set v) vs
      | None => false
      end
  | ExpectTableColumnsToMatchOrderedList column_list =>
      list_eqb (labels df) column_list
  end.

Definition null_expectations : list expectation :=
  map ExpectColumnValuesToNotBeNull columns.

(** The suite in the order the expectations are added to it. *)
Definition suite : list expectation :=
  null_expectations
  ++ [ExpectColumnValuesToBeInSet "store_and_fwd_flag" ["Y"; "N"]]
  ++ [ExpectTableColumnsToMatchOrderedList columns].

(** The column an expectation is grouped under when the suite is run; the
    table expectations share one group. *)
Definition expectation_column (e : expectation) : string :=
  match e with
  | ExpectColumnValuesToNotBeNull c => c
  | ExpectColumnValuesToBeInSet c _ => c
  | ExpectTableColumnsToMatchOrderedList _ => "_nocolumn"
  end.

Fixpoint add_to_group (c : string) (e : expectation)
  (groups : list (string * list expectation)) : list (string * list expectation) :=
  match groups with
  | [] => [(c, [e])]
  | (c', es) :: groups' =>
      if String.eqb c c' then (c', es ++ [e]) :: groups'
      else (c', es) :: add_to_group c e groups'
  end.

(** The order in which Great Expectations evaluates a suite and lists the
    results: the expectations grouped by column, the groups in the order in
    which their column first occurs in the suite. *)
Definition process_expectations_for_validation (es : list expectation)
  : list expectation :=
  concat (map snd (fold_left (fun groups e =>
                                add_to_group (expectation_column e) e groups)
                             es [])).

(** [batch.validate(suite).results]: one result per expectation of the
    suite, each with its [success]. *)
Definition validation_results (df : DataFrame) : list (expectation * bool) :=
  map (fun e => (e, success df e)) (process_expectations_for_validation suite).

Definition failed_expectations (df : DataFrame) : list expectation :=
  map fst (filter (fun r => negb (snd r)) (validation_results df)).

Definition validate_input_data (df : DataFrame) : result bool :=
  if forallb snd (validation_results df) then Ok true
  else
    let failed := failed_expectations df in
    Raise (ValidationError (length failed) failed).

(** ** Library behaviour taken as a parameter

    The pipeline calls into pandas, numpy and scikit-learn.  What those
    libraries compute on a column or a cell is a parameter of the
    development; how [deployscript.py] combines the calls is modelled below,
    once and for all instances. *)
Class Runtime : Type := {
  (** [pd.to_datetime] on the cells of a column, read as a whole: one entry
      per cell, a timestamp or [None] for [NaT]; [None] when the call
      raises. *)
  to_datetime : list value -> option (list (option Timestamp));
  to_datetime_length :
    forall vs ts, to_datetime vs = Some ts -> length ts = length vs;
  (** numpy's conversion of a text cell to [float64]; [None] when it raises. *)
  float_of_string : string -> option float;
  (** [StandardScaler.fit]: the [mean_] entry of one column. *)
  fit_mean : list float -> float;
  (** [StandardScaler.fit]: the [scale_] entry of one column. *)
  fit_scale : list float -> float
}.

(** ** Date-time conversion *)

Definition getitem (df : DataFrame) (c : string) : result (list value) :=
  match column df c with
  | Some vs => Ok vs
  | None => Raise (KeyError c)
  end.

(** A cell of a converted column. *)
Definition datetime_cell (o : option Timestamp) : value :=
  match o with
  | Some t => VTime t
  | None => VNaT
  end.

(** [pd.to_datetime(df[c])]: the column is read as a whole, and the call
    raises or returns a column of timestamps and [NaT]. *)
Definition pd_to_datetime `{Runtime} (c : string) (vs : list value)
  : result (list value) :=
  match to_datetime vs with
  | Some ts => Ok (map datetime_cell ts)
  | None => Raise (DateParseError c)
  end.

(** [pd.to_datetime] on a column of one cell, the case of a request with a
    single record. *)
Definition to_datetime_cell `{Runtime} (v : value) : option value :=
  match to_datetime [v] with
  | Some [o] => Some (datetime_cell o)
  | _ => None
  end.

(** [for col in cols: df[col] = pd.to_datetime(df[col])]. *)
Fixpoint convert_dates `{Runtime} (cols : list string) (df : DataFrame)
  : result DataFrame :=
  match cols with
  | [] => Ok df
  | c :: cols' =>
      vs <- getitem df c ;;
      ts <- pd_to_datetime c vs ;;
      convert_dates cols' (setitem df c ts)
  end.

(** ** Feature derivation *)

Definition sakamoto_arr : list Z := [0; 3; 2; 5; 0; 3; 5; 1; 4; 6; 2; 4].

(** pandas' [dayofweek(y, m, d)]: Sakamoto's method, then shifted so that
    Monday is 0. *)
Definition dayofweek (y m d : Z) : Z :=
  let y := if m <? 3 then y - 1 else y in
  let day := (y + y / 4 - y / 100 + y / 400
              + nth (Z.to_nat (m - 1)) sakamoto_arr 0 + d) mod 7 in
  (day + 6) mod 7.

Definition ts_dayofweek (t : Timestamp) : Z :=
  dayofweek (ts_year t) (ts_month t) (ts_day t).

Definition is_datetimelike (vs : list value) : bool :=
  forallb (fun v => match v with VTime _ | VNaT => true | _ => false end) vs.

(** [Series.hasnans] on a datetime column: some cell is [NaT]. *)
Definition hasnans (vs : list value) : bool :=
  existsb (fun v => match v with VNaT => true | _ => false end) vs.

(** Python [int] to [float64]: round to nearest even. *)
Definition of_Z (z : Z) : float := SF2Prim (binary_normalize prec emax z 0 false).

(** One cell of [df[c].dt.<field>].  The result column is an integer column
    when the datetime column has no [NaT]; with a [NaT] in the column it is
    a [float64] column, [NaN] in the rows of the [NaT] cells. *)
Definition dt_cell (as_float : bool) (field : Timestamp -> Z) (v : value) : value :=
  match v with
  | VTime t => if as_float then VFloat (of_Z (field t)) else VInt (field t)
  | _ => VNaN
  end.

(** [df[c].dt.<field>]. *)
Definition dt (df : DataFrame) (c : string) (field : Timestamp -> Z)
  : result (list value) :=
  vs <- getitem df c ;;
  if is_datetimelike vs then Ok (map (dt_cell (hasnans vs) field) vs)
  else Raise (AttributeError c).

Definition mem (l : string) (ls : list string) : bool :=
  existsb (String.eqb l) ls.

(** The labels of [ls] the frame does not have. *)
Definition missing (df : DataFrame) (ls : list string) : list string :=
  filter (fun l => negb (mem l (labels df))) ls.

(** [df.drop(ls, axis=1, inplace=True)]: with labels the frame lacks, it
    raises and names them all. *)
Definition drop (ls : list string) (df : DataFrame) : result DataFrame :=
  match missing df ls with
  | [] => Ok (filter (fun cv => negb (mem (fst cv) ls)) df)
  | ms => Raise (LabelsNotFound ms)
  end.

Definition dropped : list string :=
  ["ehail_fee"; "VendorID"; "lpep_pickup_datetime"; "lpep_dropoff_datetime"].

Definition feature_extraction (df : DataFrame) : result DataFrame :=
  y <- dt df "lpep_pickup_datetime" ts_year ;;
  let df := setitem df "pickup_year" y in
  m <- dt df "lpep_pickup_datetime" ts_month ;;
  let df := setitem df "pickup_month" m in
  w <- dt df "lpep_pickup_datetime" ts_dayofweek ;;
  let df := setitem df "pickup_dayofweek" w in
  d <- dt df "lpep_pickup_datetime" ts_day ;;
  let df := setitem df "pickup_day" d in
  h <- dt df "lpep_pickup_datetime" ts_hour ;;
  let df := setitem df "pickup_hour" h in
  mi <- dt df "lpep_pickup_datetime" ts_minute ;;
  let df := setitem df "pickup_minute" mi in
  s <- dt df "lpep_pickup_datetime" ts_second ;;
  let df := setitem df "pickup_second" s in
  drop dropped df.

(** ** Preprocessing *)

Inductive dtype : Set := float64 | float32.

(** A two-dimensional [numpy.ndarray]: its element type and its rows. *)
Record ndarray : Set := mk_ndarray {
  arr_dtype : dtype;
  arr_rows : list (list float)
}.

(** Rounding of a [float64] to the nearest binary32 value (24-bit
    significand, exponents up to 128), kept in a binary64 carrier. *)
Definition float32_of (x : float) : float :=
  match Prim2SF x with
  | S754_finite s m e =>
      SF2Prim (binary_normalize 24 128 (cond_Zopp s (Zpos m)) e s)
  | _ => x
  end.

(** A double that carries a binary32 number: the value of a floating-point
    datum that is valid for a 24-bit significand and exponents up to 128. *)
Definition is_binary32 (x : float) : Prop :=
  exists s : spec_float, SpecFloat.valid_binary 24 128 s = true /\ SF2Prim s = x.

(** [A.astype('float32')]. *)
Definition astype_float32 (A : ndarray) : ndarray :=
  mk_ndarray float32 (map (map float32_of) (arr_rows A)).

Definition finite (x : float) : option float :=
  if is_infinity x then None else Some x.

(** Integers of this magnitude and above round to an infinite double. *)
Definition max_int_float : Z := 2 ^ 1024 - 2 ^ 970.

(** The cell as the scaler's input check takes it: converted to [float64],
    [NaN] allowed, infinities and cells without a numeric reading refused.
    An integer converts when it rounds to a finite double. *)
Definition as_float64 `{Runtime} (v : value) : option float :=
  match v with
  | VNone | VNaN => Some nan
  | VNaT | VTime _ => None
  | VBool b => Some (if b then 1 else 0)%float
  | VInt z => if Z.abs z <? max_int_float then Some (of_Z z) else None
  | VFloat x => finite x
  | VStr s => match float_of_string s with
              | Some x => finite x
              | None => None
              end
  end.

Definition numerical : list string := [
  "RatecodeID"; "PULocationID"; "DOLocationID";
  "passenger_count"; "trip_distance"; "fare_amount"; "extra"; "mta_tax";
  "tip_amount"; "tolls_amount"; "improvement_surcharge"; "total_amount";
  "payment_type"; "trip_type"; "congestion_surcharge";
  "pickup_year"; "pickup_month"; "pickup_dayofweek"; "pickup_day";
  "pickup_hour"; "pickup_minute"; "pickup_second"
].

Definition categorical_column : string := "store_and_fwd_flag".

Definition categorical : list string := [categorical_column].

(** [df[ls]]: the listed columns, in the order of [ls]; with labels the
    frame lacks, it raises and names them all. *)
Definition getitems (df : DataFrame) (ls : list string) : result DataFrame :=
  match missing df ls with
  | [] => mapM (fun l => vs <- getitem df l ;; Ok (l, vs)) ls
  | ms => Raise (LabelsNotFound ms)
  end.

(** The state a fitted [ColumnTransformer] of [preprocess] carries: the
    scaler's [mean_] and [scale_], one entry per numerical column, and the
    encoder's [categories_] for the categorical column. *)
Record FittedParams : Set := mk_params {
  mean_ : list float;
  scale_ : list float;
  categories_ : list string
}.

(** The scaler's input check on its block of columns. *)
Definition scaler_input `{Runtime} (X : DataFrame) : result (list (list float)) :=
  cols <- mapM (fun cv =>
                  mapM (fun v => match as_float64 v with
                                 | Some x => Ok x
                                 | None => Raise (ScalerError (fst cv))
                                 end) (snd cv)) X ;;
  if (nrows X =? 0)%nat then Raise (ScalerError "0 samples") else Ok cols.

(** The encoder's input check on the categorical column.  The column is
    modelled as a column of text, which is what the validation gate lets
    through; a cell that is not text is outside the model and ends the run
    with this error. *)
Definition encoder_input (vs : list value) : result (list string) :=
  mapM (fun v => match v with
                 | VStr s => Ok s
                 | _ => Raise (EncoderError categorical_column)
                 end) vs.

Fixpoint insert_sorted (s : string) (l : list string) : list string :=
  match l with
  | [] => [s]
  | x :: l' => if String.leb s x then s :: l else x :: insert_sorted s l'
  end.

(** [sorted(set(values))]: the vocabulary [OneHotEncoder.fit] learns. *)
Definition sorted_unique (ss : list string) : list string :=
  fold_right insert_sorted [] (nodup string_dec ss).

Definition standardize (mu sigma : float) (xs : list float) : list float :=
  map (fun x => ((x - mu) / sigma)%float) xs.

Fixpoint scale_columns (mus sigmas : list float) (cols : list (list float))
  : result (list (list float)) :=
  match mus, sigmas, cols with
  | [], [], [] => Ok []
  | mu :: mus', sigma :: sigmas', xs :: cols' =>
      rest <- scale_columns mus' sigmas' cols' ;;
      Ok (standardize mu sigma xs :: rest)
  | _, _, _ => Raise (ScalerError "n_features")
  end.

Definition indicator (cats : list string) (s : string) : list float :=
  map (fun c => if String.eqb s c then 1%float else 0%float) cats.

(** [OneHotEncoder.transform] with the default [handle_unknown='error']. *)
Definition onehot_rows (cats : list string) (ss : list string)
  : result (list (list float)) :=
  mapM (fun s => if mem s cats then Ok (indicator cats s)
                 else Raise (EncoderError "unknown category")) ss.

(** Row [i] of a block given by its columns. *)
Definition row_of (cols : list (list float)) (i : nat) : list float :=
  map (fun xs => nth i xs 0%float) cols.

Definition rows_of (n : nat) (cols : list (list float)) : list (list float) :=
  map (row_of cols) (seq 0 n).

(** [numpy.hstack] of two blocks given by their rows. *)
Definition hstack (A B : list (list float)) : list (list float) :=
  map (fun ab => (fst ab ++ snd ab)%list) (combine A B).

(** [ColumnTransformer.fit]: the scaler on the numerical block, then the
    encoder on the categorical column, both on the frame passed in. *)
Definition fit `{Runtime} (X : DataFrame) : result FittedParams :=
  num <- getitems X numerical ;;
  cols <- scaler_input num ;;
  cat <- getitem X categorical_column ;;
  ss <- encoder_input cat ;;
  Ok (mk_params (map fit_mean cols) (map fit_scale cols) (sorted_unique ss)).

(** [ColumnTransformer.transform] with given fitted state. *)
Definition transform `{Runtime} (p : FittedParams) (X : DataFrame)
  : result ndarray :=
  num <- getitems X numerical ;;
  cols <- scaler_input num ;;
  scaled <- scale_columns (mean_ p) (scale_ p) cols ;;
  cat <- getitem X categorical_column ;;
  ss <- encoder_input cat ;;
  onehot <- onehot_rows (categories_ p) ss ;;
  Ok (mk_ndarray float64 (hstack (rows_of (nrows X) scaled) onehot)).

Definition fit_transform `{Runtime} (X : DataFrame) : result ndarray :=
  p <- fit X ;; transform p X.

Definition preprocess `{Runtime} (df : DataFrame) : result ndarray :=
  X <- getitems df (numerical ++ categorical) ;;
  X_processed <- fit_transform X ;;
  Ok (astype_float32 X_processed).

(** ** Inference *)

(** Modelled from the spec: the model artifact [model.pkl] is not part of the
    sources.  Following the specification of the Inference Engine, it is a
    regressor that maps one matrix row to one duration, was trained on a
    matrix of the preprocessor's layout for some vocabulary of the
    categorical column, and refuses a matrix whose width or element type
    differs from the one it was trained on. *)
Record Model : Type := mk_model {
  trained_categories : list string;
  predict_row : list float -> float
}.

Definition n_features_in (model : Model) : nat :=
  (length numerical + length (trained_categories model))%nat.

Definition dtype_eqb (a b : dtype) : bool :=
  match a, b with
  | float64, float64 | float32, float32 => true
  | _, _ => false
  end.

(** Modelled from the spec: [model.predict(X)], see [Model]. *)
Definition model_predict (model : Model) (X : ndarray) : result (list float) :=
  match find (fun r => negb (length r =? n_features_in model)%nat) (arr_rows X) with
  | Some r => Raise (SignatureMismatch (n_features_in model) (length r))
  | None =>
      if dtype_eqb (arr_dtype X) float32
      then Ok (map (predict_row model) (arr_rows X))
      else Raise (SignatureMismatch (n_features_in model) (n_features_in model))
  end.

(** ** The prediction endpoint *)

Definition date_columns : list string :=
  ["lpep_pickup_datetime"; "lpep_dropoff_datetime"].

(** The request up to the matrix given to the model: frame construction,
    validation, date conversion, feature extraction, preprocessing. *)
Definition request_matrix `{Runtime} (data : list record) : result ndarray :=
  let df := pd_DataFrame data columns in
  _ <- validate_input_data df ;;
  df <- convert_dates date_columns df ;;
  df <- feature_extraction df ;;
  preprocess df.

(** [predict(data)], with [data["data"]] as the argument and the list under
    ["predicted_trip_duration_minutes"] as the result. *)
Definition predict `{Runtime} (model : Model) (data : list record)
  : result (list float) :=
  let df := pd_DataFrame data columns in
  _ <- validate_input_data df ;;
  df <- convert_dates date_columns df ;;
  df <- feature_extraction df ;;
  X_processed <- preprocess df ;;
  preds <- model_predict model X_processed ;;
  Ok preds.

(** ** A reference instance of the libraries

    Used to run the pipeline on concrete requests.  It reads date-time text
    in the layout the form front end sends ([%Y-%m-%d %H:%M:%S], also with a
    [T] separator) the way [pd.to_datetime] reads a column of text: the
    empty text and the texts for [NaT] become [NaT], the layout is taken
    from the first remaining cell, and every other cell has to be in that
    layout.  pandas reads more layouts and other kinds of cells; this
    instance refuses them, and is only run on text in the layout above.  It
    reads plain decimal literals, and computes the scaler's statistics the
    way [StandardScaler.fit] does on a first batch: over the cells that are
    not [NaN], the mean, the corrected two-pass variance, and a scale of 1
    for a constant column. *)

Definition digit (c : ascii) : option Z :=
  let n := Z.of_nat (nat_of_ascii c) - 48 in
  if (0 <=? n) && (n <=? 9) then Some n else None.

Fixpoint number_of (s : string) (acc : Z) : option Z :=
  match s with
  | EmptyString => Some acc
  | String c s' =>
      match digit c with
      | Some d => number_of s' (10 * acc + d)
      | None => None
      end
  end.

Definition is_leap (y : Z) : bool :=
  ((y mod 4 =? 0) && negb (y mod 100 =? 0)) || (y mod 400 =? 0).

Definition days_in_month (y m : Z) : Z :=
  if m =? 2 then (if is_leap y then 29 else 28)
  else if (m =? 4) || (m =? 6) || (m =? 9) || (m =? 11) then 30
  else 31.

(** A calendar date-time within the years pandas' nanosecond timestamps
    cover entirely. *)
Definition wellformed_timestamp (t : Timestamp) : bool :=
  (1678 <=? ts_year t) && (ts_year t <=? 2261)
  && (1 <=? ts_month t) && (ts_month t <=? 12)
  && (1 <=? ts_day t) && (ts_day t <=? days_in_month (ts_year t) (ts_month t))
  && (0 <=? ts_hour t) && (ts_hour t <=? 23)
  && (0 <=? ts_minute t) && (ts_minute t <=? 59)
  && (0 <=? ts_second t) && (ts_second t <=? 59).

Definition char_at (s : string) (i : nat) (cs : list ascii) : bool :=
  match String.get i s with
  | Some c => existsb (Ascii.eqb c) cs
  | None => false
  end.

Definition field (s : string) (i n : nat) : option Z :=
  number_of (substring i n s) 0.

Definition parse_iso (s : string) : option Timestamp :=
  if (String.length s =? 19)%nat
     && char_at s 4 ["-"%char] && char_at s 7 ["-"%char]
     && char_at s 10 [" "%char; "T"%char]
     && char_at s 13 [":"%char] && char_at s 16 [":"%char]
  then
    match field s 0 4, field s 5 2, field s 8 2,
          field s 11 2, field s 14 2, field s 17 2 with
    | Some y, Some mo, Some d, Some h, Some mi, Some se =>
        let t := mkTimestamp y mo d h mi se in
        if wellformed_timestamp t then Some t else None
    | _, _, _, _, _, _ => None
    end
  else None.

(** The texts [pd.to_datetime] reads as [NaT], beside the empty text. *)
Definition nat_strings : list string := ["NaT"; "nat"; "NAT"; "nan"; "NaN"; "NAN"].

(** The cells that become [NaT] whatever the layout of the column. *)
Definition reads_as_NaT (v : value) : bool :=
  isnull v
  || match v with
     | VStr s => String.eqb s "" || mem s nat_strings
     | _ => false
     end.

(** One cell of a text column whose layout has the separator [sep]. *)
Definition read_cell (sep : ascii) (v : value) : option (option Timestamp) :=
  if reads_as_NaT v then Some None
  else match v with
       | VStr s => if char_at s 10 [sep] then option_map Some (parse_iso s) else None
       | _ => None
       end.

Fixpoint read_cells (sep : ascii) (vs : list value)
  : option (list (option Timestamp)) :=
  match vs with
  | [] => Some []
  | v :: vs' =>
      match read_cell sep v, read_cells sep vs' with
      | Some o, Some os => Some (o :: os)
      | _, _ => None
      end
  end.

(** A column, read with the layout of its first cell that is not [NaT]. *)
Definition read_column (vs : list value) : option (list (option Timestamp)) :=
  match find (fun v => negb (reads_as_NaT v)) vs with
  | None => Some (map (fun _ => None) vs)
  | Some (VStr s) =>
      match String.get 10 s with
      | Some sep => read_cells sep vs
      | None => None
      end
  | Some _ => None
  end.

(** Digits, with an optional fraction after a dot. *)
Fixpoint decimal_of (s : string) (acc : Z) (scale : option Z) : option (Z * Z) :=
  match s with
  | EmptyString => Some (acc, match scale with Some k => k | None => 1 end)
  | String c s' =>
      if Ascii.eqb c "."%char then
        match scale with
        | None => decimal_of s' acc (Some 1)
        | Some _ => None
        end
      else
        match digit c with
        | Some d => decimal_of s' (10 * acc + d) (option_map (Z.mul 10) scale)
        | None => None
        end
  end.

Definition parse_decimal (s : string) : option float :=
  let (neg, body) :=
    match s with
    | String c s' => if Ascii.eqb c "-"%char then (true, s') else (false, s)
    | EmptyString => (false, s)
    end in
  match body with
  | EmptyString => None
  | _ =>
      match decimal_of body 0 None with
      | Some (num, den) =>
          if (num <? 2 ^ 53) && (den <=? 10 ^ 22)
          then let x := (of_Z num / of_Z den)%float in
               Some (if neg then (- x)%float else x)
          else None
      | None => None
      end
  end.

Definition fsum (xs : list float) : float :=
  fold_left PrimFloat.add xs 0%float.

Definition count (xs : list float) : float := of_Z (Z.of_nat (length xs)).

(** The cells of a column the scaler's statistics are taken over. *)
Definition observed (xs : list float) : list float :=
  filter (fun x => negb (is_nan x)) xs.

Definition column_mean (xs : list float) : float :=
  let xs := observed xs in (fsum xs / count xs)%float.

Definition column_var (xs : list float) : float :=
  let xs := observed xs in
  let n := count xs in
  let T := (fsum xs / n)%float in
  let temp := map (fun x => (x - T)%float) xs in
  let correction := fsum temp in
  let unnormalized := fsum (map (fun d => (d * d)%float) temp) in
  ((unnormalized - correction * correction / n) / n)%float.

Definition float_eps : float := Z.ldexp 1%float (-52).

Definition column_scale (xs : list float) : float :=
  let n := count (observed xs) in
  let var := column_var xs in
  let mean := column_mean xs in
  let upper_bound :=
    (n * float_eps * var + (n * mean * float_eps) * (n * mean * float_eps))%float in
  if (var <=? upper_bound)%float then 1%float else sqrt var.

#[export] Instance reference_runtime : Runtime.
Proof.
  refine (Build_Runtime read_column _ parse_decimal column_mean column_scale).
  intros vs ts; unfold read_column.
  destruct (find _ vs) as [[ | | |b|z|x|s|t]|]; try discriminate.
  - destruct (String.get 10 s) as [sep|]; [|discriminate].
    revert ts; induction vs as [|v vs IH]; cbn [read_cells]; intros ts E.
    + injection E as <-; reflexivity.
    + destruct (read_cell sep v) as [o|]; [|discriminate].
      destruct (read_cells sep vs) as [os|]; [|discriminate].
      injection E as <-; cbn [length]; f_equal; apply IH; reflexivity.
  - intros E; injection E as <-; apply length_map.
Defined.

(** ** The calendar, day by day

    Python's [date(y, m, d).toordinal()], which counts the days from the
    first of January of year 1, and [date.weekday()], which has Monday
    as 0. *)

Definition days_before_year (y : Z) : Z :=
  let y := y - 1 in y * 365 + y / 4 - y / 100 + y / 400.

Definition days_before_month (y m : Z) : Z :=
  fold_right Z.add 0
    (map (fun k => days_in_month y (Z.of_nat k)) (seq 1 (Z.to_nat (m - 1)))).

Definition toordinal (y m d : Z) : Z :=
  days_before_year y + days_before_month y m + d.

Definition weekday (y m d : Z) : Z := (toordinal y m d + 6) mod 7.

(** The days before the first of each month in a common year. *)
Definition days_before_month_table : list Z :=
  [0; 31; 59; 90; 120; 151; 181; 212; 243; 273; 304; 334].

(** ** Closed forms used in the statements *)

(** A key of a record that the contract lists. *)
Definition in_contract (kv : string * value) : bool := mem (fst kv) columns.

(** The seven fields read off the pickup timestamp, under the labels
    [feature_extraction] gives them, in the order it adds them. *)
Definition pickup_fields : list (string * (Timestamp -> Z)) := [
  ("pickup_year", ts_year);
  ("pickup_month", ts_month);
  ("pickup_dayofweek", ts_dayofweek);
  ("pickup_day", ts_day);
  ("pickup_hour", ts_hour);
  ("pickup_minute", ts_minute);
  ("pickup_second", ts_second)
].

(** The columns [feature_extraction] adds for a pickup column [vs]. *)
Definition derived_columns (vs : list value) : DataFrame :=
  map (fun cf => (fst cf, map (dt_cell (hasnans vs) (snd cf)) vs)) pickup_fields.

(** A column [feature_extraction] does not drop. *)
Definition kept (cv : string * list value) : bool := negb (mem (fst cv) dropped).

(** The labels of the frame [feature_extraction] returns for a frame with
    the contract's labels. *)
Definition derived_labels : list string := [
  "store_and_fwd_flag"; "RatecodeID"; "PULocationID"; "DOLocationID";
  "passenger_count"; "trip_distance"; "fare_amount"; "extra"; "mta_tax";
  "tip_amount"; "tolls_amount"; "improvement_surcharge"; "total_amount";
  "payment_type"; "trip_type"; "congestion_surcharge";
  "pickup_year"; "pickup_month"; "pickup_dayofweek"; "pickup_day";
  "pickup_hour"; "pickup_minute"; "pickup_second"
].

(** What the scaler and the encoder read from the frame they are given. *)
Definition numeric_block `{Runtime} (X : DataFrame) : result (list (list float)) :=
  num <- getitems X numerical ;; scaler_input num.

Definition flags (X : DataFrame) : result (list string) :=
  cat <- getitem X categorical_column ;; encoder_input cat.

(** The preprocessor with the transform parameters fixed beforehand, the
    reading of the specification: the fitted state [p] is given, and the
    request is only transformed with it. *)
Definition preprocess_with `{Runtime} (p : FittedParams) (df : DataFrame)
  : result ndarray :=
  X <- getitems df (numerical ++ categorical) ;;
  X_processed <- transform p X ;;
  Ok (astype_float32 X_processed).

(** The matrix [fit_transform] builds from the numeric columns [cols] and
    the flags [ss] of a frame with [n] rows: every statistic is taken from
    [cols] and [ss] themselves. *)
Definition fitted_matrix `{Runtime} (n : nat) (cols : list (list float))
  (ss : list string) : ndarray :=
  mk_ndarray float64
    (hstack
       (rows_of n (map (fun xs => standardize (fit_mean xs) (fit_scale xs) xs) cols))
       (map (indicator (sorted_unique ss)) ss)).

(** The frame [predict] hands to [preprocess] for a batch, [[]] if the
    request stops earlier. *)
Definition derived_frame_of `{Runtime} (data : list record) : DataFrame :=
  match (df <- convert_dates date_columns (pd_DataFrame data columns) ;;
         feature_extraction df) with
  | Ok df => df
  | Raise _ => []
  end.

(** The widths of the rows of a matrix, [[]] when there is none. *)
Definition row_widths (X : result ndarray) : list nat :=
  match X with
  | Ok A => map (@length float) (arr_rows A)
  | Raise _ => []
  end.

(** ** Batches and the matrix they produce *)

(** The pickup column of a batch as [pd.to_datetime] reads it, [[]] when it
    raises. *)
Definition pickup_times `{Runtime} (data : list record) : list (option Timestamp) :=
  match to_datetime (map (cell_of "lpep_pickup_datetime") data) with
  | Some ts => ts
  | None => []
  end.

(** The records of a batch, each with its pickup time as read. *)
Definition timed `{Runtime} (data : list record) : list (record * option Timestamp) :=
  combine data (pickup_times data).

(** First binding of a key in an association list. *)
Fixpoint assoc {A : Type} (k : string) (l : list (string * A)) : option A :=
  match l with
  | [] => None
  | (k', a) :: l' => if String.eqb k k' then Some a else assoc k l'
  end.

(** The cell of a record of the batch under a label of the derived frame. *)
Definition derived_cell `{Runtime} (data : list record) (c : string)
  (ro : record * option Timestamp) : value :=
  match assoc c pickup_fields with
  | Some f => dt_cell (hasnans (map datetime_cell (pickup_times data))) f
                      (datetime_cell (snd ro))
  | None => cell_of c (fst ro)
  end.

(** The derived frame, column by column. *)
Definition tabulate `{Runtime} (data : list record) (ls : list string) : DataFrame :=
  map (fun c => (c, map (derived_cell data c) (timed data))) ls.

(** The [float64] reading of a cell, [nan] when there is none. *)
Definition num_cell `{Runtime} (v : value) : float :=
  match as_float64 v with
  | Some x => x
  | None => nan
  end.

(** The number a record contributes to a numerical column. *)
Definition feature `{Runtime} (data : list record) (c : string)
  (ro : record * option Timestamp) : float :=
  num_cell (derived_cell data c ro).

(** The flag of a record. *)
Definition flag_of (r : record) : string :=
  match cell_of categorical_column r with
  | VStr s => s
  | _ => ""
  end.

(** The numerical column [c] of the batch, and the vocabulary of the batch. *)
Definition batch_column `{Runtime} (data : list record) (c : string) : list float :=
  map (feature data c) (timed data).

Definition batch_categories (data : list record) : list string :=
  sorted_unique (map flag_of data).

(** The row of the matrix for a record of the batch [data]. *)
Definition matrix_row `{Runtime} (data : list record)
  (ro : record * option Timestamp) : list float :=
  map float32_of
    (map (fun c => ((feature data c ro - fit_mean (batch_column data c))
                    / fit_scale (batch_column data c))%float) numerical
     ++ indicator (batch_categories data) (flag_of (fst ro)))%list.

(** The numerical columns that come with the request. *)
Definition raw_numerical : list string := firstn 15 numerical.

Definition is_Some {A : Type} (o : option A) : bool :=
  match o with Some _ => true | None => false end.

(** A trip record the gate and the scaler accept: every contract column
    present and non-null, the flag [Y] or [N], numeric cells in the
    numerical columns. *)
Definition valid_record `{Runtime} (r : record) : bool :=
  forallb (fun c => negb (isnull (cell_of c r))) columns
  && in_value_set ["Y"; "N"] (cell_of categorical_column r)
  && forallb (fun c => is_Some (as_float64 (cell_of c r))) raw_numerical.

(** The pickup column is read, as a whole, into calendar timestamps. *)
Definition pickup_column_ok `{Runtime} (data : list record) : bool :=
  match to_datetime (map (cell_of "lpep_pickup_datetime") data) with
  | Some ts => forallb (fun o => match o with
                                 | Some t => wellformed_timestamp t
                                 | None => false
                                 end) ts
  | None => false
  end.

(** The dropoff column is read, as a whole. *)
Definition dropoff_column_ok `{Runtime} (data : list record) : bool :=
  is_Some (to_datetime (map (cell_of "lpep_dropoff_datetime") data)).

(** A valid batch: at least one record, all of them valid, and two date
    columns that [pd.to_datetime] reads. *)
Definition valid_batch `{Runtime} (data : list record) : bool :=
  match data with
  | [] => false
  | _ => forallb valid_record data && pickup_column_ok data && dropoff_column_ok data
  end.

(** ** Sample requests *)

(** One trip as the form front end sends it, with the flag, the pickup time
    and the fare left open. *)
Definition trip (flag : string) (pickup : string) (fare : Z) : record := [
  ("VendorID", VInt 1);
  ("lpep_pickup_datetime", VStr pickup);
  ("lpep_dropoff_datetime", VStr "2024-03-11 14:25:09");
  ("store_and_fwd_flag", VStr flag);
  ("RatecodeID", VInt 1);
  ("PULocationID", VInt 74);
  ("DOLocationID", VInt 168);
  ("passenger_count", VInt 1);
  ("trip_distance", VFloat 2.5);
  ("fare_amount", VInt fare);
  ("extra", VFloat 0.5);
  ("mta_tax", VFloat 0.5);
  ("tip_amount", VInt 0);
  ("tolls_amount", VInt 0);
  ("ehail_fee", VInt 0);
  ("improvement_surcharge", VFloat 0.5);
  ("total_amount", VFloat 7.5);
  ("payment_type", VInt 1);
  ("trip_type", VInt 1);
  ("congestion_surcharge", VInt 0)
].

(** The pickup time of the examples, a Monday. *)
Definition monday_afternoon : string := "2024-03-11 14:05:09".

(** Two trips that differ in the flag and the fare. *)
Definition trip_Y : record := trip "Y" monday_afternoon 6.
Definition trip_N : record := trip "N" monday_afternoon 8.

(** The sample trip with a pickup time no date-time reader accepts. *)
Definition unreadable_trip : record := trip "Y" "hello" 6.

(** The sample trip with the empty text as pickup time. *)
Definition blank_pickup_trip : record := trip "Y" "" 6.

(** A trip whose pickup time is written with the separator [T]. *)
Definition trip_T : record := trip "N" "2024-03-12T15:06:10" 8.

(** The sample trip with its keys listed in the reverse order. *)
Definition reordered_trip : record := rev trip_Y.

(** A trip without its fare and with a flag outside the value set. *)
Definition faulty_trip : record :=
  filter (fun kv => negb (String.eqb (fst kv) "fare_amount"))
         (trip "maybe" monday_afternoon 6).

(** A model for the sample requests: it was trained with the given
    vocabulary and predicts the sum of the row. *)
Definition sample_model (cats : list string) : Model :=
  mk_model cats fsum.

(** The frame of the sample trip after date conversion. *)
Definition sample_frame : DataFrame :=
  Eval vm_compute in
    match convert_dates date_columns (pd_DataFrame [trip_Y] columns) with
    | Ok df => df
    | Raise _ => []
    end.

(** The frames [predict] hands to [preprocess] for the sample batches. *)
Definition frame_Y : DataFrame := Eval vm_compute in derived_frame_of [trip_Y].
Definition frame_N : DataFrame := Eval vm_compute in derived_frame_of [trip_N].
Definition frame_YN : DataFrame :=
  Eval vm_compute in derived_frame_of [trip_Y; trip_N].

(** What [preprocess] returns on a single trip. *)
Definition single_row_matrix : ndarray :=
  mk_ndarray float32 [(repeat 0%float 22 ++ [1%float])%list].

(** The columns [preprocess] selects from the two-trip frame. *)
Definition selected_YN : DataFrame :=
  Eval vm_compute in
    match getitems frame_YN (numerical ++ categorical) with
    | Ok X => X
    | Raise _ => []
    end.

(** Their numeric block. *)
Definition cols_YN : list (list float) :=
  Eval vm_compute in
    match numeric_block selected_YN with
    | Ok cols => cols
    | Raise _ => []
    end.

(** The matrix of the two-trip request. *)
Definition matrix_YN : ndarray :=
  Eval vm_compute in
    match request_matrix [trip_Y; trip_N] with
    | Ok X => X
    | Raise _ => mk_ndarray float64 []
    end.

(** ** More sample requests *)

(** A record with the value under one key replaced. *)
Definition with_key (k : string) (v : value) (r : record) : record :=
  map (fun kv => if String.eqb (fst kv) k then (k, v) else kv) r.

(** The sample trip with a JSON null as tip. *)
Definition trip_null_tip : record := with_key "tip_amount" VNone trip_Y.

(** The sample trip with a flag outside the value set. *)
Definition trip_bad_flag : record := trip "maybe" monday_afternoon 6.

(** The sample trip with a dropoff time no date-time reader accepts. *)
Definition trip_bad_dropoff : record :=
  with_key "lpep_dropoff_datetime" (VStr "hello") trip_Y.

(** The sample trip with another vendor, ehail fee and dropoff time. *)
Definition trip_Y_other_vendor : record :=
  with_key "VendorID" (VInt 2)
    (with_key "ehail_fee" (VFloat 3)
       (with_key "lpep_dropoff_datetime" (VStr "2024-03-12 09:00:00") trip_Y)).

(** The frame after the seven assignments of [feature_extraction], for a
    pickup column [vs]. *)
Definition with_pickup_fields (df : DataFrame) (vs : list value) : DataFrame :=
  fold_left (fun d cf => setitem d (fst cf) (map (dt_cell (hasnans vs) (snd cf)) vs))
            pickup_fields df.

(** Adjacent entries strictly increase. *)
Fixpoint ascending (l : list string) : bool :=
  match l with
  | a :: (b :: _) as t => String.ltb a b && ascending t
  | _ => true
  end.

(** ** The form front end (front_end.py)

    The state of the form when the button is pressed: the option chosen in
    each select box, the number in each number input, and the clock read for
    the pickup time. *)
Record Form : Set := mk_form {
  vendor_id : Z;
  store_and_fwd_flag : string;
  rate_code : Z;
  passenger_count : Z;
  trip_distance : float;
  pu_location : Z;
  do_location : Z;
  now : Timestamp;
  fare_amount : float;
  extra : float;
  mta_tax : float;
  tip_amount : float;
  tolls_amount : float;
  ehail_fee : float;
  improvement_surcharge : float;
  payment_type : Z;
  trip_type : Z;
  congestion_surcharge : float
}.

Definition one_of (options : list Z) (z : Z) : bool := existsb (Z.eqb z) options.

(** The amounts entered in the form, in the order they are added up. *)
Definition amounts (f : Form) : list float := [
  fare_amount f; extra f; mta_tax f; tip_amount f; tolls_amount f;
  ehail_fee f; improvement_surcharge f; congestion_surcharge f
].

(** What the widgets let through: an option of each select box, and numbers
    not below the [min_value] of each number input. *)
Definition widgets_ok (f : Form) : bool :=
  one_of [1; 2] (vendor_id f)
  && mem (store_and_fwd_flag f) ["Y"; "N"]
  && one_of [1; 2; 3; 4; 5; 6; 7; 8; 9; 10] (rate_code f)
  && one_of [1; 2; 3; 4; 5; 6] (passenger_count f)
  && (0 <=? trip_distance f)%float
  && (1 <=? pu_location f) && (1 <=? do_location f)
  && forallb (fun x => (0 <=? x)%float) (amounts f)
  && one_of [1; 2; 3; 4; 5] (payment_type f)
  && one_of [1; 2] (trip_type f).

(** [total_amount], the sum of the eight amounts from left to right. *)
Definition total_amount (f : Form) : float :=
  (fare_amount f + extra f + mta_tax f + tip_amount f + tolls_amount f
   + ehail_fee f + improvement_surcharge f + congestion_surcharge f)%float.

Definition digit_char (d : Z) : ascii := ascii_of_nat (48 + Z.to_nat d).

Definition pad2 (n : Z) : string :=
  String (digit_char (n / 10)) (String (digit_char (n mod 10)) EmptyString).

Definition pad4 (n : Z) : string :=
  String (digit_char (n / 1000))
    (String (digit_char (n / 100 mod 10)) (pad2 (n mod 100))).

(** [t.strftime("%Y-%m-%d %H:%M:%S")] for a four-digit year. *)
Definition strftime (t : Timestamp) : string :=
  String.append (pad4 (ts_year t))
    (String "-" (String.append (pad2 (ts_month t))
       (String "-" (String.append (pad2 (ts_day t))
          (String " " (String.append (pad2 (ts_hour t))
             (String ":" (String.append (pad2 (ts_minute t))
                (String ":" (pad2 (ts_second t))))))))))).

(** [input_data["data"]]: the one record the form posts to the endpoint. *)
Definition input_data (f : Form) : list record := [[
  ("VendorID", VInt (vendor_id f));
  ("lpep_pickup_datetime", VStr (strftime (now f)));
  ("lpep_dropoff_datetime", VStr (strftime (now f)));
  ("store_and_fwd_flag", VStr (store_and_fwd_flag f));
  ("RatecodeID", VInt (rate_code f));
  ("PULocationID", VInt (pu_location f));
  ("DOLocationID", VInt (do_location f));
  ("passenger_count", VInt (passenger_count f));
  ("trip_distance", VFloat (trip_distance f));
  ("fare_amount", VFloat (fare_amount f));
  ("extra", VFloat (extra f));
  ("mta_tax", VFloat (mta_tax f));
  ("tip_amount", VFloat (tip_amount f));
  ("tolls_amount", VFloat (tolls_amount f));
  ("ehail_fee", VFloat (ehail_fee f));
  ("improvement_surcharge", VFloat (improvement_surcharge f));
  ("total_amount", VFloat (total_amount f));
  ("payment_type", VInt (payment_type f));
  ("trip_type", VInt (trip_type f));
  ("congestion_surcharge", VFloat (congestion_surcharge f))
]].

(** The amounts of the form and their total are numbers, not NaN. *)
Definition amounts_are_numbers (f : Form) : bool :=
  forallb (fun x => negb (is_nan x))
          (trip_distance f :: total_amount f :: amounts f).

(** The numbers of the form can be read as finite doubles. *)
Definition numbers_are_finite (f : Form) : bool :=
  forallb is_finite (trip_distance f :: total_amount f :: amounts f)
  && (pu_location f <? max_int_float) && (do_location f <? max_int_float).

(** A form state for the examples. *)
Definition sample_form : Form :=
  mk_form 1 "N" 1 1 2.5 74 168 (mkTimestamp 2024 3 11 14 5 9)
          6 0.5 0.5 0 0 0 0.25 1 1 0.

(** ** Generic facts on the error monad and on frames *)

Lemma bind_Ok {A B : Type} (m : result A) (k : A -> result B) (b : B) :
  bind m k = Ok b -> exists a, m = Ok a /\ k a = Ok b.
Proof.
  destruct m as [a|e]; simpl; intros E; [eauto | discriminate].
Qed.

Lemma mapM_total {A B : Type} (f : A -> result B) (g : A -> B) (l : list A) :
  (forall a, In a l -> f a = Ok (g a)) -> mapM f l = Ok (map g l).
Proof.
  induction l as [|a l IH]; simpl; intros E; [reflexivity|].
  rewrite (E a (or_introl eq_refl)), IH; auto.
Qed.

Lemma mapM_Raise {A B : Type} (f : A -> result B) (l : list A) (a : A) (e : error) :
  In a l -> f a = Raise e ->
  (forall a' e', f a' = Raise e' -> e' = e) ->
  mapM f l = Raise e.
Proof.
  intros I E U; induction l as [|x l IH]; simpl in *; [contradiction|].
  destruct (f x) as [b|e'] eqn:Ex; simpl.
  - destruct I as [->|I]; [congruence|]. rewrite (IH I); reflexivity.
  - f_equal; eauto.
Qed.

Lemma list_eqb_refl (l : list string) : list_eqb l l = true.
Proof.
  induction l as [|a l IH]; simpl; [reflexivity|].
  rewrite String.eqb_refl; exact IH.
Qed.

Lemma mem_In (l : string) (ls : list string) : mem l ls = true <-> In l ls.
Proof.
  unfold mem; rewrite existsb_exists; split.
  - intros (x & I & E); apply String.eqb_eq in E; subst; exact I.
  - intros I; exists l; split; [exact I | apply String.eqb_refl].
Qed.

Lemma labels_pd_DataFrame (data : list record) (cols : list string) :
  labels (pd_DataFrame data cols) = cols.
Proof.
  unfold labels, pd_DataFrame; rewrite map_map; simpl; apply map_id.
Qed.

Lemma column_pd_DataFrame (data : list record) (cols : list string) (c : string) :
  In c cols -> column (pd_DataFrame data cols) c = Some (map (cell_of c) data).
Proof.
  unfold pd_DataFrame; induction cols as [|c' cols IH]; simpl; [contradiction|].
  destruct (String.eqb_spec c c') as [->|N]; [reflexivity|].
  intros [E|I]; [congruence | auto].
Qed.

Lemma column_None (df : DataFrame) (c : string) :
  column df c = None <-> ~ In c (labels df).
Proof.
  induction df as [|[c' vs] df IH]; simpl; [tauto|].
  destruct (String.eqb_spec c c') as [->|N].
  - split; [discriminate | intros X; exfalso; auto].
  - rewrite IH; split; [intros X [E|I]; [congruence | auto] | tauto].
Qed.

(** The frame only depends on what the records hold under the requested
    labels. *)
Lemma pd_DataFrame_ext (data data' : list record) (cols : list string) :
  Forall2 (fun r r' => forall c, In c cols -> get r c = get r' c) data data' ->
  pd_DataFrame data cols = pd_DataFrame data' cols.
Proof.
  intros F; unfold pd_DataFrame; apply map_ext_in; intros c I; f_equal.
  induction F as [|r r' data data' E F IH]; simpl; [reflexivity|].
  f_equal; [|exact IH]. unfold cell_of; rewrite (E c I); reflexivity.
Qed.

Lemma get_filter_in_contract (r : record) (c : string) :
  In c columns -> get (filter in_contract r) c = get r c.
Proof.
  intros I; induction r as [|[k v] r IH]; simpl; [reflexivity|].
  destruct (in_contract (k, v)) eqn:M; simpl.
  - rewrite IH; reflexivity.
  - destruct (String.eqb_spec c k) as [->|N]; [|exact IH].
    apply (proj2 (mem_In _ _)) in I.
    unfold in_contract in M; cbn [fst] in M; congruence.
Qed.

(** Reordering the keys of a dict does not change what [get] finds. *)
Lemma get_Permutation (c : string) (r r' : record) :
  Permutation r r' -> NoDup (map fst r) -> get r c = get r' c.
Proof.
  intros P; induction P as [|[k v] r r' P IH|[k1 v1] [k2 v2] r|r1 r2 r3 P1 IH1 P2 IH2];
    simpl; intros N.
  - reflexivity.
  - inversion N; subst. rewrite IH; auto.
  - destruct (String.eqb_spec c k1) as [E1|N1];
      destruct (String.eqb_spec c k2) as [E2|N2]; try reflexivity.
    inversion N as [|? ? X]; subst. exfalso; apply X; left; reflexivity.
  - rewrite IH1, IH2; auto.
    eapply Permutation_NoDup; [|exact N]. apply Permutation_map; exact P1.
Qed.

(** ** The validation gate *)

(** The suite as Great Expectations runs it: the value-set expectation of
    the flag moves next to the flag's not-null expectation, the table
    expectation stays last. *)
Lemma evaluated_suite :
  process_expectations_for_validation suite
  = (firstn 4 null_expectations
     ++ [ExpectColumnValuesToBeInSet "store_and_fwd_flag" ["Y"; "N"]]
     ++ skipn 4 null_expectations)
    ++ [ExpectTableColumnsToMatchOrderedList columns].
Proof. reflexivity. Qed.

Lemma In_evaluated (e : expectation) :
  In e (process_expectations_for_validation suite) <-> In e suite.
Proof.
  rewrite evaluated_suite; unfold suite.
  rewrite <- (firstn_skipn 4 null_expectations) at 3.
  rewrite !in_app_iff; tauto.
Qed.

Lemma validation_results_fst (df : DataFrame) :
  map fst (validation_results df) = process_expectations_for_validation suite.
Proof.
  unfold validation_results; rewrite map_map; cbn [fst]; apply map_id.
Qed.

Lemma In_failed_expectations (df : DataFrame) (e : expectation) :
  In e (failed_expectations df) <-> In e suite /\ success df e = false.
Proof.
  rewrite <- In_evaluated.
  unfold failed_expectations, validation_results.
  rewrite in_map_iff; split.
  - intros ([e' b] & <- & I); apply filter_In in I as [I F].
    apply in_map_iff in I as (e'' & E & I); injection E as -> <-.
    simpl in *; split; [exact I | destruct (success df e'); auto; discriminate].
  - intros [I F]; exists (e, false); split; [reflexivity|].
    apply filter_In; split; [|reflexivity].
    apply in_map_iff; exists e; rewrite F; auto.
Qed.

Lemma validate_Ok_iff (df : DataFrame) :
  validate_input_data df = Ok true <-> forall e, In e suite -> success df e = true.
Proof.
  unfold validate_input_data.
  destruct (forallb snd (validation_results df)) eqn:A.
  - split; [intros _ e I | reflexivity].
    rewrite forallb_forall in A.
    apply (A (e, success df e)), in_map_iff; exists e; split; [reflexivity|].
    apply In_evaluated, I.
  - split; [discriminate|]; intros S; exfalso.
    assert (forallb snd (validation_results df) = true); [|congruence].
    apply forallb_forall; intros [e b] I.
    apply in_map_iff in I as (e' & E & I); injection E as -> <-; simpl.
    apply S, In_evaluated, I.
Qed.

Lemma validate_Raise (df : DataFrame) (e : expectation) :
  In e suite -> success df e = false ->
  validate_input_data df =
  Raise (ValidationError (length (failed_expectations df)) (failed_expectations df)).
Proof.
  intros I F; unfold validate_input_data.
  destruct (forallb snd (validation_results df)) eqn:A; [|reflexivity].
  rewrite forallb_forall in A.
  assert (X : snd (e, success df e) = true).
  { apply A, in_map_iff; exists e; split; [reflexivity | apply In_evaluated, I]. }
  simpl in X; congruence.
Qed.

Lemma validate_cases (df : DataFrame) :
  validate_input_data df = Ok true
  \/ validate_input_data df =
     Raise (ValidationError (length (failed_expectations df)) (failed_expectations df)).
Proof.
  unfold validate_input_data; destruct (forallb snd (validation_results df)); auto.
Qed.

Lemma order_check_succeeds (data : list record) :
  success (pd_DataFrame data columns) (ExpectTableColumnsToMatchOrderedList columns)
  = true.
Proof.
  cbn [success]; rewrite labels_pd_DataFrame; apply list_eqb_refl.
Qed.

Lemma failed_nil_all_succeed (df : DataFrame) :
  failed_expectations df = [] -> forall e, In e suite -> success df e = true.
Proof.
  intros E e I; destruct (success df e) eqn:S; [reflexivity|].
  assert (X : In e (failed_expectations df))
    by (apply In_failed_expectations; auto).
  rewrite E in X; destruct X.
Qed.

Lemma failed_not_nil (df : DataFrame) :
  failed_expectations df <> [] -> exists e, In e suite /\ success df e = false.
Proof.
  destruct (failed_expectations df) as [|e l] eqn:E; [congruence|]; intros _.
  exists e; apply (proj1 (In_failed_expectations df e)).
  rewrite E; left; reflexivity.
Qed.

Lemma predict_validation_error `{Runtime} (model : Model) (data : list record) e :
  validate_input_data (pd_DataFrame data columns) = Raise e ->
  predict model data = Raise e.
Proof.
  intros E; unfold predict; rewrite E; reflexivity.
Qed.

Lemma request_validation_error `{Runtime} (data : list record) e :
  validate_input_data (pd_DataFrame data columns) = Raise e ->
  request_matrix data = Raise e.
Proof.
  intros E; unfold request_matrix; rewrite E; reflexivity.
Qed.

Lemma list_eqb_eq (l1 l2 : list string) : list_eqb l1 l2 = true <-> l1 = l2.
Proof.
  split; [|intros ->; apply list_eqb_refl].
  revert l2; induction l1 as [|a l1 IH]; intros [|b l2]; simpl;
    try discriminate; [reflexivity|].
  intros E; apply andb_prop in E as [E1 E2].
  apply String.eqb_eq in E1; f_equal; auto.
Qed.

Lemma In_suite (e : expectation) :
  In e suite <->
  (exists c, In c columns /\ e = ExpectColumnValuesToNotBeNull c)
  \/ e = ExpectColumnValuesToBeInSet "store_and_fwd_flag" ["Y"; "N"]
  \/ e = ExpectTableColumnsToMatchOrderedList columns.
Proof.
  unfold suite, null_expectations; rewrite !in_app_iff, in_map_iff; cbn [In].
  split.
  - intros [(c & E & I)|[[E|[]]|[E|[]]]]; eauto.
  - intros [(c & I & ->)|[->| ->]]; eauto.
Qed.

(** What makes each expectation of the suite fail. *)
Lemma not_null_fails_iff (df : DataFrame) (c : string) :
  success df (ExpectColumnValuesToNotBeNull c) = false <->
  ~ exists vs, column df c = Some vs
               /\ forallb (fun v => negb (isnull v)) vs = true.
Proof.
  cbn [success]; destruct (column df c) as [vs|]; split.
  - intros F (vs' & E & A); injection E as <-; congruence.
  - intros N; destruct (forallb _ vs) eqn:A; [|reflexivity].
    exfalso; apply N; eauto.
  - intros _ (vs' & E & _); discriminate.
  - reflexivity.
Qed.

Lemma value_set_fails_iff (df : DataFrame) (c : string) (set : list string) :
  success df (ExpectColumnValuesToBeInSet c set) = false <->
  ~ exists vs, column df c = Some vs
               /\ forallb (fun v => isnull v || in_value_set set v) vs = true.
Proof.
  cbn [success]; destruct (column df c) as [vs|]; split.
  - intros F (vs' & E & A); injection E as <-; congruence.
  - intros N; destruct (forallb _ vs) eqn:A; [|reflexivity].
    exfalso; apply N; eauto.
  - intros _ (vs' & E & _); discriminate.
  - reflexivity.
Qed.

Lemma order_fails_iff (df : DataFrame) (ls : list string) :
  success df (ExpectTableColumnsToMatchOrderedList ls) = false <-> labels df <> ls.
Proof.
  cbn [success]; split.
  - intros F E; apply list_eqb_eq in E; congruence.
  - intros N; destruct (list_eqb (labels df) ls) eqn:E; [|reflexivity].
    apply list_eqb_eq in E; contradiction.
Qed.

(** C5: the gate runs the three kinds of check on every frame, each
    whatever the outcome of the others.  The not-null expectation of a
    contract column is among the failures exactly when the column is missing
    or holds a null; the value-set expectation exactly when the flag column
    is missing or holds a non-null cell other than the texts Y and N; the
    order expectation exactly when the labels are not the contract's list.
    Nothing else is reported.  With no failure the gate returns; with at
    least one it raises one error that carries the number of failures and
    the list of all of them, and a request whose frame this is stops there
    with that error: no matrix is built and no prediction is made. *)
Theorem validation_reports_every_failed_check :
  forall (R : Runtime) (model : Model) (df : DataFrame),
    let failed := failed_expectations df in
    (forall c, In c columns ->
       (In (ExpectColumnValuesToNotBeNull c) failed <->
        ~ exists vs, column df c = Some vs
                     /\ forallb (fun v => negb (isnull v)) vs = true))
    /\ (In (ExpectColumnValuesToBeInSet "store_and_fwd_flag" ["Y"; "N"]) failed <->
        ~ exists vs, column df "store_and_fwd_flag" = Some vs
                     /\ forallb (fun v => isnull v || in_value_set ["Y"; "N"] v) vs
                        = true)
    /\ (In (ExpectTableColumnsToMatchOrderedList columns) failed <->
        labels df <> columns)
    /\ (forall e, In e failed -> In e suite)
    /\ (failed = [] -> validate_input_data df = Ok true)
    /\ (failed <> [] ->
        validate_input_data df = Raise (ValidationError (length failed) failed))
    /\ (forall data : list record,
           df = pd_DataFrame data columns -> failed <> [] ->
           request_matrix data = Raise (ValidationError (length failed) failed)
           /\ predict model data = Raise (ValidationError (length failed) failed)).
Proof.
  intros R model df failed.
  assert (Rs : failed <> [] ->
               validate_input_data df = Raise (ValidationError (length failed) failed)).
  { intros N; destruct (failed_not_nil _ N) as (e & I & F).
    exact (validate_Raise df e I F). }
  split; [|split; [|split; [|split; [|split; [|split]]]]].
  - intros c I; unfold failed; rewrite In_failed_expectations, not_null_fails_iff.
    split; [tauto|]; intros N; split; [apply In_suite; eauto | exact N].
  - unfold failed; rewrite In_failed_expectations, value_set_fails_iff.
    split; [tauto|]; intros N; split; [apply In_suite; auto | exact N].
  - unfold failed; rewrite In_failed_expectations, order_fails_iff.
    split; [tauto|]; intros N; split; [apply In_suite; auto | exact N].
  - intros e I; apply (proj1 (In_failed_expectations df e)), I.
  - intros E; apply validate_Ok_iff, failed_nil_all_succeed, E.
  - exact Rs.
  - intros data -> N; split.
    + apply request_validation_error, Rs, N.
    + apply predict_validation_error, Rs, N.
Qed.

(** C10: the frame validation sees is rebuilt from the records against the
    contract's column list.  Its labels are the contract's, in the contract's
    order; keys outside the contract play no role, neither in the frame nor in
    the outcome of the request; the order check is never among the failures;
    and a contract key that a record lacks shows up as a failed not-null
    expectation on that column, with which the request is refused. *)
Theorem records_are_rebuilt_against_the_contract :
  forall (R : Runtime) (model : Model) (data : list record),
    let df := pd_DataFrame data columns in
    labels df = columns
    /\ (forall c, In c columns -> column df c = Some (map (cell_of c) data))
    /\ pd_DataFrame (map (filter in_contract) data) columns = df
    /\ predict model (map (filter in_contract) data) = predict model data
    /\ ~ In (ExpectTableColumnsToMatchOrderedList columns) (failed_expectations df)
    /\ (forall r c, In r data -> In c columns -> get r c = None ->
          cell_of c r = VNaN
          /\ In (ExpectColumnValuesToNotBeNull c) (failed_expectations df)
          /\ predict model data =
             Raise (ValidationError (length (failed_expectations df))
                                    (failed_expectations df))).
Proof.
  intros R model data df.
  assert (F : pd_DataFrame (map (filter in_contract) data) columns = df).
  { apply pd_DataFrame_ext. induction data as [|r data IH]; constructor; auto.
    intros c I; apply get_filter_in_contract, I. }
  split; [apply labels_pd_DataFrame|].
  split; [intros c I; apply column_pd_DataFrame, I|].
  split; [exact F|].
  split; [unfold predict; fold df; rewrite F; reflexivity|].
  split.
  - intros I; apply In_failed_expectations in I as [_ S].
    unfold df in S; rewrite order_check_succeeds in S; discriminate.
  - intros r c Ir Ic G.
    assert (Is : In (ExpectColumnValuesToNotBeNull c) suite).
    { unfold suite, null_expectations; apply in_or_app; left.
      apply in_map, Ic. }
    assert (S : success df (ExpectColumnValuesToNotBeNull c) = false).
    { cbn [success]; unfold df; rewrite (column_pd_DataFrame data _ _ Ic).
      destruct (forallb _ _) eqn:A; [|reflexivity].
      rewrite forallb_forall in A.
      specialize (A (cell_of c r) (in_map _ _ _ Ir)).
      unfold cell_of in A; rewrite G in A; discriminate. }
    split; [unfold cell_of; rewrite G; reflexivity|].
    split; [apply (proj2 (In_failed_expectations df _)); auto|].
    apply predict_validation_error, (validate_Raise df _ Is S).
Qed.

(** C3 (as the code has it): a batch whose records list the contract's
    columns in another order gives the same frame as the batch in the
    contract's order, so the order check succeeds, validation gives the same
    verdict and the request the same outcome. *)
Theorem key_order_is_irrelevant_to_validation :
  forall (R : Runtime) (model : Model) (data data' : list record),
    Forall2 (fun r r' => NoDup (map fst r) /\ Permutation r r') data data' ->
    pd_DataFrame data' columns = pd_DataFrame data columns
    /\ success (pd_DataFrame data' columns)
               (ExpectTableColumnsToMatchOrderedList columns) = true
    /\ validate_input_data (pd_DataFrame data' columns)
       = validate_input_data (pd_DataFrame data columns)
    /\ predict model data' = predict model data.
Proof.
  intros R model data data' F.
  assert (E : pd_DataFrame data' columns = pd_DataFrame data columns).
  { symmetry; apply pd_DataFrame_ext.
    induction F as [|r r' data data' [N P] F IH]; constructor; auto.
    intros c _; apply get_Permutation; assumption. }
  split; [exact E|].
  split; [apply order_check_succeeds|].
  split; [rewrite E; reflexivity|].
  unfold predict; rewrite E; reflexivity.
Qed.

(** ** Frames: reading and writing columns *)

Lemma column_setitem (df : DataFrame) (c c' : string) (vs : list value) :
  column (setitem df c vs) c' = if String.eqb c' c then Some vs else column df c'.
Proof.
  induction df as [|[c0 vs0] df IH]; simpl.
  - destruct (String.eqb c' c); reflexivity.
  - destruct (String.eqb_spec c c0) as [->|N]; simpl.
    + destruct (String.eqb c' c0); reflexivity.
    + destruct (String.eqb_spec c' c0) as [->|N'].
      * destruct (String.eqb_spec c0 c); [congruence | reflexivity].
      * exact IH.
Qed.

Lemma labels_setitem (df : DataFrame) (c : string) (vs : list value) :
  In c (labels df) -> labels (setitem df c vs) = labels df.
Proof.
  induction df as [|[c0 vs0] df IH]; simpl; [contradiction|].
  destruct (String.eqb_spec c c0) as [->|N]; simpl; [reflexivity|].
  intros [E|I]; [congruence | f_equal; auto].
Qed.

Lemma setitem_absent (df acc : DataFrame) (c : string) (vs : list value) :
  ~ In c (labels df) -> ~ In c (labels acc) ->
  setitem (df ++ acc) c vs = df ++ (acc ++ [(c, vs)]).
Proof.
  intros N1 N2; induction df as [|[c0 vs0] df IH]; simpl in *.
  - induction acc as [|[c1 vs1] acc IH]; simpl in *; [reflexivity|].
    destruct (String.eqb_spec c c1) as [->|N]; [tauto|].
    f_equal; apply IH; tauto.
  - destruct (String.eqb_spec c c0) as [->|N]; [tauto|].
    f_equal; apply IH; tauto.
Qed.

Lemma column_app (df acc : DataFrame) (c : string) :
  In c (labels df) -> column (df ++ acc) c = column df c.
Proof.
  induction df as [|[c0 vs0] df IH]; simpl; [contradiction|].
  destruct (String.eqb_spec c c0) as [->|N]; [reflexivity|].
  intros [E|I]; [congruence | auto].
Qed.

Lemma filter_setitem_dropped (df : DataFrame) (c : string) (vs : list value) :
  kept (c, vs) = false -> filter kept (setitem df c vs) = filter kept df.
Proof.
  intros K; induction df as [|[c0 vs0] df IH]; simpl.
  - rewrite K; reflexivity.
  - destruct (String.eqb_spec c c0) as [->|N]; simpl.
    + unfold kept in *; simpl in *; rewrite K; reflexivity.
    + rewrite IH; reflexivity.
Qed.

(** ** Date-time conversion *)

Lemma is_datetimelike_datetime_cell (ts : list (option Timestamp)) :
  is_datetimelike (map datetime_cell ts) = true.
Proof.
  induction ts as [|[t|] ts IH]; simpl; auto.
Qed.

Lemma pd_to_datetime_Ok `{Runtime} (c : string) (vs cells : list value) :
  pd_to_datetime c vs = Ok cells ->
  exists ts, to_datetime vs = Some ts /\ cells = map datetime_cell ts
             /\ length ts = length vs.
Proof.
  unfold pd_to_datetime; destruct (to_datetime vs) as [ts|] eqn:E; [|discriminate].
  intros X; injection X as <-; exists ts.
  split; [reflexivity|]; split; [reflexivity|].
  apply (to_datetime_length vs ts E).
Qed.

Lemma pd_to_datetime_length `{Runtime} (c : string) (vs ts : list value) :
  pd_to_datetime c vs = Ok ts -> length ts = length vs.
Proof.
  intros E; destruct (pd_to_datetime_Ok c vs ts E) as (os & _ & -> & L).
  rewrite length_map; exact L.
Qed.

Lemma pd_to_datetime_datetimelike `{Runtime} (c : string) (vs ts : list value) :
  pd_to_datetime c vs = Ok ts -> is_datetimelike ts = true.
Proof.
  intros E; destruct (pd_to_datetime_Ok c vs ts E) as (os & _ & -> & _).
  apply is_datetimelike_datetime_cell.
Qed.

(** The conversion loop on the frame of a request: it reads the pickup
    column, then the dropoff column, and stops at the first that raises. *)
Lemma convert_dates_request `{Runtime} (data : list record) :
  convert_dates date_columns (pd_DataFrame data columns) =
  match to_datetime (map (cell_of "lpep_pickup_datetime") data) with
  | None => Raise (DateParseError "lpep_pickup_datetime")
  | Some ts =>
      match to_datetime (map (cell_of "lpep_dropoff_datetime") data) with
      | None => Raise (DateParseError "lpep_dropoff_datetime")
      | Some ds =>
          Ok (setitem (setitem (pd_DataFrame data columns) "lpep_pickup_datetime"
                         (map datetime_cell ts))
                "lpep_dropoff_datetime" (map datetime_cell ds))
      end
  end.
Proof.
  unfold date_columns; cbn [convert_dates]; unfold getitem.
  rewrite column_pd_DataFrame by (unfold columns; simpl; auto).
  cbn [bind]; unfold pd_to_datetime at 1.
  destruct (to_datetime (map (cell_of "lpep_pickup_datetime") data)) as [ts|];
    [|reflexivity].
  cbn [bind]; rewrite column_setitem; cbn [String.eqb Ascii.eqb Bool.eqb].
  rewrite column_pd_DataFrame by (unfold columns; simpl; auto 10).
  cbn [bind]; unfold pd_to_datetime.
  destruct (to_datetime (map (cell_of "lpep_dropoff_datetime") data)) as [ds|];
    reflexivity.
Qed.

Lemma convert_dates_Ok `{Runtime} (data : list record) (df : DataFrame) :
  convert_dates date_columns (pd_DataFrame data columns) = Ok df ->
  exists ts ds : list (option Timestamp),
    to_datetime (map (cell_of "lpep_pickup_datetime") data) = Some ts
    /\ to_datetime (map (cell_of "lpep_dropoff_datetime") data) = Some ds
    /\ length ts = length data
    /\ df = setitem (setitem (pd_DataFrame data columns) "lpep_pickup_datetime"
                      (map datetime_cell ts))
                    "lpep_dropoff_datetime" (map datetime_cell ds).
Proof.
  rewrite convert_dates_request.
  destruct (to_datetime (map (cell_of "lpep_pickup_datetime") data)) as [ts|] eqn:Et;
    [|discriminate].
  destruct (to_datetime (map (cell_of "lpep_dropoff_datetime") data)) as [ds|];
    [|discriminate].
  intros E; injection E as <-; exists ts, ds.
  split; [reflexivity|]; split; [reflexivity|]; split; [|reflexivity].
  rewrite (to_datetime_length _ _ Et); apply length_map.
Qed.

Lemma convert_dates_error `{Runtime} (data : list record) (e : error) :
  convert_dates date_columns (pd_DataFrame data columns) = Raise e ->
  e = DateParseError "lpep_pickup_datetime"
  \/ e = DateParseError "lpep_dropoff_datetime".
Proof.
  rewrite convert_dates_request.
  destruct (to_datetime (map (cell_of "lpep_pickup_datetime") data)) as [ts|];
    [|intros E; injection E as <-; auto].
  destruct (to_datetime (map (cell_of "lpep_dropoff_datetime") data)) as [ds|];
    [discriminate | intros E; injection E as <-; auto].
Qed.

(** ** Feature derivation *)

Lemma dt_datetimelike (df : DataFrame) (c : string) (vs : list value) f :
  column df c = Some vs -> is_datetimelike vs = true ->
  dt df c f = Ok (map (dt_cell (hasnans vs) f) vs).
Proof.
  intros E D; unfold dt, getitem; rewrite E; cbn [bind]; rewrite D; reflexivity.
Qed.

Lemma dt_app (df acc : DataFrame) (vs : list value) (c : string) f :
  In c (labels df) -> column df c = Some vs -> is_datetimelike vs = true ->
  dt (df ++ acc) c f = Ok (map (dt_cell (hasnans vs) f) vs).
Proof.
  intros I E D; apply dt_datetimelike; [|exact D].
  rewrite (column_app _ _ _ I); exact E.
Qed.

Lemma feature_extraction_closed_form (df : DataFrame) (vs : list value) :
  labels df = columns ->
  column df "lpep_pickup_datetime" = Some vs ->
  is_datetimelike vs = true ->
  feature_extraction df = Ok (filter kept df ++ derived_columns vs).
Proof.
  intros L E D.
  assert (I : In "lpep_pickup_datetime" (labels df))
    by (rewrite L; unfold columns; simpl; auto).
  assert (A : forall c, mem c columns = false -> ~ In c (labels df)).
  { intros c M X; rewrite L in X; apply mem_In in X; congruence. }
  replace (feature_extraction df) with (feature_extraction (df ++ []))
    by (rewrite app_nil_r; reflexivity).
  unfold feature_extraction.
  do 7 (rewrite (dt_app _ _ _ _ _ I E D); cbn [bind];
        rewrite setitem_absent;
        [|apply A; reflexivity | simpl; intuition discriminate]).
  unfold drop, missing, labels; rewrite map_app; fold (labels df); rewrite L.
  cbn [app]; rewrite filter_app; reflexivity.
Qed.

Lemma labels_filter_kept (df : DataFrame) :
  labels (filter kept df) = filter (fun c => negb (mem c dropped)) (labels df).
Proof.
  induction df as [|[c vs] df IH]; [reflexivity|].
  cbn [filter labels map fst]; unfold kept at 1; cbn [fst].
  fold (labels df); fold (labels (filter kept df)).
  destruct (negb (mem c dropped)); cbn [labels map fst];
    fold (labels (filter kept df)); rewrite IH; reflexivity.
Qed.

Lemma dayofweek_range (y m d : Z) : 0 <= dayofweek y m d < 7.
Proof.
  unfold dayofweek; apply Z.mod_pos_bound; lia.
Qed.

(** The day after has the next weekday number, wrapping from 6 to 0. *)
Lemma dayofweek_next (y m d : Z) :
  dayofweek y m (d + 1) = (dayofweek y m d + 1) mod 7.
Proof.
  unfold dayofweek.
  set (b := (if m <? 3 then y - 1 else y)).
  set (a := b + b / 4 - b / 100 + b / 400 + nth (Z.to_nat (m - 1)) sakamoto_arr 0).
  assert (W : forall x, (x mod 7 + 6) mod 7 = (x + 6) mod 7)
    by (intros x; apply Zplus_mod_idemp_l).
  rewrite !W, Zplus_mod_idemp_l; f_equal; lia.
Qed.

Lemma column_filter_kept (df : DataFrame) (c : string) :
  mem c dropped = false -> column (filter kept df) c = column df c.
Proof.
  intros M; induction df as [|[c0 vs0] df IH]; [reflexivity|].
  cbn [filter column]; unfold kept at 1; cbn [fst].
  destruct (String.eqb_spec c c0) as [<-|N].
  - rewrite M; cbn [negb column]; rewrite String.eqb_refl; reflexivity.
  - destruct (negb (mem c0 dropped)); cbn [column]; [|exact IH].
    destruct (String.eqb_spec c c0); [congruence | exact IH].
Qed.

Lemma feature_extraction_labels (df : DataFrame) (ts : list value) :
  labels df = columns ->
  labels (filter kept df ++ derived_columns ts) = derived_labels.
Proof.
  intros L; unfold labels at 1; rewrite map_app.
  fold (labels (filter kept df)); rewrite labels_filter_kept, L; reflexivity.
Qed.

(** ** The calendar *)

Lemma leap_days_step (y : Z) :
  y / 4 - y / 100 + y / 400
  = (y - 1) / 4 - (y - 1) / 100 + (y - 1) / 400 + (if is_leap y then 1 else 0).
Proof.
  unfold is_leap.
  destruct (Z.eqb_spec (y mod 4) 0) as [A|A];
    destruct (Z.eqb_spec (y mod 100) 0) as [B|B];
    destruct (Z.eqb_spec (y mod 400) 0) as [C|C]; cbn [andb orb negb];
    Z.div_mod_to_equations; lia.
Qed.

Lemma mod7_shift (a b : Z) :
  a mod 7 = b mod 7 -> ((a mod 7) + 6) mod 7 = (b + 6) mod 7.
Proof.
  intros E; rewrite E, Zplus_mod_idemp_l; reflexivity.
Qed.

Lemma month_cases (m : Z) :
  1 <= m <= 12 ->
  m = 1 \/ m = 2 \/ m = 3 \/ m = 4 \/ m = 5 \/ m = 6 \/ m = 7
  \/ m = 8 \/ m = 9 \/ m = 10 \/ m = 11 \/ m = 12.
Proof. lia. Qed.

Lemma days_before_month_closed (y m : Z) :
  1 <= m <= 12 ->
  days_before_month y m
  = nth (Z.to_nat (m - 1)) days_before_month_table 0
    + (if (2 <? m) && is_leap y then 1 else 0).
Proof.
  intros B; pose proof (month_cases m B) as C.
  unfold days_before_month, days_in_month.
  repeat (destruct C as [->|C]); [..|subst m];
    cbn [Z.sub Z.add Z.opp Z.pos_sub Z.to_nat Pos.to_nat Pos.iter_op Nat.add
         Z.pred_double Z.double Z.succ_double Pos.pred_double seq map fold_right];
    destruct (is_leap y); reflexivity.
Qed.

Ltac evaluate_month :=
  repeat match goal with
         | |- context [nth ?n ?l 0] =>
             let v := eval vm_compute in (nth n l 0) in change (nth n l 0) with v
         | |- context [Z.ltb ?a ?b] =>
             let v := eval vm_compute in (Z.ltb a b) in change (Z.ltb a b) with v
         end;
  cbn [andb]; cbv iota.

(** The weekday number pandas computes is the one of the calendar: the
    number of days since a Monday, modulo 7. *)
Lemma dayofweek_weekday (y m d : Z) :
  1 <= m <= 12 -> dayofweek y m d = weekday y m d.
Proof.
  intros B.
  unfold dayofweek, weekday, toordinal, days_before_year.
  rewrite (days_before_month_closed y m B).
  apply mod7_shift.
  pose proof (leap_days_step y) as L.
  pose proof (month_cases m B) as C.
  repeat (destruct C as [->|C]); [..|subst m];
    evaluate_month;
    generalize dependent (y / 4); intros q1;
    generalize dependent (y / 100); intros q2;
    generalize dependent (y / 400); intros q3;
    generalize dependent ((y - 1) / 4); intros p1;
    generalize dependent ((y - 1) / 100); intros p2;
    generalize dependent ((y - 1) / 400); intros p3 L;
    destruct (is_leap y);
    Z.div_mod_to_equations; lia.
Qed.

(** The first of January of year 1 is day 1 and a Monday; so is the
    eleventh of March 2024. *)
Lemma weekday_anchors :
  toordinal 1 1 1 = 1 /\ weekday 1 1 1 = 0
  /\ toordinal 2024 3 11 = 738956 /\ weekday 2024 3 11 = 0
  /\ weekday 2024 3 17 = 6 /\ weekday 1970 1 1 = 3.
Proof. repeat split; reflexivity. Qed.

(** ** The derived frame of a request *)

Lemma map_fst_combine {A B : Type} (l : list A) (l' : list B) :
  length l = length l' -> map fst (combine l l') = l.
Proof.
  revert l'; induction l as [|a l IH]; intros [|b l']; simpl;
    try discriminate; [reflexivity|].
  intros E; f_equal; apply IH; congruence.
Qed.

Lemma map_snd_combine {A B : Type} (l : list A) (l' : list B) :
  length l = length l' -> map snd (combine l l') = l'.
Proof.
  revert l'; induction l as [|a l IH]; intros [|b l']; simpl;
    try discriminate; [reflexivity|].
  intros E; f_equal; apply IH; congruence.
Qed.

Lemma column_app_absent (df acc : DataFrame) (c : string) :
  ~ In c (labels df) -> column (df ++ acc) c = column acc c.
Proof.
  induction df as [|[c0 vs0] df IH]; simpl; [reflexivity|].
  destruct (String.eqb_spec c c0) as [->|N]; [tauto|].
  intros X; apply IH; tauto.
Qed.

Lemma assoc_pickup_fields (c : string) (f : Timestamp -> Z) :
  In (c, f) pickup_fields -> assoc c pickup_fields = Some f.
Proof.
  unfold pickup_fields; cbn [In]; intros I.
  repeat (destruct I as [E|I]; [injection E as <- <-; reflexivity|]);
    destruct I.
Qed.

Lemma assoc_pickup_fields_None (c : string) :
  In c columns -> assoc c pickup_fields = None.
Proof.
  unfold columns; cbn [In]; intros I.
  repeat (destruct I as [<-|I]; [reflexivity|]); destruct I.
Qed.

Lemma assoc_pickup_fields_In (c : string) (f : Timestamp -> Z) :
  assoc c pickup_fields = Some f -> In c (map fst pickup_fields).
Proof.
  unfold pickup_fields; cbn [assoc map fst]; intros A.
  repeat match type of A with
         | (if String.eqb c ?l then _ else _) = _ =>
             destruct (String.eqb_spec c l) as [->|?]; [simpl; tauto|]
         end.
  discriminate.
Qed.

Section DerivedFrame.
Context `{R : Runtime}.

(** The records of a batch whose pickup column is read: as many pickup
    times as records. *)
Lemma timed_read (data : list record) (ts : list (option Timestamp)) :
  to_datetime (map (cell_of "lpep_pickup_datetime") data) = Some ts ->
  pickup_times data = ts
  /\ length ts = length data
  /\ timed data = combine data ts
  /\ map fst (timed data) = data
  /\ map snd (timed data) = ts
  /\ length (timed data) = length data.
Proof.
  intros E.
  assert (P : pickup_times data = ts) by (unfold pickup_times; rewrite E; reflexivity).
  assert (L : length ts = length data).
  { rewrite (to_datetime_length _ _ E); apply length_map. }
  unfold timed; rewrite P.
  split; [reflexivity|]; split; [exact L|]; split; [reflexivity|].
  split; [apply map_fst_combine; congruence|].
  split; [apply map_snd_combine; congruence|].
  rewrite length_combine, L; apply Nat.min_id.
Qed.

Lemma derived_cell_raw (data : list record) (c : string)
  (ro : record * option Timestamp) :
  assoc c pickup_fields = None -> derived_cell data c ro = cell_of c (fst ro).
Proof.
  intros E; unfold derived_cell; rewrite E; reflexivity.
Qed.

Lemma column_tabulate (data : list record) (ls : list string) (c : string) :
  In c ls -> column (tabulate data ls) c = Some (map (derived_cell data c) (timed data)).
Proof.
  unfold tabulate; induction ls as [|l ls IH]; [contradiction|].
  cbn [map column]; destruct (String.eqb_spec c l) as [->|N]; [reflexivity|].
  intros [E|I]; [congruence | auto].
Qed.

Lemma labels_tabulate (data : list record) (ls : list string) :
  labels (tabulate data ls) = ls.
Proof.
  unfold labels, tabulate; rewrite map_map; cbn [fst]; apply map_id.
Qed.

(** A column of the request, in the derived frame. *)
Lemma raw_column_timed (data : list record) (ts : list (option Timestamp))
  (c : string) :
  to_datetime (map (cell_of "lpep_pickup_datetime") data) = Some ts ->
  assoc c pickup_fields = None ->
  map (derived_cell data c) (timed data) = map (cell_of c) data.
Proof.
  intros E A; destruct (timed_read data ts E) as (_ & _ & _ & F & _).
  transitivity (map (cell_of c) (map fst (timed data))); [|rewrite F; reflexivity].
  rewrite map_map; apply map_ext; intros ro; apply derived_cell_raw, A.
Qed.

(** A pickup field, in the derived frame. *)
Lemma field_column_timed (data : list record) (ts : list (option Timestamp))
  (c : string) (f : Timestamp -> Z) :
  to_datetime (map (cell_of "lpep_pickup_datetime") data) = Some ts ->
  assoc c pickup_fields = Some f ->
  map (derived_cell data c) (timed data)
  = map (dt_cell (hasnans (map datetime_cell ts)) f) (map datetime_cell ts).
Proof.
  intros E A; destruct (timed_read data ts E) as (P & _ & _ & _ & S & _).
  transitivity (map (dt_cell (hasnans (map datetime_cell ts)) f)
                    (map datetime_cell (map snd (timed data))));
    [|rewrite S; reflexivity].
  rewrite !map_map.
  apply map_ext; intros ro; unfold derived_cell; rewrite A, P; reflexivity.
Qed.

Lemma filter_kept_pd_DataFrame (data : list record) (cols : list string) :
  filter kept (pd_DataFrame data cols)
  = pd_DataFrame data (filter (fun c => negb (mem c dropped)) cols).
Proof.
  unfold pd_DataFrame; induction cols as [|c cols IH]; [reflexivity|].
  cbn [map filter]; unfold kept at 1; cbn [fst].
  destruct (negb (mem c dropped)); cbn [map]; rewrite IH; reflexivity.
Qed.

Lemma derived_frame_tabulate (data : list record) (ts : list (option Timestamp)) :
  to_datetime (map (cell_of "lpep_pickup_datetime") data) = Some ts ->
  filter kept (pd_DataFrame data columns) ++ derived_columns (map datetime_cell ts)
  = tabulate data derived_labels.
Proof.
  intros E; rewrite filter_kept_pd_DataFrame.
  change derived_labels
    with (filter (fun c => negb (mem c dropped)) columns ++ map fst pickup_fields).
  unfold tabulate; rewrite map_app; apply (f_equal2 (@app _)).
  - unfold pd_DataFrame; apply map_ext_in; intros c I; f_equal.
    symmetry; apply (raw_column_timed data ts c E).
    apply assoc_pickup_fields_None.
    apply filter_In in I as [I _]; exact I.
  - unfold derived_columns; rewrite map_map; apply map_ext_in; intros [c f] I.
    cbn [fst snd]; f_equal; symmetry.
    apply (field_column_timed data ts c f E), assoc_pickup_fields, I.
Qed.

(** Once the date conversion has passed, feature extraction succeeds, with
    the derived frame in closed form. *)
Lemma accepted_derived_frame (data : list record) (df1 : DataFrame) :
  convert_dates date_columns (pd_DataFrame data columns) = Ok df1 ->
  feature_extraction df1 = Ok (tabulate data derived_labels).
Proof.
  intros C; destruct (convert_dates_Ok _ _ C) as (ts & ds & Et & _ & _ & ->).
  rewrite (feature_extraction_closed_form _ (map datetime_cell ts)).
  - rewrite !filter_setitem_dropped by reflexivity.
    rewrite (derived_frame_tabulate data ts Et); reflexivity.
  - rewrite !labels_setitem; try apply labels_pd_DataFrame.
    + rewrite labels_pd_DataFrame; unfold columns; simpl; auto.
    + rewrite labels_setitem; rewrite labels_pd_DataFrame;
        unfold columns; simpl; auto.
  - rewrite !column_setitem; cbn [String.eqb Ascii.eqb Bool.eqb]; reflexivity.
  - apply is_datetimelike_datetime_cell.
Qed.
End DerivedFrame.

(** C6 (as the code has it): the Feature Deriver works on the frame the
    date conversion hands on, whose pickup column holds what [pd.to_datetime]
    read: timestamps and [NaT].  It returns the frame without the pickup,
    dropoff, vendor and ehail-fee columns, the other contract columns
    untouched, followed by exactly seven columns read off the pickup column:
    year, month, day of week, day, hour, minute, second.  These are integer
    columns when every pickup was read as a timestamp; when some pickup was
    read as [NaT] they are float columns, with [NaN] in the rows of the [NaT]
    cells.  The day of week is the calendar's, Monday being 0; the fields of
    2024-03-11 14:05:09 are 2024, 3, 0, 11, 14, 5, 9. *)
Theorem feature_extraction_derives_seven_pickup_fields :
  forall (R : Runtime) (data : list record) (df : DataFrame),
    convert_dates date_columns (pd_DataFrame data columns) = Ok df ->
    exists (ts : list (option Timestamp)) (df' : DataFrame),
      to_datetime (map (cell_of "lpep_pickup_datetime") data) = Some ts
      /\ length ts = length data
      /\ column df "lpep_pickup_datetime" = Some (map datetime_cell ts)
      /\ feature_extraction df = Ok df'
      /\ labels df' = derived_labels
      /\ (forall c, In c dropped -> column df' c = None)
      /\ (forall c, In c columns -> ~ In c dropped ->
            column df' c = Some (map (cell_of c) data))
      /\ map fst pickup_fields
         = ["pickup_year"; "pickup_month"; "pickup_dayofweek"; "pickup_day";
            "pickup_hour"; "pickup_minute"; "pickup_second"]
      /\ (forall c f, In (c, f) pickup_fields ->
            column df' c
            = Some (map (fun o => match o with
                                  | Some t =>
                                      if forallb is_Some ts then VInt (f t)
                                      else VFloat (of_Z (f t))
                                  | None => VNaN
                                  end) ts))
      /\ (forall y m d, 1 <= m <= 12 -> dayofweek y m d = weekday y m d)
      /\ map (fun cf => snd cf (mkTimestamp 2024 3 11 14 5 9)) pickup_fields
         = [2024; 3; 0; 11; 14; 5; 9].
Proof.
  intros R data df C.
  destruct (convert_dates_Ok _ _ C) as (ts & ds & Et & _ & L & E).
  exists ts, (tabulate data derived_labels).
  split; [exact Et|]; split; [exact L|]; split.
  { rewrite E, !column_setitem; cbn [String.eqb Ascii.eqb Bool.eqb]; reflexivity. }
  split; [apply (accepted_derived_frame data df C)|].
  split; [apply labels_tabulate|].
  split; [|split; [|split; [reflexivity|split; [|split; [|reflexivity]]]]].
  - intros c I; apply column_None; rewrite labels_tabulate.
    simpl in I; intros X.
    repeat (destruct I as [<-|I]; [simpl in X; intuition discriminate|]).
    exact I.
  - intros c I N.
    rewrite column_tabulate.
    + rewrite (raw_column_timed data ts c Et (assoc_pickup_fields_None c I)).
      reflexivity.
    + change derived_labels
        with (filter (fun c => negb (mem c dropped)) columns ++ map fst pickup_fields).
      apply in_or_app; left; apply filter_In; split; [exact I|].
      destruct (mem c dropped) eqn:M; [|reflexivity].
      apply mem_In in M; contradiction.
  - intros c f I.
    rewrite column_tabulate.
    + rewrite (field_column_timed data ts c f Et (assoc_pickup_fields c f I)).
      rewrite map_map; f_equal; apply map_ext; intros [t|]; cbn [datetime_cell dt_cell];
        [|reflexivity].
      replace (hasnans (map datetime_cell ts)) with (negb (forallb is_Some ts)).
      * destruct (forallb is_Some ts); reflexivity.
      * clear; induction ts as [|[t|] ts IH]; cbn [map forallb hasnans existsb
                                                    datetime_cell is_Some andb orb];
          [reflexivity | exact IH | reflexivity].
    + change derived_labels
        with (filter (fun c => negb (mem c dropped)) columns ++ map fst pickup_fields).
      apply in_or_app; right; apply (in_map fst _ _ I).
  - apply dayofweek_weekday.
Qed.

Lemma feature_extraction_sample_witness :
  exists (ts : list (option Timestamp)) (df' : DataFrame),
    to_datetime (map (cell_of "lpep_pickup_datetime") [trip_Y]) = Some ts
    /\ length ts = length [trip_Y]
    /\ column sample_frame "lpep_pickup_datetime" = Some (map datetime_cell ts)
    /\ feature_extraction sample_frame = Ok df'
    /\ labels df' = derived_labels
    /\ (forall c, In c dropped -> column df' c = None)
    /\ (forall c, In c columns -> ~ In c dropped ->
          column df' c = Some (map (cell_of c) [trip_Y]))
    /\ map fst pickup_fields
       = ["pickup_year"; "pickup_month"; "pickup_dayofweek"; "pickup_day";
          "pickup_hour"; "pickup_minute"; "pickup_second"]
    /\ (forall c f, In (c, f) pickup_fields ->
          column df' c
          = Some (map (fun o => match o with
                                | Some t =>
                                    if forallb is_Some ts then VInt (f t)
                                    else VFloat (of_Z (f t))
                                | None => VNaN
                                end) ts))
    /\ (forall y m d, 1 <= m <= 12 -> dayofweek y m d = weekday y m d)
    /\ map (fun cf => snd cf (mkTimestamp 2024 3 11 14 5 9)) pickup_fields
       = [2024; 3; 0; 11; 14; 5; 9].
Proof.
  apply (feature_extraction_derives_seven_pickup_fields
           reference_runtime [trip_Y] sample_frame).
  vm_compute; reflexivity.
Defined.

(** Both batches pass the validation gate.  In the first, the second pickup
    time is the empty text: it is read as [NaT], and the seven pickup
    columns are float columns with [NaN] in the second row.  The second
    batch has the empty text as its only pickup time: its pickup columns
    hold [NaN] alone. *)
Lemma blank_pickup_gives_float_fields :
  validate_input_data (pd_DataFrame [trip_Y; blank_pickup_trip] columns) = Ok true
  /\ column (derived_frame_of [trip_Y; blank_pickup_trip]) "pickup_year"
     = Some [VFloat 2024; VNaN]
  /\ column (derived_frame_of [trip_Y; blank_pickup_trip]) "pickup_dayofweek"
     = Some [VFloat 0; VNaN]
  /\ validate_input_data (pd_DataFrame [blank_pickup_trip] columns) = Ok true
  /\ column (derived_frame_of [blank_pickup_trip]) "pickup_year" = Some [VNaN]
  /\ column (derived_frame_of [blank_pickup_trip]) "pickup_second" = Some [VNaN].
Proof.
  repeat split; vm_compute; reflexivity.
Qed.

Lemma validate_outcomes (df : DataFrame) :
  validate_input_data df = Ok true
  \/ (failed_expectations df <> []
      /\ validate_input_data df =
         Raise (ValidationError (length (failed_expectations df))
                                (failed_expectations df))).
Proof.
  destruct (validate_cases df) as [V|V]; [left; exact V|right].
  split; [|exact V]; intros E.
  rewrite (proj2 (validate_Ok_iff df)) in V; [discriminate|].
  apply failed_nil_all_succeed, E.
Qed.

(** C7 (as the code has it): the validation gate does not look at the
    pickup times.  When [pd.to_datetime] raises on the pickup column, the
    request ends with the validation error if the batch also fails an
    expectation, and otherwise with the error of the date conversion that
    follows validation; in both cases there is no frame for feature
    extraction.  Whenever the conversion does hand a frame on, its pickup
    column holds what was read, timestamps and [NaT], feature extraction
    succeeds on it, and a row whose pickup was read as [NaT] gets [NaN] in
    each of the seven pickup columns. *)
Theorem unparseable_pickup_stops_before_feature_extraction :
  forall (R : Runtime) (model : Model) (data : list record),
    to_datetime (map (cell_of "lpep_pickup_datetime") data) = None ->
    let failed := failed_expectations (pd_DataFrame data columns) in
    ((failed <> []
      /\ predict model data = Raise (ValidationError (length failed) failed))
     \/ (validate_input_data (pd_DataFrame data columns) = Ok true
         /\ predict model data = Raise (DateParseError "lpep_pickup_datetime")))
    /\ convert_dates date_columns (pd_DataFrame data columns)
       = Raise (DateParseError "lpep_pickup_datetime")
    /\ (forall (data' : list record) (df : DataFrame),
           convert_dates date_columns (pd_DataFrame data' columns) = Ok df ->
           exists (ts : list (option Timestamp)) (df' : DataFrame),
             to_datetime (map (cell_of "lpep_pickup_datetime") data') = Some ts
             /\ column df "lpep_pickup_datetime" = Some (map datetime_cell ts)
             /\ is_datetimelike (map datetime_cell ts) = true
             /\ feature_extraction df = Ok df'
             /\ (forall (i : nat) (c : string) (f : Timestamp -> Z),
                    nth_error ts i = Some None -> In (c, f) pickup_fields ->
                    exists cells, column df' c = Some cells
                                  /\ nth_error cells i = Some VNaN)).
Proof.
  intros R model data E failed.
  assert (C : convert_dates date_columns (pd_DataFrame data columns)
              = Raise (DateParseError "lpep_pickup_datetime"))
    by (rewrite convert_dates_request, E; reflexivity).
  split; [|split; [exact C|]].
  - destruct (validate_outcomes (pd_DataFrame data columns)) as [V|[N V]].
    + right; split; [exact V|].
      unfold predict; rewrite V; cbn [bind]; rewrite C; reflexivity.
    + left; split; [exact N | apply predict_validation_error, V].
  - intros data' df C'.
    destruct (convert_dates_Ok _ _ C') as (ts & ds & Et & _ & L & Ed).
    exists ts, (tabulate data' derived_labels).
    split; [exact Et|]; split.
    { rewrite Ed, !column_setitem; cbn [String.eqb Ascii.eqb Bool.eqb]; reflexivity. }
    split; [apply is_datetimelike_datetime_cell|].
    split; [apply (accepted_derived_frame data' df C')|].
    intros i c f N I; eexists; split.
    + rewrite column_tabulate.
      * rewrite (field_column_timed data' ts c f Et (assoc_pickup_fields c f I)).
        reflexivity.
      * change derived_labels
          with (filter (fun c => negb (mem c dropped)) columns ++ map fst pickup_fields).
        apply in_or_app; right; apply (in_map fst _ _ I).
    + rewrite !nth_error_map, N; reflexivity.
Qed.

Lemma unparseable_pickup_sample_witness :
  let failed := failed_expectations (pd_DataFrame [trip_Y; unreadable_trip] columns) in
  ((failed <> []
    /\ predict (sample_model ["Y"]) [trip_Y; unreadable_trip]
       = Raise (ValidationError (length failed) failed))
   \/ (validate_input_data (pd_DataFrame [trip_Y; unreadable_trip] columns) = Ok true
       /\ predict (sample_model ["Y"]) [trip_Y; unreadable_trip]
          = Raise (DateParseError "lpep_pickup_datetime")))
  /\ convert_dates date_columns (pd_DataFrame [trip_Y; unreadable_trip] columns)
     = Raise (DateParseError "lpep_pickup_datetime")
  /\ (forall (data' : list record) (df : DataFrame),
         convert_dates date_columns (pd_DataFrame data' columns) = Ok df ->
         exists (ts : list (option Timestamp)) (df' : DataFrame),
           to_datetime (map (cell_of "lpep_pickup_datetime") data') = Some ts
           /\ column df "lpep_pickup_datetime" = Some (map datetime_cell ts)
           /\ is_datetimelike (map datetime_cell ts) = true
           /\ feature_extraction df = Ok df'
           /\ (forall (i : nat) (c : string) (f : Timestamp -> Z),
                  nth_error ts i = Some None -> In (c, f) pickup_fields ->
                  exists cells, column df' c = Some cells
                                /\ nth_error cells i = Some VNaN)).
Proof.
  apply (unparseable_pickup_stops_before_feature_extraction
           reference_runtime (sample_model ["Y"]) [trip_Y; unreadable_trip]).
  vm_compute; reflexivity.
Defined.

(** Two requests with a pickup time that is no date-time.  Both pass the
    validation gate.  The first ends with the error of the date conversion,
    not with a validation error.  In the second the pickup time is the empty
    text: it is read as [NaT], feature extraction runs, the pickup columns
    hold [NaN], and a matrix is built. *)
Lemma unparseable_pickup_passes_validation :
  validate_input_data (pd_DataFrame [unreadable_trip] columns) = Ok true
  /\ predict (sample_model ["Y"]) [unreadable_trip]
     = Raise (DateParseError "lpep_pickup_datetime")
  /\ validate_input_data (pd_DataFrame [blank_pickup_trip] columns) = Ok true
  /\ to_datetime (map (cell_of "lpep_pickup_datetime") [blank_pickup_trip])
     = Some [None]
  /\ column (derived_frame_of [blank_pickup_trip]) "pickup_year" = Some [VNaN]
  /\ row_widths (request_matrix [blank_pickup_trip]) = [23%nat].
Proof.
  repeat split; vm_compute; reflexivity.
Qed.

(** ** Preprocessing *)

Lemma insert_sorted_In (s x : string) (l : list string) :
  In x (insert_sorted s l) <-> x = s \/ In x l.
Proof.
  induction l as [|y l IH]; simpl; [intuition|].
  destruct (String.leb s y); simpl; [intuition|].
  rewrite IH; intuition.
Qed.

Lemma insert_sorted_length (s : string) (l : list string) :
  length (insert_sorted s l) = S (length l).
Proof.
  induction l as [|y l IH]; simpl; [reflexivity|].
  destruct (String.leb s y); simpl; [reflexivity | rewrite IH; reflexivity].
Qed.

Lemma sorted_unique_In (ss : list string) (x : string) :
  In x (sorted_unique ss) <-> In x ss.
Proof.
  unfold sorted_unique; rewrite <- (nodup_In string_dec ss x).
  induction (nodup string_dec ss) as [|s l IH]; simpl; [tauto|].
  rewrite insert_sorted_In, IH; intuition.
Qed.

Lemma sorted_unique_length (ss : list string) :
  length (sorted_unique ss) = length (nodup string_dec ss).
Proof.
  unfold sorted_unique.
  induction (nodup string_dec ss) as [|s l IH]; simpl; [reflexivity|].
  rewrite insert_sorted_length, IH; reflexivity.
Qed.

Lemma scale_columns_fit `{Runtime} (cols : list (list float)) :
  scale_columns (map fit_mean cols) (map fit_scale cols) cols
  = Ok (map (fun xs => standardize (fit_mean xs) (fit_scale xs) xs) cols).
Proof.
  induction cols as [|xs cols IH]; simpl; [reflexivity|].
  rewrite IH; reflexivity.
Qed.

Lemma scale_columns_length (mus sigmas : list float) (cols scaled : list (list float)) :
  scale_columns mus sigmas cols = Ok scaled -> length scaled = length cols.
Proof.
  revert sigmas cols scaled; induction mus as [|mu mus IH];
    intros [|sigma sigmas] [|xs cols] scaled; simpl; try discriminate.
  - intros E; injection E as <-; reflexivity.
  - intros E; apply bind_Ok in E as (rest & Er & E); injection E as <-.
    simpl; f_equal; eapply IH; eassumption.
Qed.

Lemma onehot_rows_fit (ss : list string) :
  onehot_rows (sorted_unique ss) ss = Ok (map (indicator (sorted_unique ss)) ss).
Proof.
  unfold onehot_rows; apply mapM_total; intros s I.
  replace (mem s (sorted_unique ss)) with true; [reflexivity|].
  symmetry; apply mem_In, sorted_unique_In, I.
Qed.

Lemma onehot_rows_Ok (cats ss : list string) (rows : list (list float)) :
  onehot_rows cats ss = Ok rows -> rows = map (indicator cats) ss.
Proof.
  unfold onehot_rows; revert rows; induction ss as [|s ss IH]; simpl; intros rows E.
  - injection E as <-; reflexivity.
  - destruct (mem s cats); simpl in E; [|discriminate].
    apply bind_Ok in E as (rest & Er & E); injection E as <-.
    f_equal; auto.
Qed.

(** [fit_transform] in closed form: the statistics and the vocabulary are
    those of the frame it is called on. *)
Lemma fit_transform_closed_form `{Runtime} (X : DataFrame)
  (cols : list (list float)) (ss : list string) :
  numeric_block X = Ok cols -> flags X = Ok ss ->
  fit_transform X = Ok (fitted_matrix (nrows X) cols ss).
Proof.
  unfold numeric_block, flags, fit_transform, fit, transform; intros EN EF.
  apply bind_Ok in EN as (num & En & Ec); rewrite En; cbn [bind].
  rewrite Ec; cbn [bind].
  apply bind_Ok in EF as (cat & Eg & Ee); rewrite Eg; cbn [bind].
  rewrite Ee; cbn [bind mean_ scale_ categories_].
  rewrite scale_columns_fit; cbn [bind].
  rewrite onehot_rows_fit; reflexivity.
Qed.

Lemma preprocess_closed_form `{Runtime} (df X : DataFrame)
  (cols : list (list float)) (ss : list string) :
  getitems df (numerical ++ categorical) = Ok X ->
  numeric_block X = Ok cols -> flags X = Ok ss ->
  preprocess df = Ok (astype_float32 (fitted_matrix (nrows X) cols ss)).
Proof.
  intros EX EN EF; unfold preprocess; rewrite EX; cbn [bind].
  rewrite (fit_transform_closed_form _ _ _ EN EF); reflexivity.
Qed.

Lemma fit_closed_form `{Runtime} (X : DataFrame)
  (cols : list (list float)) (ss : list string) :
  numeric_block X = Ok cols -> flags X = Ok ss ->
  fit X = Ok (mk_params (map fit_mean cols) (map fit_scale cols) (sorted_unique ss)).
Proof.
  unfold numeric_block, flags, fit; intros EN EF.
  apply bind_Ok in EN as (num & En & Ec); rewrite En; cbn [bind].
  rewrite Ec; cbn [bind].
  apply bind_Ok in EF as (cat & Eg & Ee); rewrite Eg; cbn [bind].
  rewrite Ee; reflexivity.
Qed.

Lemma preprocess_with_inv `{Runtime} (p : FittedParams) (df X : DataFrame)
  (M : ndarray) (cols : list (list float)) (ss : list string) :
  preprocess_with p df = Ok M ->
  getitems df (numerical ++ categorical) = Ok X ->
  numeric_block X = Ok cols -> flags X = Ok ss ->
  exists scaled,
    length scaled = length cols
    /\ M = astype_float32
             (mk_ndarray float64
                (hstack (rows_of (nrows X) scaled)
                        (map (indicator (categories_ p)) ss))).
Proof.
  unfold preprocess_with, transform, numeric_block, flags; intros E EX EN EF.
  rewrite EX in E; cbn [bind] in E.
  apply bind_Ok in EN as (num & En & Ec); rewrite En in E; cbn [bind] in E.
  rewrite Ec in E; cbn [bind] in E.
  apply bind_Ok in EF as (cat & Eg & Ee).
  apply bind_Ok in E as (A & E & EA); injection EA as <-.
  apply bind_Ok in E as (scaled & Es & E).
  rewrite Eg in E; cbn [bind] in E. rewrite Ee in E; cbn [bind] in E.
  apply bind_Ok in E as (onehot & Eo & E); injection E as <-.
  exists scaled; split; [eapply scale_columns_length, Es|].
  rewrite (onehot_rows_Ok _ _ _ Eo); reflexivity.
Qed.

Lemma app_eq_length {A : Type} (l1 l2 l1' l2' : list A) :
  l1 ++ l2 = l1' ++ l2' -> length l1 = length l1' -> l1 = l1' /\ l2 = l2'.
Proof.
  revert l1'; induction l1 as [|a l1 IH]; intros [|a' l1']; simpl;
    try discriminate; [auto|].
  intros E L; injection E as -> E; injection L as L.
  destruct (IH _ E L) as [-> ->]; auto.
Qed.

Lemma float_zero_not_one : 0%float <> 1%float.
Proof.
  intros E; apply (f_equal (fun x => PrimFloat.eqb x 0)) in E.
  vm_compute in E; discriminate.
Qed.

(** A fitted state that reproduces the single-row matrix on a one-trip frame
    has exactly that trip's flag as its vocabulary. *)
Lemma single_row_vocabulary `{Runtime} (p : FittedParams) (df X : DataFrame)
  (cols : list (list float)) (s : string) :
  preprocess_with p df = Ok single_row_matrix ->
  getitems df (numerical ++ categorical) = Ok X ->
  numeric_block X = Ok cols -> flags X = Ok [s] ->
  nrows X = 1%nat -> length cols = 22%nat ->
  categories_ p = [s].
Proof.
  intros E EX EN EF N1 L.
  destruct (preprocess_with_inv _ _ _ _ _ _ E EX EN EF) as (scaled & Ls & EM).
  rewrite N1 in EM; unfold single_row_matrix, astype_float32 in EM.
  injection EM as EM; unfold rows_of, hstack in EM.
  cbn [arr_rows seq map combine fst snd] in EM.
  change (repeat 0%float 22 ++ [1%float]
          = map float32_of (row_of scaled 0 ++ indicator (categories_ p) s)) in EM.
  rewrite map_app in EM; apply app_eq_length in EM as [_ EM].
  - destruct (categories_ p) as [|c [|c' cats]];
      cbn [indicator map] in EM; try discriminate.
    injection EM as EM.
    destruct (String.eqb_spec s c) as [->|N]; [reflexivity|].
    exfalso; vm_compute in EM; apply float_zero_not_one; symmetry; exact EM.
  - rewrite length_map; unfold row_of; rewrite length_map, Ls, L.
    reflexivity.
Qed.

(** C1 (as the code has it): on every frame it accepts, the preprocessor
    fits the scaler and the encoder on that very frame and then transforms
    the frame with what it has just fitted: each numerical column [xs] is
    standardized as [(x - mean) / scale] with the mean and scale of [xs]
    itself, and the indicator columns range over the sorted distinct flags
    of the frame itself. *)
Theorem preprocess_fits_on_the_request_batch :
  forall (R : Runtime) (df X : DataFrame) (cols : list (list float))
         (ss : list string),
    getitems df (numerical ++ categorical) = Ok X ->
    numeric_block X = Ok cols ->
    flags X = Ok ss ->
    let fitted :=
      mk_params (map fit_mean cols) (map fit_scale cols) (sorted_unique ss) in
    fit X = Ok fitted
    /\ preprocess df = preprocess_with fitted df
    /\ preprocess df =
       Ok (mk_ndarray float32
             (map (map float32_of)
                (hstack
                   (rows_of (nrows X)
                      (map (fun xs =>
                              map (fun x => ((x - fit_mean xs) / fit_scale xs)%float) xs)
                           cols))
                   (map (indicator (sorted_unique ss)) ss)))).
Proof.
  intros R df X cols ss EX EN EF fitted.
  assert (Ef := fit_closed_form _ _ _ EN EF).
  split; [exact Ef|]; split.
  - unfold preprocess, preprocess_with, fit_transform; rewrite EX; cbn [bind].
    rewrite Ef; reflexivity.
  - rewrite (preprocess_closed_form _ _ _ _ EX EN EF); reflexivity.
Qed.

Lemma preprocess_two_trips_witness :
  preprocess frame_YN =
  Ok (mk_ndarray float32
        (map (map float32_of)
           (hstack
              (rows_of (nrows selected_YN)
                 (map (fun xs =>
                         map (fun x => ((x - fit_mean xs) / fit_scale xs)%float) xs)
                      cols_YN))
              (map (indicator (sorted_unique ["Y"; "N"])) ["Y"; "N"])))).
Proof.
  apply (preprocess_fits_on_the_request_batch
           reference_runtime frame_YN selected_YN cols_YN ["Y"; "N"]);
    vm_compute; reflexivity.
Defined.

(** The preprocessor returns the same matrix on a single trip flagged Y and
    on a single trip flagged N, and no parameters fixed beforehand give both
    answers: the first needs the vocabulary [Y], the second [N]. *)
Lemma no_fixed_parameters_reproduce_preprocess :
  preprocess frame_Y = Ok single_row_matrix
  /\ preprocess frame_N = Ok single_row_matrix
  /\ (forall p : FittedParams,
         preprocess_with p frame_Y = Ok single_row_matrix ->
         preprocess_with p frame_N = Ok single_row_matrix -> False).
Proof.
  split; [vm_compute; reflexivity|]; split; [vm_compute; reflexivity|].
  intros p EY EN.
  assert (CY : categories_ p = ["Y"]).
  { eapply (single_row_vocabulary p frame_Y _ _ _ EY);
      [ vm_compute; reflexivity | vm_compute; reflexivity
      | vm_compute; reflexivity | reflexivity | reflexivity ]. }
  assert (CN : categories_ p = ["N"]).
  { eapply (single_row_vocabulary p frame_N _ _ _ EN);
      [ vm_compute; reflexivity | vm_compute; reflexivity
      | vm_compute; reflexivity | reflexivity | reflexivity ]. }
  rewrite CY in CN; discriminate.
Qed.

(** ** Sample requests through the validation gate *)

Lemma NoDup_columns : NoDup columns.
Proof.
  unfold columns.
  repeat (constructor; [simpl; intuition discriminate|]); constructor.
Qed.

Lemma key_order_sample_witness :
  pd_DataFrame [reordered_trip] columns = pd_DataFrame [trip_Y] columns
  /\ success (pd_DataFrame [reordered_trip] columns)
             (ExpectTableColumnsToMatchOrderedList columns) = true
  /\ validate_input_data (pd_DataFrame [reordered_trip] columns)
     = validate_input_data (pd_DataFrame [trip_Y] columns)
  /\ predict (sample_model ["Y"]) [reordered_trip]
     = predict (sample_model ["Y"]) [trip_Y].
Proof.
  apply (key_order_is_irrelevant_to_validation
           reference_runtime (sample_model ["Y"]) [trip_Y] [reordered_trip]).
  constructor; [split|constructor].
  - exact NoDup_columns.
  - apply Permutation_rev.
Defined.

(** The record lists the contract's columns in another order, every value
    is valid, and validation succeeds. *)
Lemma reordered_batch_passes_validation :
  Permutation (map fst reordered_trip) columns
  /\ map fst reordered_trip <> columns
  /\ validate_input_data (pd_DataFrame [reordered_trip] columns) = Ok true.
Proof.
  split; [|split].
  - unfold reordered_trip; rewrite map_rev; symmetry; apply Permutation_rev.
  - vm_compute; discriminate.
  - vm_compute; reflexivity.
Qed.

(** A request that lacks a column and has a flag outside the value set: both
    failures are reported, in the order in which the suite is run. *)
Lemma validation_sample_witness :
  request_matrix [faulty_trip] =
  Raise (ValidationError 2
           [ExpectColumnValuesToBeInSet "store_and_fwd_flag" ["Y"; "N"];
            ExpectColumnValuesToNotBeNull "fare_amount"])
  /\ predict (sample_model ["Y"]) [faulty_trip] =
     Raise (ValidationError 2
              [ExpectColumnValuesToBeInSet "store_and_fwd_flag" ["Y"; "N"];
               ExpectColumnValuesToNotBeNull "fare_amount"]).
Proof.
  apply (proj2 (proj2 (proj2 (proj2 (proj2 (proj2
           (validation_reports_every_failed_check
              reference_runtime (sample_model ["Y"])
              (pd_DataFrame [faulty_trip] columns)))))))
           [faulty_trip] eq_refl).
  vm_compute; discriminate.
Defined.

Lemma rebuilt_records_sample_witness :
  cell_of "fare_amount" faulty_trip = VNaN
  /\ In (ExpectColumnValuesToNotBeNull "fare_amount")
        (failed_expectations (pd_DataFrame [faulty_trip] columns))
  /\ predict (sample_model ["Y"]) [faulty_trip] =
     Raise (ValidationError
              (length (failed_expectations (pd_DataFrame [faulty_trip] columns)))
              (failed_expectations (pd_DataFrame [faulty_trip] columns))).
Proof.
  apply (proj2 (proj2 (proj2 (proj2 (proj2
           (records_are_rebuilt_against_the_contract
              reference_runtime (sample_model ["Y"]) [faulty_trip])))))
           faulty_trip "fare_amount").
  - left; reflexivity.
  - unfold columns; simpl; tauto.
  - reflexivity.
Defined.

(** ** Lists, columns and rows *)

Lemma mapM_map {A B C : Type} (f : B -> result C) (h : A -> B) (l : list A) :
  mapM f (map h l) = mapM (fun a => f (h a)) l.
Proof.
  induction l as [|a l IH]; simpl; [reflexivity | rewrite IH; reflexivity].
Qed.

Lemma forallb_compose {A B : Type} (f : B -> bool) (h : A -> B) (l : list A) :
  forallb f (map h l) = forallb (fun a => f (h a)) l.
Proof.
  induction l as [|a l IH]; simpl; [reflexivity | rewrite IH; reflexivity].
Qed.

Lemma mapM_Raise_inv {A B : Type} (f : A -> result B) (l : list A) (e : error) :
  mapM f l = Raise e -> exists a, In a l /\ f a = Raise e.
Proof.
  induction l as [|a l IH]; simpl; [discriminate|].
  destruct (f a) as [b|e'] eqn:Ea; simpl.
  - destruct (mapM f l) as [bs|e'']; simpl; [discriminate|].
    intros E; injection E as ->.
    destruct (IH eq_refl) as (a' & I & Ea'); eauto.
  - intros E; injection E as ->; eauto.
Qed.

Lemma mapM_length {A B : Type} (f : A -> result B) (l : list A) (bs : list B) :
  mapM f l = Ok bs -> length bs = length l.
Proof.
  revert bs; induction l as [|a l IH]; simpl; intros bs E.
  - injection E as <-; reflexivity.
  - apply bind_Ok in E as (b & _ & E); apply bind_Ok in E as (bs' & E' & E).
    injection E as <-; simpl; f_equal; auto.
Qed.

Lemma mapM_ext_in {A B : Type} (f g : A -> result B) (l : list A) :
  (forall a, In a l -> f a = g a) -> mapM f l = mapM g l.
Proof.
  induction l as [|a l IH]; simpl; intros E; [reflexivity|].
  rewrite (E a (or_introl eq_refl)), IH; auto.
Qed.

Lemma map_seq_nth {A B : Type} (g : A -> B) (d : A) (l : list A) :
  map (fun i => g (nth i l d)) (seq 0 (length l)) = map g l.
Proof.
  induction l as [|a l IH]; [reflexivity|].
  cbn [length seq map nth]; f_equal.
  rewrite <- seq_shift, map_map; exact IH.
Qed.

Lemma rows_of_columns {A : Type} (h : string -> A -> float) (d : A)
  (cs : list string) (l : list A) :
  rows_of (length l) (map (fun c => map (h c) l) cs)
  = map (fun a => map (fun c => h c a) cs) l.
Proof.
  unfold rows_of, row_of; rewrite <- (map_seq_nth _ d l).
  apply map_ext_in; intros i I; apply in_seq in I.
  rewrite map_map; apply map_ext; intros c.
  rewrite (nth_indep _ 0%float (h c d)) by (rewrite length_map; lia).
  apply map_nth.
Qed.

Lemma hstack_map {A : Type} (f g : A -> list float) (l : list A) :
  hstack (map f l) (map g l) = map (fun a => f a ++ g a) l.
Proof.
  unfold hstack; induction l as [|a l IH]; [reflexivity|].
  cbn [map combine fst snd]; f_equal; exact IH.
Qed.

Lemma max_int_float_large : 10000 < max_int_float.
Proof. reflexivity. Qed.

Lemma as_float64_small_int `{Runtime} (z : Z) :
  -10000 <= z <= 10000 -> as_float64 (VInt z) = Some (of_Z z).
Proof.
  intros B; cbn [as_float64].
  replace (Z.abs z <? max_int_float) with true; [reflexivity|].
  symmetry; apply Z.ltb_lt. pose proof max_int_float_large; lia.
Qed.

Lemma days_in_month_le (y m : Z) : days_in_month y m <= 31.
Proof.
  unfold days_in_month.
  destruct (m =? 2); [destruct (is_leap y); lia|].
  destruct ((m =? 4) || (m =? 6) || (m =? 9) || (m =? 11)); lia.
Qed.

Lemma wellformed_fields (t : Timestamp) (c : string) (f : Timestamp -> Z) :
  wellformed_timestamp t = true -> In (c, f) pickup_fields ->
  -10000 <= f t <= 10000.
Proof.
  unfold wellformed_timestamp; intros W I.
  repeat (apply andb_prop in W as [W ?B]).
  repeat match goal with
         | X : (_ <=? _) = true |- _ => apply Z.leb_le in X
         end.
  pose proof (days_in_month_le (ts_year t) (ts_month t)).
  pose proof (dayofweek_range (ts_year t) (ts_month t) (ts_day t)).
  unfold pickup_fields in I; cbn [In] in I.
  repeat (destruct I as [E|I];
          [injection E as _ <-; unfold ts_dayofweek; lia|]); destruct I.
Qed.

Lemma missing_nil (df : DataFrame) (ls : list string) :
  (forall l, In l ls -> In l (labels df)) -> missing df ls = [].
Proof.
  intros A; unfold missing; induction ls as [|l ls IH]; [reflexivity|].
  cbn [filter]; rewrite (proj2 (mem_In l (labels df)) (A l (or_introl eq_refl))).
  cbn [negb]; apply IH; intros l' I; apply A; right; exact I.
Qed.

Lemma missing_In (df : DataFrame) (ls : list string) (l : string) :
  In l (missing df ls) <-> In l ls /\ ~ In l (labels df).
Proof.
  unfold missing; rewrite filter_In, negb_true_iff.
  split; intros [I M]; (split; [exact I|]).
  - intros X; apply mem_In in X; congruence.
  - destruct (mem l (labels df)) eqn:E; [|reflexivity].
    apply mem_In in E; contradiction.
Qed.

Lemma hasnans_all_read (ts : list (option Timestamp)) :
  forallb is_Some ts = true -> hasnans (map datetime_cell ts) = false.
Proof.
  induction ts as [|[t|] ts IH]; cbn [forallb is_Some map datetime_cell hasnans existsb
                                       andb orb]; auto; discriminate.
Qed.

(** What the scaler reads, once it has accepted its block. *)
Lemma scaler_input_Ok `{Runtime} (X : DataFrame) (cols : list (list float)) :
  scaler_input X = Ok cols ->
  cols = map (fun cv => map num_cell (snd cv)) X /\ nrows X <> 0%nat.
Proof.
  unfold scaler_input; intros E; apply bind_Ok in E as (cols' & M & E).
  destruct (nrows X =? 0)%nat eqn:N; [discriminate|]; injection E as <-.
  split; [|apply Nat.eqb_neq, N].
  clear N; revert cols' M; induction X as [|[c vs] X IH]; cbn [mapM map snd fst];
    intros cols' M.
  - injection M as <-; reflexivity.
  - apply bind_Ok in M as (xs & Exs & M); apply bind_Ok in M as (rest & Er & M).
    injection M as <-; f_equal; [|apply IH, Er].
    clear - Exs; revert xs Exs; induction vs as [|v vs IH]; cbn [mapM map];
      intros xs E.
    + injection E as <-; reflexivity.
    + apply bind_Ok in E as (x & Ex & E); apply bind_Ok in E as (xs' & Exs' & E).
      injection E as <-; f_equal; [|apply IH, Exs'].
      unfold num_cell; destruct (as_float64 v); [congruence | discriminate].
Qed.

Lemma scaler_input_error `{Runtime} (X : DataFrame) (e : error) :
  scaler_input X = Raise e -> exists s, e = ScalerError s.
Proof.
  unfold scaler_input.
  destruct (mapM _ X) as [cols|e'] eqn:E; cbn [bind].
  - destruct (nrows X =? 0)%nat; [|discriminate].
    intros E'; injection E' as <-; eauto.
  - intros E'; injection E' as <-.
    apply mapM_Raise_inv in E as ([c vs] & _ & E).
    apply mapM_Raise_inv in E as (v & _ & E).
    destruct (as_float64 v); [discriminate|]; injection E as <-; eauto.
Qed.

Lemma scaler_input_accepts `{Runtime} (X : DataFrame) :
  nrows X <> 0%nat ->
  (forall c vs v, In (c, vs) X -> In v vs -> as_float64 v <> None) ->
  scaler_input X = Ok (map (fun cv => map num_cell (snd cv)) X).
Proof.
  intros N A; unfold scaler_input.
  rewrite (mapM_total _ (fun cv => map num_cell (snd cv))).
  - cbn [bind]; apply Nat.eqb_neq in N; rewrite N; reflexivity.
  - intros [c vs] I; cbn [snd fst]; apply mapM_total; intros v Iv.
    pose proof (A c vs v I Iv) as S; unfold num_cell.
    destruct (as_float64 v); [reflexivity | congruence].
Qed.

Lemma fit_transform_Raise `{Runtime} (X : DataFrame) (e : error) :
  numeric_block X = Raise e -> fit_transform X = Raise e.
Proof.
  unfold numeric_block, fit_transform, fit; intros E.
  destruct (getitems X numerical) as [num|e'] eqn:G; cbn [bind] in E |- *.
  - rewrite E; reflexivity.
  - injection E as ->; reflexivity.
Qed.

Lemma model_predict_width (model : Model) (rows : list (list float)) :
  Forall (fun r => length r = n_features_in model) rows ->
  model_predict model (mk_ndarray float32 rows) = Ok (map (predict_row model) rows).
Proof.
  intros F; unfold model_predict; cbn [arr_rows arr_dtype dtype_eqb].
  destruct (find _ rows) as [r|] eqn:E; [|reflexivity].
  apply find_some in E as [I E]; rewrite Forall_forall in F.
  rewrite (F r I), Nat.eqb_refl in E; discriminate.
Qed.

Lemma model_predict_mismatch (model : Model) (X : ndarray) (r : list float) :
  In r (arr_rows X) -> length r <> n_features_in model ->
  exists got, got <> n_features_in model
              /\ model_predict model X
                 = Raise (SignatureMismatch (n_features_in model) got).
Proof.
  intros I N; unfold model_predict.
  destruct (find _ (arr_rows X)) as [r'|] eqn:E.
  - apply find_some in E as [_ E]; exists (length r'); split; [|reflexivity].
    intros C; rewrite C, Nat.eqb_refl in E; discriminate.
  - exfalso; apply (find_none _ _ E) in I.
    apply negb_false_iff, Nat.eqb_eq in I; contradiction.
Qed.

(** The vocabulary of flags that are all Y or N. *)
Lemma sorted_unique_flags (ss : list string) :
  ss <> [] -> Forall (fun s => s = "Y" \/ s = "N") ss ->
  sorted_unique ss = ["N"] \/ sorted_unique ss = ["Y"]
  \/ sorted_unique ss = ["N"; "Y"].
Proof.
  intros NE F; unfold sorted_unique.
  assert (C : forall l, NoDup l -> Forall (fun s => s = "Y" \/ s = "N") l ->
                        l = [] \/ l = ["Y"] \/ l = ["N"] \/ l = ["Y"; "N"] \/ l = ["N"; "Y"]).
  { intros l ND Fl.
    destruct l as [|a [|b [|c l]]]; auto.
    - inversion Fl as [|? ? [->| ->] _]; auto.
    - inversion Fl as [|? ? [->| ->] Fl']; inversion Fl' as [|? ? [->| ->] _]; subst; auto;
        inversion ND as [|? ? X _]; exfalso; apply X; left; reflexivity.
    - exfalso.
      inversion Fl as [|? ? Ha Fl1]; inversion Fl1 as [|? ? Hb Fl2];
        inversion Fl2 as [|? ? Hc _]; subst.
      inversion ND as [|? ? Xa ND1]; inversion ND1 as [|? ? Xb _]; subst.
      cbn [In] in Xa, Xb.
      destruct Ha as [->| ->], Hb as [->| ->], Hc as [->| ->]; tauto. }
  destruct (C (nodup string_dec ss)) as [E|[E|[E|[E|E]]]].
  - apply NoDup_nodup.
  - apply Forall_forall; intros s I; apply nodup_In in I.
    rewrite Forall_forall in F; auto.
  - exfalso; destruct ss as [|s ss]; [congruence|].
    assert (I : In s (nodup string_dec (s :: ss))) by (apply nodup_In; left; reflexivity).
    rewrite E in I; destruct I.
  - rewrite E; auto.
  - rewrite E; auto.
  - rewrite E; auto.
  - rewrite E; auto.
Qed.

(** ** Requests the pipeline accepts *)

Section Accepted.
Context `{R : Runtime}.

(** What passing the gate says about the records of a request. *)
Lemma gate_records (data : list record) :
  validate_input_data (pd_DataFrame data columns) = Ok true <->
  forall r, In r data ->
    (forall c, In c columns -> isnull (cell_of c r) = false)
    /\ in_value_set ["Y"; "N"] (cell_of categorical_column r) = true.
Proof.
  rewrite validate_Ok_iff; split.
  - intros S r Ir; split.
    + intros c Ic.
      assert (Is : In (ExpectColumnValuesToNotBeNull c) suite).
      { unfold suite, null_expectations; apply in_or_app; left; apply in_map, Ic. }
      specialize (S _ Is); cbn [success] in S.
      rewrite (column_pd_DataFrame data _ _ Ic), forallb_compose in S.
      rewrite forallb_forall in S; specialize (S r Ir).
      destruct (isnull (cell_of c r)); [discriminate | reflexivity].
    + assert (If : In categorical_column columns) by (vm_compute; auto).
      assert (Is : In (ExpectColumnValuesToBeInSet "store_and_fwd_flag" ["Y"; "N"]) suite).
      { unfold suite; apply in_or_app; right; left; reflexivity. }
      assert (Nn : isnull (cell_of categorical_column r) = false).
      { assert (Is' : In (ExpectColumnValuesToNotBeNull categorical_column) suite).
        { unfold suite, null_expectations; apply in_or_app; left; apply in_map, If. }
        specialize (S _ Is'); cbn [success] in S.
        rewrite (column_pd_DataFrame data _ _ If), forallb_compose in S.
        rewrite forallb_forall in S; specialize (S r Ir).
        destruct (isnull _); [discriminate | reflexivity]. }
      specialize (S _ Is); cbn [success] in S.
      change "store_and_fwd_flag" with categorical_column in S.
      rewrite (column_pd_DataFrame data _ _ If), forallb_compose in S.
      rewrite forallb_forall in S; specialize (S r Ir).
      rewrite Nn in S; exact S.
  - intros V e I; unfold suite in I; apply in_app_or in I as [I|I].
    + unfold null_expectations in I; apply in_map_iff in I as (c & <- & I).
      cbn [success]; rewrite (column_pd_DataFrame data _ _ I), forallb_compose.
      apply forallb_forall; intros r Ir.
      rewrite (proj1 (V r Ir) c I); reflexivity.
    + destruct I as [<-|[<-|[]]]; [|apply order_check_succeeds].
      cbn [success]; change "store_and_fwd_flag" with categorical_column.
      rewrite column_pd_DataFrame by (vm_compute; auto).
      rewrite forallb_compose; apply forallb_forall; intros r Ir.
      rewrite (proj2 (V r Ir)); apply orb_true_r.
Qed.

Lemma gate_flag (data : list record) (r : record) :
  validate_input_data (pd_DataFrame data columns) = Ok true -> In r data ->
  cell_of categorical_column r = VStr (flag_of r)
  /\ (flag_of r = "Y" \/ flag_of r = "N").
Proof.
  intros V I; destruct (proj1 (gate_records data) V r I) as [_ F].
  unfold flag_of; destruct (cell_of categorical_column r) as [ | | |b|z|x|s|t];
    try discriminate F.
  split; [reflexivity|]; cbn [in_value_set existsb] in F.
  destruct (String.eqb_spec s "Y") as [EY|NY]; [left; auto|].
  destruct (String.eqb_spec s "N") as [EN|NN]; [right; auto | discriminate].
Qed.

Lemma gate_categories (data : list record) :
  validate_input_data (pd_DataFrame data columns) = Ok true -> data <> [] ->
  batch_categories data = ["N"] \/ batch_categories data = ["Y"]
  \/ batch_categories data = ["N"; "Y"].
Proof.
  intros V NE; apply sorted_unique_flags.
  - destruct data; [congruence | discriminate].
  - apply Forall_forall; intros s I; apply in_map_iff in I as (r & <- & I).
    apply (gate_flag data r V I).
Qed.

Lemma getitems_tabulate (data : list record) (ls ls' : list string) :
  incl ls' ls -> getitems (tabulate data ls) ls' = Ok (tabulate data ls').
Proof.
  intros I; unfold getitems.
  rewrite missing_nil by (intros l Il; rewrite labels_tabulate; apply I, Il).
  unfold tabulate at 2.
  apply mapM_total; intros c Ic; unfold getitem.
  rewrite (column_tabulate data ls c (I c Ic)); reflexivity.
Qed.

Lemma selected_of_derived (data : list record) :
  getitems (tabulate data derived_labels) (numerical ++ categorical)
  = Ok (tabulate data (numerical ++ categorical)).
Proof.
  apply getitems_tabulate; intros c I; vm_compute in I |- *.
  repeat (destruct I as [<-|I]; [auto 30|]); destruct I.
Qed.

Lemma nrows_tabulate (data : list record) (c : string) (ls : list string) :
  nrows (tabulate data (c :: ls)) = length (timed data).
Proof.
  unfold tabulate; cbn [map nrows]; apply length_map.
Qed.

Lemma gate_flags (data : list record) (ts : list (option Timestamp)) :
  validate_input_data (pd_DataFrame data columns) = Ok true ->
  to_datetime (map (cell_of "lpep_pickup_datetime") data) = Some ts ->
  flags (tabulate data (numerical ++ categorical)) = Ok (map flag_of data).
Proof.
  intros V Et; unfold flags, getitem.
  rewrite column_tabulate by (apply in_or_app; right; left; reflexivity).
  rewrite (raw_column_timed data ts _ Et) by reflexivity.
  cbn [bind]; unfold encoder_input; rewrite mapM_map.
  apply mapM_total; intros r Ir.
  rewrite (proj1 (gate_flag data r V Ir)); reflexivity.
Qed.

Lemma numeric_block_tabulate (data : list record) :
  numeric_block (tabulate data (numerical ++ categorical))
  = scaler_input (tabulate data numerical).
Proof.
  unfold numeric_block.
  rewrite getitems_tabulate by (apply incl_appl, incl_refl); reflexivity.
Qed.

Lemma numeric_block_Ok (data : list record) (ts : list (option Timestamp))
  (cols : list (list float)) :
  to_datetime (map (cell_of "lpep_pickup_datetime") data) = Some ts ->
  numeric_block (tabulate data (numerical ++ categorical)) = Ok cols ->
  data <> [] /\ cols = map (batch_column data) numerical.
Proof.
  intros Et; rewrite numeric_block_tabulate; intros E.
  apply scaler_input_Ok in E as [-> N]; split.
  - unfold numerical at 1 in N; rewrite nrows_tabulate in N.
    destruct (timed_read data ts Et) as (_ & _ & _ & _ & _ & L).
    rewrite L in N; destruct data; [contradiction | discriminate].
  - unfold tabulate; rewrite map_map; apply map_ext; intros c; cbn [snd].
    unfold batch_column, feature; rewrite map_map; reflexivity.
Qed.

Lemma numeric_block_error (data : list record) (e : error) :
  numeric_block (tabulate data (numerical ++ categorical)) = Raise e ->
  exists s, e = ScalerError s.
Proof.
  rewrite numeric_block_tabulate; apply scaler_input_error.
Qed.

Lemma standardized_columns (data : list record) :
  map (fun xs => standardize (fit_mean xs) (fit_scale xs) xs)
      (map (batch_column data) numerical)
  = map (fun c =>
           map (fun ro => ((feature data c ro - fit_mean (batch_column data c))
                           / fit_scale (batch_column data c))%float) (timed data))
        numerical.
Proof.
  rewrite map_map; apply map_ext; intros c.
  unfold standardize, batch_column; apply map_map.
Qed.

Lemma fitted_matrix_rows (data : list record) :
  map fst (timed data) = data ->
  map (map float32_of)
    (arr_rows (fitted_matrix (length (timed data))
                 (map (batch_column data) numerical) (map flag_of data)))
  = map (matrix_row data) (timed data).
Proof.
  intros F; unfold fitted_matrix; cbn [arr_rows].
  rewrite standardized_columns.
  rewrite (rows_of_columns
             (fun c ro => ((feature data c ro - fit_mean (batch_column data c))
                           / fit_scale (batch_column data c))%float) ([], None)).
  assert (I : forall cats,
             map (indicator cats) (map flag_of data)
             = map (fun ro => indicator cats (flag_of (fst ro))) (timed data)).
  { intros cats.
    transitivity (map (indicator cats) (map flag_of (map fst (timed data))));
      [rewrite F; reflexivity|].
    rewrite !map_map; reflexivity. }
  rewrite I, hstack_map, map_map; reflexivity.
Qed.

(** The matrix of a request that passed the gate and the date conversion:
    what the scaler reads decides alone between an error and a matrix. *)
Lemma accepted_request_matrix (data : list record) (df1 : DataFrame) :
  validate_input_data (pd_DataFrame data columns) = Ok true ->
  convert_dates date_columns (pd_DataFrame data columns) = Ok df1 ->
  request_matrix data =
  (cols <- numeric_block (tabulate data (numerical ++ categorical)) ;;
   Ok (astype_float32 (fitted_matrix (length (timed data)) cols (map flag_of data)))).
Proof.
  intros V C; unfold request_matrix; rewrite V; cbn [bind].
  rewrite C; cbn [bind]; rewrite (accepted_derived_frame data df1 C); cbn [bind].
  destruct (convert_dates_Ok _ _ C) as (ts & ds & Et & _ & _ & _).
  destruct (numeric_block (tabulate data (numerical ++ categorical)))
    as [cols|e] eqn:N; cbn [bind].
  - rewrite (preprocess_closed_form _ _ _ _ (selected_of_derived data) N
               (gate_flags data ts V Et)).
    unfold numerical at 1, app at 1; rewrite nrows_tabulate; reflexivity.
  - unfold preprocess; rewrite selected_of_derived; cbn [bind].
    rewrite (fit_transform_Raise _ _ N); reflexivity.
Qed.

(** How a request ends before the model is called. *)
Lemma request_matrix_cases (data : list record) :
  (request_matrix data
   = Raise (ValidationError
              (length (failed_expectations (pd_DataFrame data columns)))
              (failed_expectations (pd_DataFrame data columns)))
   /\ failed_expectations (pd_DataFrame data columns) <> [])
  \/ (validate_input_data (pd_DataFrame data columns) = Ok true
      /\ (request_matrix data = Raise (DateParseError "lpep_pickup_datetime")
          \/ request_matrix data = Raise (DateParseError "lpep_dropoff_datetime")
          \/ (exists s, request_matrix data = Raise (ScalerError s))
          \/ (exists ts ds,
                 to_datetime (map (cell_of "lpep_pickup_datetime") data) = Some ts
                 /\ to_datetime (map (cell_of "lpep_dropoff_datetime") data) = Some ds
                 /\ data <> []
                 /\ numeric_block (tabulate data (numerical ++ categorical))
                    = Ok (map (batch_column data) numerical)
                 /\ request_matrix data
                    = Ok (mk_ndarray float32 (map (matrix_row data) (timed data)))))).
Proof.
  destruct (validate_outcomes (pd_DataFrame data columns)) as [Vt|[N V']].
  - right; split; [exact Vt|].
    destruct (convert_dates date_columns (pd_DataFrame data columns))
      as [df1|e] eqn:C.
    + rewrite (accepted_request_matrix data df1 Vt C).
      destruct (convert_dates_Ok _ _ C) as (ts & ds & Et & Ed & _ & _).
      destruct (numeric_block (tabulate data (numerical ++ categorical)))
        as [cols|e] eqn:Nb; cbn [bind].
      * right; right; right; exists ts, ds.
        destruct (numeric_block_Ok data ts cols Et Nb) as [NE ->].
        destruct (timed_read data ts Et) as (_ & _ & _ & F & _).
        split; [exact Et|]; split; [exact Ed|]; split; [exact NE|].
        split; [reflexivity|].
        unfold astype_float32; rewrite (fitted_matrix_rows data F); reflexivity.
      * right; right; left.
        destruct (numeric_block_error data e Nb) as (s & ->); eauto.
    + unfold request_matrix; rewrite Vt; cbn [bind]; rewrite C; cbn [bind].
      destruct (convert_dates_error data e C) as [-> | ->]; auto.
  - left; split; [apply request_validation_error, V' | exact N].
Qed.

(** The matrix of an accepted request, row by row. *)
Lemma accepted_matrix (data : list record) (X : ndarray) :
  request_matrix data = Ok X ->
  exists ts : list (option Timestamp),
    validate_input_data (pd_DataFrame data columns) = Ok true
    /\ to_datetime (map (cell_of "lpep_pickup_datetime") data) = Some ts
    /\ data <> []
    /\ X = mk_ndarray float32 (map (matrix_row data) (timed data)).
Proof.
  intros E.
  destruct (request_matrix_cases data)
    as [[V N]|[Vt [P|[D|[(s & S)|(ts & ds & Et & _ & NE & _ & M)]]]]];
    try congruence.
  exists ts; split; [exact Vt|]; split; [exact Et|]; split; [exact NE|].
  congruence.
Qed.

Lemma predict_request_matrix (model : Model) (data : list record) :
  predict model data = (X <- request_matrix data ;; model_predict model X).
Proof.
  unfold predict, request_matrix.
  destruct (validate_input_data _); [|reflexivity]; cbn [bind].
  destruct (convert_dates _ _); [|reflexivity]; cbn [bind].
  destruct (feature_extraction _); [|reflexivity]; cbn [bind].
  destruct (preprocess _); [|reflexivity]; cbn [bind].
  destruct (model_predict _ _); reflexivity.
Qed.

Lemma matrix_row_length (data : list record) (ro : record * option Timestamp) :
  length (matrix_row data ro)
  = (length numerical + length (batch_categories data))%nat.
Proof.
  unfold matrix_row, indicator; rewrite length_map, length_app, !length_map.
  reflexivity.
Qed.

Lemma matrix_row_tail (data : list record) (ro : record * option Timestamp) :
  skipn 22 (matrix_row data ro)
  = map float32_of (indicator (batch_categories data) (flag_of (fst ro))).
Proof.
  unfold matrix_row; rewrite map_app, skipn_app.
  rewrite skipn_all2 by (rewrite !length_map; reflexivity).
  rewrite !length_map; reflexivity.
Qed.

(** The rows of the matrix stand in the order of the records. *)
Lemma timed_nth (data : list record) (ts : list (option Timestamp)) (i : nat)
  (r : record) :
  to_datetime (map (cell_of "lpep_pickup_datetime") data) = Some ts ->
  nth_error data i = Some r ->
  exists o, nth_error ts i = Some o /\ nth_error (timed data) i = Some (r, o).
Proof.
  intros Et E; destruct (timed_read data ts Et) as (_ & L & T & _).
  rewrite T; clear T Et; revert ts i L E.
  induction data as [|r0 data IH]; intros [|o ts] [|i] L E; try discriminate.
  - injection E as <-; exists o; split; reflexivity.
  - cbn [nth_error combine] in *; apply IH; [|exact E].
    injection L as L; exact L.
Qed.
End Accepted.

(** ** Rounding to binary32 *)

Lemma digits2_pos_size (p : positive) : digits2_pos p = Pos.size p.
Proof. induction p; simpl; congruence. Qed.

Lemma Zdigits2_log2 (m : Z) : 0 < m -> Zdigits2 m = Z.log2 m + 1.
Proof.
  destruct m as [|p|p]; try lia; intros _; cbn [Zdigits2].
  rewrite digits2_pos_size.
  destruct p; cbn [Z.log2 Pos.size]; lia.
Qed.

Lemma Zdigits2_nonneg (m : Z) : 0 <= Zdigits2 m.
Proof. destruct m; simpl; lia. Qed.

Lemma Zdigits2_pos (m : Z) : 0 < m -> 0 < Zdigits2 m.
Proof. destruct m; simpl; lia. Qed.

(** One step of [shr_1] removes one binary digit. *)
Lemma shr_1_digits (mrs : shr_record) :
  0 <= shr_m mrs ->
  0 <= shr_m (shr_1 mrs)
  /\ Zdigits2 (shr_m (shr_1 mrs)) = Z.max 0 (Zdigits2 (shr_m mrs) - 1).
Proof.
  destruct mrs as [m r s]; cbn [shr_m]; intros N.
  destruct m as [|[p|p|]|p]; cbn [shr_1 shr_m Zdigits2 digits2_pos]; lia.
Qed.

Lemma iter_shr_1_digits (p : positive) (mrs : shr_record) :
  0 <= shr_m mrs ->
  0 <= shr_m (iter_pos shr_1 p mrs)
  /\ Zdigits2 (shr_m (iter_pos shr_1 p mrs)) = Z.max 0 (Zdigits2 (shr_m mrs) - Zpos p).
Proof.
  revert mrs; induction p as [p IH|p IH|]; intros mrs N; cbn [iter_pos].
  - destruct (shr_1_digits mrs N) as [N1 D1].
    destruct (IH _ N1) as [N2 D2]; destruct (IH _ N2) as [N3 D3].
    split; [exact N3|]; rewrite D3, D2, D1; lia.
  - destruct (IH _ N) as [N2 D2]; destruct (IH _ N2) as [N3 D3].
    split; [exact N3|]; rewrite D3, D2; lia.
  - destruct (shr_1_digits mrs N) as [N1 D1]; split; [exact N1|].
    rewrite D1; lia.
Qed.

Lemma shr_m_of_loc (m : Z) (l : location) : shr_m (shr_record_of_loc m l) = m.
Proof. destruct l as [|[ | | ]]; reflexivity. Qed.

Lemma fexp_mono (a b : Z) : a <= b -> SpecFloat.fexp 24 128 a <= SpecFloat.fexp 24 128 b.
Proof. unfold SpecFloat.fexp, emin; lia. Qed.

(** After [shr_fexp] on an aligned mantissa, the mantissa is zero or
    canonical. *)
Lemma shr_fexp_canonical (m e : Z) (l : location) :
  0 <= m -> e <= SpecFloat.fexp 24 128 (Zdigits2 m + e) ->
  let '(mrs, e') := shr_fexp 24 128 m e l in
  0 <= shr_m mrs
  /\ (0 < shr_m mrs -> SpecFloat.fexp 24 128 (Zdigits2 (shr_m mrs) + e') = e')
  /\ (shr_m mrs = 0 -> 0 < m -> e' = emin 24 128)
  /\ (m = 0 -> shr_m mrs = 0).
Proof.
  intros N A; unfold shr_fexp, shr.
  destruct (SpecFloat.fexp 24 128 (Zdigits2 m + e) - e) as [|p|p] eqn:E.
  - rewrite shr_m_of_loc; repeat split; try lia.
  - destruct (iter_shr_1_digits p (shr_record_of_loc m l)) as [N' D];
      [rewrite shr_m_of_loc; exact N|].
    rewrite shr_m_of_loc in D.
    split; [exact N'|]; split; [|split].
    + intros P; pose proof (Zdigits2_pos _ P) as Q.
      f_equal. replace (Zdigits2 (shr_m (iter_pos shr_1 p (shr_record_of_loc m l))) + (e + Z.pos p))
        with (Zdigits2 m + e) by lia. lia.
    + intros Z P; rewrite Z in D; cbn [Zdigits2] in D.
      pose proof (Zdigits2_pos _ P).
      unfold SpecFloat.fexp, emin in *; lia.
    + intros ->; cbn [Zdigits2] in D.
      pose proof (Zdigits2_nonneg (shr_m (iter_pos shr_1 p (shr_record_of_loc 0 l)))).
      destruct (shr_m (iter_pos shr_1 p (shr_record_of_loc 0 l))) as [|q|q];
        cbn [Zdigits2] in *; lia.
  - lia.
Qed.

Lemma round_nearest_even_bounds (m : Z) (l : location) :
  m <= round_nearest_even m l <= m + 1.
Proof.
  destruct l as [|[ | | ]]; cbn [round_nearest_even]; try lia.
  destruct (Z.even m); lia.
Qed.

Lemma Zdigits2_mono (a b : Z) : 0 <= a <= b -> Zdigits2 a <= Zdigits2 b.
Proof.
  intros [A B]; destruct (Z.eq_dec a 0) as [->|NA].
  - apply Zdigits2_nonneg.
  - rewrite !Zdigits2_log2 by lia.
    pose proof (Z.log2_le_mono a b B); lia.
Qed.

Lemma binary_round_aux_valid (sx : bool) (mx ex : Z) (lx : location) :
  0 < mx -> ex <= SpecFloat.fexp 24 128 (Zdigits2 mx + ex) ->
  SpecFloat.valid_binary 24 128 (binary_round_aux 24 128 sx mx ex lx) = true.
Proof.
  intros N A; unfold binary_round_aux.
  pose proof (shr_fexp_canonical mx ex lx ltac:(lia) A) as S1.
  destruct (shr_fexp 24 128 mx ex lx) as [mrs' e'].
  destruct S1 as (N1 & C1 & Z1 & _).
  set (m1 := round_nearest_even (shr_m mrs') (loc_of_shr_record mrs')).
  pose proof (round_nearest_even_bounds (shr_m mrs') (loc_of_shr_record mrs')) as B.
  fold m1 in B.
  assert (A1 : e' <= SpecFloat.fexp 24 128 (Zdigits2 m1 + e')).
  { destruct (Z.eq_dec (shr_m mrs') 0) as [Z|NZ].
    - assert (e' = emin 24 128) by (apply Z1; lia).
      unfold SpecFloat.fexp; lia.
    - rewrite <- (C1 ltac:(lia)) at 1.
      apply fexp_mono. pose proof (Zdigits2_mono (shr_m mrs') m1 ltac:(lia)); lia. }
  pose proof (shr_fexp_canonical m1 e' loc_Exact ltac:(lia) A1) as S2.
  destruct (shr_fexp 24 128 m1 e' loc_Exact) as [mrs'' e''].
  destruct S2 as (N2 & C2 & _).
  destruct (shr_m mrs'') as [|m|m] eqn:Em; try reflexivity.
  destruct (e'' <=? 128 - 24) eqn:L; [|reflexivity].
  cbn [valid_binary]; unfold bounded, canonical_mantissa.
  rewrite L, andb_true_r; apply Z.eqb_eq.
  specialize (C2 ltac:(lia)); cbn [Zdigits2] in C2; exact C2.
Qed.

Lemma digits2_pos_iter_xO (d m : positive) :
  Zpos (digits2_pos (Pos.iter xO m d)) = Zpos (digits2_pos m) + Zpos d.
Proof.
  revert m; induction d as [|d IH] using Pos.peano_ind; intros m.
  - cbn [Pos.iter digits2_pos]; lia.
  - rewrite Pos.iter_succ; cbn [digits2_pos]; rewrite Pos2Z.inj_succ, IH. lia.
Qed.

Lemma binary_round_valid (sx : bool) (mx : positive) (ex : Z) :
  SpecFloat.valid_binary 24 128 (binary_round 24 128 sx mx ex) = true.
Proof.
  unfold binary_round, shl_align.
  destruct (SpecFloat.fexp 24 128 (Z.pos (digits2_pos mx) + ex) - ex) as [|d|d] eqn:E;
    apply binary_round_aux_valid; cbn [Zdigits2]; try lia.
  rewrite digits2_pos_iter_xO.
  replace (Z.pos (digits2_pos mx) + Z.pos d + SpecFloat.fexp 24 128 (Z.pos (digits2_pos mx) + ex))
    with (Z.pos (digits2_pos mx) + ex) by lia.
  lia.
Qed.

Lemma float32_of_is_binary32 (y : float) : is_binary32 (float32_of y).
Proof.
  unfold float32_of, is_binary32.
  destruct (Prim2SF y) as [s|s| |s m e] eqn:E.
  - exists (Prim2SF y); rewrite E; split; [reflexivity|]. rewrite <- E; apply SF2Prim_Prim2SF.
  - exists (Prim2SF y); rewrite E; split; [reflexivity|]. rewrite <- E; apply SF2Prim_Prim2SF.
  - exists (Prim2SF y); rewrite E; split; [reflexivity|]. rewrite <- E; apply SF2Prim_Prim2SF.
  - eexists; split; [|reflexivity].
    destruct s; cbn [cond_Zopp Z.opp binary_normalize]; apply binary_round_valid.
Qed.

Lemma astype_float32_binary32 (A : ndarray) :
  arr_dtype (astype_float32 A) = float32
  /\ Forall (Forall is_binary32) (arr_rows (astype_float32 A)).
Proof.
  split; [reflexivity|]; unfold astype_float32; cbn [arr_rows].
  apply Forall_forall; intros row I; apply in_map_iff in I as (row' & <- & _).
  apply Forall_forall; intros x I; apply in_map_iff in I as (y & <- & _).
  apply float32_of_is_binary32.
Qed.

Lemma preprocess_float32 `{Runtime} (df : DataFrame) (X : ndarray) :
  preprocess df = Ok X ->
  arr_dtype X = float32 /\ Forall (Forall is_binary32) (arr_rows X).
Proof.
  unfold preprocess; intros E.
  apply bind_Ok in E as (S & _ & E); apply bind_Ok in E as (A & _ & E).
  injection E as <-; apply astype_float32_binary32.
Qed.

Lemma request_matrix_float32 `{Runtime} (data : list record) (X : ndarray) :
  request_matrix data = Ok X ->
  arr_dtype X = float32 /\ Forall (Forall is_binary32) (arr_rows X).
Proof.
  unfold request_matrix; intros E.
  apply bind_Ok in E as (b & _ & E); apply bind_Ok in E as (df1 & _ & E).
  apply bind_Ok in E as (df2 & _ & E); apply (preprocess_float32 df2 X E).
Qed.

(** ** Valid batches *)

Section ValidBatch.
Context `{R : Runtime}.

Lemma valid_batch_parts (data : list record) :
  valid_batch data = true ->
  data <> []
  /\ (forall r, In r data -> valid_record r = true)
  /\ pickup_column_ok data = true
  /\ dropoff_column_ok data = true.
Proof.
  destruct data as [|r0 data]; [discriminate|]; intros V.
  apply andb_prop in V as [V D]; apply andb_prop in V as [V P].
  split; [discriminate|]; split; [apply forallb_forall, V | auto].
Qed.

Lemma valid_record_facts (r : record) :
  valid_record r = true ->
  (forall c, In c columns -> isnull (cell_of c r) = false)
  /\ in_value_set ["Y"; "N"] (cell_of categorical_column r) = true
  /\ (forall c, In c raw_numerical -> as_float64 (cell_of c r) <> None).
Proof.
  unfold valid_record; intros V.
  apply andb_prop in V as [V Vnum]; apply andb_prop in V as [V Vflag].
  rewrite forallb_forall in V.
  split; [|split; [exact Vflag|]].
  - intros c I; specialize (V c I); destruct (isnull _); [discriminate | reflexivity].
  - intros c I; rewrite forallb_forall in Vnum; specialize (Vnum c I).
    destruct (as_float64 (cell_of c r)); [discriminate | discriminate Vnum].
Qed.

Lemma pickup_column_read (data : list record) :
  pickup_column_ok data = true ->
  exists ts, to_datetime (map (cell_of "lpep_pickup_datetime") data) = Some ts
             /\ forallb is_Some ts = true
             /\ (forall t, In (Some t) ts -> wellformed_timestamp t = true).
Proof.
  unfold pickup_column_ok.
  destruct (to_datetime (map (cell_of "lpep_pickup_datetime") data)) as [ts|];
    [|discriminate].
  intros F; exists ts; split; [reflexivity|]; rewrite forallb_forall in F |- *.
  split.
  - intros [t|] I; [reflexivity | discriminate (F None I)].
  - intros t I; exact (F (Some t) I).
Qed.

Lemma valid_batch_validates (data : list record) :
  valid_batch data = true ->
  validate_input_data (pd_DataFrame data columns) = Ok true.
Proof.
  intros V; destruct (valid_batch_parts data V) as (_ & VR & _).
  apply gate_records; intros r I.
  destruct (valid_record_facts r (VR r I)) as (N & F & _); auto.
Qed.

Lemma valid_batch_converts (data : list record) :
  valid_batch data = true ->
  exists df1, convert_dates date_columns (pd_DataFrame data columns) = Ok df1.
Proof.
  intros V; destruct (valid_batch_parts data V) as (_ & _ & P & D).
  destruct (pickup_column_read data P) as (ts & Et & _).
  rewrite convert_dates_request, Et.
  unfold dropoff_column_ok in D.
  destruct (to_datetime (map (cell_of "lpep_dropoff_datetime") data));
    [eauto | discriminate].
Qed.

Lemma valid_batch_numbers (data : list record) :
  valid_batch data = true ->
  exists cols, numeric_block (tabulate data (numerical ++ categorical)) = Ok cols.
Proof.
  intros V; destruct (valid_batch_parts data V) as (NE & VR & P & _).
  destruct (pickup_column_read data P) as (ts & Et & S & W).
  destruct (timed_read data ts Et) as (Pt & _ & T & _ & _ & L).
  rewrite numeric_block_tabulate; eexists; apply scaler_input_accepts.
  - unfold numerical at 1; rewrite nrows_tabulate, L.
    destruct data; [congruence | discriminate].
  - intros c vs v I Iv; unfold tabulate in I.
    apply in_map_iff in I as (c' & E & Ic); injection E as -> <-.
    apply in_map_iff in Iv as ([r o] & <- & Iro).
    rewrite T in Iro.
    pose proof (in_combine_l _ _ _ _ Iro) as Ir.
    pose proof (in_combine_r _ _ _ _ Iro) as Io.
    change numerical with (raw_numerical ++ map fst pickup_fields) in Ic.
    apply in_app_or in Ic as [Ic|Ic].
    + rewrite derived_cell_raw.
      * destruct (valid_record_facts r (VR r Ir)) as (_ & _ & N); apply N, Ic.
      * vm_compute in Ic.
        repeat (destruct Ic as [<-|Ic]; [reflexivity|]); destruct Ic.
    + apply in_map_iff in Ic as ([c0 f] & <- & Ic); cbn [fst].
      unfold derived_cell; rewrite (assoc_pickup_fields c0 f Ic), Pt.
      rewrite (hasnans_all_read ts S); cbn [snd].
      destruct o as [t|].
      * cbn [datetime_cell dt_cell].
        rewrite (as_float64_small_int _ (wellformed_fields t c0 f (W t Io) Ic)).
        discriminate.
      * rewrite forallb_forall in S; discriminate (S None Io).
Qed.

(** The matrix of a valid batch, row by row. *)
Lemma valid_batch_matrix (data : list record) :
  valid_batch data = true ->
  request_matrix data = Ok (mk_ndarray float32 (map (matrix_row data) (timed data))).
Proof.
  intros V.
  destruct (valid_batch_converts data V) as (df1 & C).
  destruct (valid_batch_numbers data V) as (cols & N).
  pose proof (accepted_request_matrix data df1 (valid_batch_validates data V) C) as E.
  rewrite N in E; cbn [bind] in E.
  destruct (accepted_matrix data _ E) as (ts & _ & _ & _ & M).
  rewrite E, M; reflexivity.
Qed.

Lemma valid_batch_request_matrix (data : list record) :
  valid_batch data = true ->
  request_matrix data = preprocess (tabulate data derived_labels).
Proof.
  intros V; unfold request_matrix.
  rewrite (valid_batch_validates data V); cbn [bind].
  destruct (valid_batch_converts data V) as (df1 & C); rewrite C; cbn [bind].
  rewrite (accepted_derived_frame data df1 C); reflexivity.
Qed.

Lemma float32_of_one : float32_of 1%float = 1%float.
Proof. vm_compute; reflexivity. Qed.

Lemma float32_of_zero : float32_of 0%float = 0%float.
Proof. vm_compute; reflexivity. Qed.

Lemma single_record_matrix (r : record) :
  valid_batch [r] = true ->
  exists row : list float,
    request_matrix [r] = Ok (mk_ndarray float32 [row])
    /\ length row = 23%nat
    /\ nth_error row 22 = Some 1%float.
Proof.
  intros V; pose proof (valid_batch_matrix [r] V) as M.
  destruct (valid_batch_parts [r] V) as (_ & _ & P & _).
  destruct (pickup_column_read [r] P) as (ts & Et & _).
  destruct (timed_read [r] ts Et) as (_ & L & T & _).
  destruct ts as [|o [|o' ts]]; try discriminate L.
  rewrite T in M; cbn [combine map] in M.
  exists (matrix_row [r] (r, o)); split; [exact M|].
  assert (E : batch_categories [r] = [flag_of r]).
  { unfold batch_categories, sorted_unique; reflexivity. }
  split.
  - rewrite matrix_row_length, E; reflexivity.
  - rewrite <- (firstn_skipn 22 (matrix_row [r] (r, o))), nth_error_app2.
    + rewrite matrix_row_tail, E, length_firstn.
      unfold matrix_row at 1; rewrite length_map, length_app, !length_map.
      cbn [indicator map length fst]; rewrite String.eqb_refl.
      rewrite float32_of_one; reflexivity.
    + rewrite length_firstn; apply Nat.le_min_l.
Qed.
End ValidBatch.

(** ** The claims on the matrix and the predictions *)

(** C2 (as the code has it): whenever the pipeline builds a matrix for a
    request, the matrix has one row per record, and every row has as many
    entries as there are numerical columns (22) plus distinct flags in that
    batch; the vocabulary is exactly the set of flags that occur in the
    batch, so the width is 23 or 24 depending on the batch. *)
Theorem matrix_width_follows_the_batch_vocabulary :
  forall (R : Runtime) (data : list record) (X : ndarray),
    request_matrix data = Ok X ->
    length (arr_rows X) = length data
    /\ Forall (fun row => length row
                          = (length numerical + length (batch_categories data))%nat)
              (arr_rows X)
    /\ length numerical = 22%nat
    /\ (forall s, In s (batch_categories data)
                  <-> exists r, In r data /\ cell_of categorical_column r = VStr s)
    /\ length (batch_categories data)
       = length (nodup string_dec (map flag_of data))
    /\ (batch_categories data = ["N"] \/ batch_categories data = ["Y"]
        \/ batch_categories data = ["N"; "Y"]).
Proof.
  intros R data X E.
  destruct (accepted_matrix data X E) as (ts & V & Et & NE & ->).
  destruct (timed_read data ts Et) as (_ & _ & _ & _ & _ & L).
  cbn [arr_rows]; split; [rewrite length_map; exact L|].
  split; [|split; [reflexivity|split; [|split]]].
  - apply Forall_forall; intros row I; apply in_map_iff in I as (ro & <- & _).
    apply matrix_row_length.
  - intros s; unfold batch_categories; rewrite sorted_unique_In, in_map_iff.
    split; intros (r & A & B).
    + exists r; split; [exact B|].
      rewrite (proj1 (gate_flag data r V B)), A; reflexivity.
    + exists r; split; [|exact A].
      pose proof (proj1 (gate_flag data r V A)) as F; congruence.
  - apply sorted_unique_length.
  - apply (gate_categories data V NE).
Qed.

Lemma matrix_width_sample_witness :
  length (arr_rows matrix_YN) = length [trip_Y; trip_N]
  /\ Forall (fun row => length row
                        = (length numerical
                           + length (batch_categories [trip_Y; trip_N]))%nat)
            (arr_rows matrix_YN)
  /\ length numerical = 22%nat
  /\ (forall s, In s (batch_categories [trip_Y; trip_N])
                <-> exists r, In r [trip_Y; trip_N]
                              /\ cell_of categorical_column r = VStr s)
  /\ length (batch_categories [trip_Y; trip_N])
     = length (nodup string_dec (map flag_of [trip_Y; trip_N]))
  /\ (batch_categories [trip_Y; trip_N] = ["N"]
      \/ batch_categories [trip_Y; trip_N] = ["Y"]
      \/ batch_categories [trip_Y; trip_N] = ["N"; "Y"]).
Proof.
  apply (matrix_width_follows_the_batch_vocabulary reference_runtime
           [trip_Y; trip_N] matrix_YN).
  vm_compute; reflexivity.
Defined.

(** Two valid batches, two widths: one trip flagged Y gives 23 columns, the
    same trip together with one flagged N gives 24. *)
Lemma matrix_width_depends_on_the_batch :
  valid_batch [trip_Y] = true
  /\ valid_batch [trip_Y; trip_N] = true
  /\ row_widths (request_matrix [trip_Y]) = [23%nat]
  /\ row_widths (request_matrix [trip_Y; trip_N]) = [24%nat; 24%nat].
Proof.
  repeat split; vm_compute; reflexivity.
Qed.

(** C4 (as the code has it, with the model of the specification): when a
    row of the matrix built for the request has another width than the model
    was trained on, the request ends with the model's signature-mismatch
    error, which reports a width that is not the trained one, and no
    prediction is returned. *)
Theorem width_mismatch_is_refused :
  forall (R : Runtime) (model : Model) (data : list record) (X : ndarray)
         (row : list float),
    request_matrix data = Ok X ->
    In row (arr_rows X) ->
    length row <> n_features_in model ->
    exists got : nat,
      got <> n_features_in model
      /\ predict model data = Raise (SignatureMismatch (n_features_in model) got).
Proof.
  intros R model data X row E I N.
  rewrite predict_request_matrix, E; cbn [bind].
  destruct (model_predict_mismatch model X row I N) as (got & G & P).
  exists got; split; [exact G|]; rewrite P; reflexivity.
Qed.

Lemma width_mismatch_sample_witness :
  exists got : nat,
    got <> n_features_in (sample_model ["N"; "Y"])
    /\ predict (sample_model ["N"; "Y"]) [trip_Y]
       = Raise (SignatureMismatch (n_features_in (sample_model ["N"; "Y"])) got).
Proof.
  apply (width_mismatch_is_refused reference_runtime (sample_model ["N"; "Y"])
           [trip_Y] single_row_matrix (repeat 0%float 22 ++ [1%float])).
  - vm_compute; reflexivity.
  - left; reflexivity.
  - vm_compute; discriminate.
Defined.

(** The model was trained with the vocabulary [N]; the request's only flag
    is Y, so its indicator column stands for Y.  The widths agree, nothing is
    raised, and a prediction comes back. *)
Lemma vocabulary_mismatch_is_not_detected :
  trained_categories (sample_model ["N"]) = ["N"]
  /\ batch_categories [trip_Y] = ["Y"]
  /\ request_matrix [trip_Y] = Ok single_row_matrix
  /\ request_matrix [trip_N] = Ok single_row_matrix
  /\ predict (sample_model ["N"]) [trip_Y] = Ok [1%float].
Proof.
  repeat split; vm_compute; reflexivity.
Qed.

(** C8 (as the code has it, with the model of the specification): when
    the pipeline builds a matrix for a request and the matrix has the width
    the model was trained on, the request returns one estimate per record,
    in the order of the records: the i-th row of the matrix is the row of
    the i-th record with its pickup time as read, and the i-th estimate is
    the model's value on that row. *)
Theorem predictions_follow_the_rows :
  forall (R : Runtime) (model : Model) (data : list record) (X : ndarray),
    request_matrix data = Ok X ->
    n_features_in model = (length numerical + length (batch_categories data))%nat ->
    exists preds : list float,
      predict model data = Ok preds
      /\ length preds = length data
      /\ preds = map (predict_row model) (arr_rows X)
      /\ (forall (i : nat) (r : record),
             nth_error data i = Some r ->
             exists o : option Timestamp,
               nth_error (pickup_times data) i = Some o
               /\ nth_error (arr_rows X) i = Some (matrix_row data (r, o))
               /\ nth_error preds i
                  = Some (predict_row model (matrix_row data (r, o)))).
Proof.
  intros R model data X E W.
  destruct (accepted_matrix data X E) as (ts & V & Et & NE & ->).
  destruct (timed_read data ts Et) as (Pt & _ & _ & _ & _ & L).
  exists (map (predict_row model) (map (matrix_row data) (timed data))).
  cbn [arr_rows]; split; [|split; [|split; [reflexivity|]]].
  - rewrite predict_request_matrix, E; cbn [bind].
    rewrite model_predict_width; [reflexivity|].
    apply Forall_forall; intros row I; apply in_map_iff in I as (ro & <- & _).
    rewrite W; apply matrix_row_length.
  - rewrite !length_map; exact L.
  - intros i r Er; destruct (timed_nth data ts i r Et Er) as (o & Eo & Ero).
    exists o; rewrite Pt; split; [exact Eo|].
    rewrite !nth_error_map, Ero; split; reflexivity.
Qed.

Lemma predictions_sample_witness :
  exists preds : list float,
    predict (sample_model ["N"; "Y"]) [trip_Y; trip_N] = Ok preds
    /\ length preds = length [trip_Y; trip_N]
    /\ preds = map (predict_row (sample_model ["N"; "Y"])) (arr_rows matrix_YN)
    /\ (forall (i : nat) (r : record),
           nth_error [trip_Y; trip_N] i = Some r ->
           exists o : option Timestamp,
             nth_error (pickup_times [trip_Y; trip_N]) i = Some o
             /\ nth_error (arr_rows matrix_YN) i
                = Some (matrix_row [trip_Y; trip_N] (r, o))
             /\ nth_error preds i
                = Some (predict_row (sample_model ["N"; "Y"])
                          (matrix_row [trip_Y; trip_N] (r, o)))).
Proof.
  apply (predictions_follow_the_rows reference_runtime (sample_model ["N"; "Y"])
           [trip_Y; trip_N] matrix_YN); vm_compute; reflexivity.
Defined.

(** Both batches are valid; the first has one flag and the model two, the
    second has two flags and the model one: neither gets a prediction. *)
Lemma valid_batch_without_prediction :
  valid_batch [trip_Y] = true
  /\ predict (sample_model ["N"; "Y"]) [trip_Y] = Raise (SignatureMismatch 24 23)
  /\ valid_batch [trip_Y; trip_N] = true
  /\ predict (sample_model ["Y"]) [trip_Y; trip_N] = Raise (SignatureMismatch 23 24).
Proof.
  repeat split; vm_compute; reflexivity.
Qed.

(** C9: whatever frame the preprocessor accepts, the matrix it returns has
    element type float32 and every entry is a binary32 number (a value with
    a 24-bit significand in the exponent range of binary32, an infinity, a
    zero or a NaN), carried by a double; whenever a request gets as far as
    the model, this is the matrix the model is given.  The rounding is real:
    16777217 is rounded to 16777216. *)
Theorem model_input_is_float32 :
  forall (R : Runtime) (model : Model),
    (forall (df : DataFrame) (X : ndarray),
        preprocess df = Ok X ->
        arr_dtype X = float32 /\ Forall (Forall is_binary32) (arr_rows X))
    /\ (forall (data : list record) (X : ndarray),
           request_matrix data = Ok X ->
           arr_dtype X = float32
           /\ Forall (Forall is_binary32) (arr_rows X)
           /\ predict model data = model_predict model X)
    /\ float32_of (of_Z 16777217) = of_Z 16777216.
Proof.
  intros R model; split; [intros df X; apply preprocess_float32|].
  split; [|vm_compute; reflexivity].
  intros data X E; destruct (request_matrix_float32 data X E) as [D F].
  split; [exact D|]; split; [exact F|].
  rewrite predict_request_matrix, E; reflexivity.
Qed.

Lemma float32_sample_witness :
  arr_dtype matrix_YN = float32
  /\ Forall (Forall is_binary32) (arr_rows matrix_YN)
  /\ predict (sample_model ["N"; "Y"]) [trip_Y; trip_N]
     = model_predict (sample_model ["N"; "Y"]) matrix_YN.
Proof.
  apply (proj1 (proj2 (model_input_is_float32 reference_runtime
                         (sample_model ["N"; "Y"]))) [trip_Y; trip_N]).
  vm_compute; reflexivity.
Defined.

(** ** The gate and the request, beyond the claims *)

(** X1: called on a frame directly, the gate accepts exactly the frames whose
    labels are the contract's list in the contract's order, whose contract
    columns hold no null, and whose flag column holds only the texts Y and
    N. *)
Theorem gate_accepts_exactly_the_contract_frames :
  forall df : DataFrame,
    validate_input_data df = Ok true <->
    labels df = columns
    /\ (forall c, In c columns ->
          exists vs, column df c = Some vs
                     /\ forallb (fun v => negb (isnull v)) vs = true)
    /\ (exists vs, column df categorical_column = Some vs
                   /\ forallb (in_value_set ["Y"; "N"]) vs = true).
Proof.
  intros df; rewrite validate_Ok_iff; split.
  - intros S.
    assert (N : forall c, In c columns ->
                  exists vs, column df c = Some vs
                             /\ forallb (fun v => negb (isnull v)) vs = true).
    { intros c I.
      assert (E := S (ExpectColumnValuesToNotBeNull c)
                     (proj2 (In_suite _) (or_introl (ex_intro _ c (conj I eq_refl))))).
      cbn [success] in E; destruct (column df c) as [vs|]; [eauto | discriminate]. }
    split; [|split; [exact N|]].
    + apply list_eqb_eq.
      apply (S (ExpectTableColumnsToMatchOrderedList columns)), In_suite; auto.
    + destruct (N categorical_column) as (vs & C & Nn); [vm_compute; auto|].
      exists vs; split; [exact C|].
      assert (E := S (ExpectColumnValuesToBeInSet "store_and_fwd_flag" ["Y"; "N"])
                     (proj2 (In_suite _) (or_intror (or_introl eq_refl)))).
      cbn [success] in E; change "store_and_fwd_flag" with categorical_column in E.
      rewrite C in E; rewrite forallb_forall in E, Nn |- *.
      intros v I; specialize (E v I); specialize (Nn v I).
      destruct (isnull v); [discriminate | exact E].
  - intros (L & N & vs & C & F) e I.
    apply In_suite in I as [(c & I & ->)|[->| ->]]; cbn [success].
    + destruct (N c I) as (vs' & -> & Nn); exact Nn.
    + change "store_and_fwd_flag" with categorical_column; rewrite C.
      rewrite forallb_forall in F |- *; intros v I.
      rewrite (F v I); apply orb_true_r.
    + apply list_eqb_eq, L.
Qed.

(** X2: a request passes the gate exactly when every record holds a non-null
    value under every contract column and the text Y or N as its flag; the
    gate looks at nothing else (not at the order of the keys, not at other
    keys, not at whether dates or numbers can be read). *)
Theorem gate_accepts_exactly_the_complete_records :
  forall data : list record,
    validate_input_data (pd_DataFrame data columns) = Ok true <->
    forall r, In r data ->
      (forall c, In c columns -> isnull (cell_of c r) = false)
      /\ in_value_set ["Y"; "N"] (cell_of categorical_column r) = true.
Proof.
  intros data; apply gate_records.
Qed.

Lemma null_cell_fails (data : list record) (r : record) (c : string) :
  In r data -> In c columns -> isnull (cell_of c r) = true ->
  success (pd_DataFrame data columns) (ExpectColumnValuesToNotBeNull c) = false.
Proof.
  intros Ir Ic N; cbn [success]; rewrite (column_pd_DataFrame data _ _ Ic).
  rewrite forallb_compose.
  destruct (forallb _ data) eqn:A; [|reflexivity].
  rewrite forallb_forall in A; specialize (A r Ir); rewrite N in A; discriminate.
Qed.

(** X3: one null cell anywhere refuses the whole batch.  If some record
    holds a null (a JSON null, a NaN, or nothing at all) under a contract
    column, the request ends with the validation error, the not-null
    expectation of that column is among the reported failures, and no matrix
    is built. *)
Theorem null_cell_refuses_the_batch :
  forall (R : Runtime) (model : Model) (data : list record) (r : record)
         (c : string),
    In r data -> In c columns -> isnull (cell_of c r) = true ->
    let failed := failed_expectations (pd_DataFrame data columns) in
    In (ExpectColumnValuesToNotBeNull c) failed
    /\ request_matrix data = Raise (ValidationError (length failed) failed)
    /\ predict model data = Raise (ValidationError (length failed) failed).
Proof.
  intros R model data r c Ir Ic N failed.
  assert (S := null_cell_fails data r c Ir Ic N).
  assert (Is : In (ExpectColumnValuesToNotBeNull c) suite)
    by (apply In_suite; eauto).
  assert (V := validate_Raise _ _ Is S).
  split; [apply (proj2 (In_failed_expectations _ _)); auto|].
  split; [unfold request_matrix; rewrite V; reflexivity|].
  apply predict_validation_error, V.
Qed.

Lemma null_cell_sample_witness :
  let failed := failed_expectations (pd_DataFrame [trip_Y; trip_null_tip] columns) in
  In (ExpectColumnValuesToNotBeNull "tip_amount") failed
  /\ request_matrix [trip_Y; trip_null_tip]
     = Raise (ValidationError (length failed) failed)
  /\ predict (sample_model ["Y"]) [trip_Y; trip_null_tip]
     = Raise (ValidationError (length failed) failed).
Proof.
  apply (null_cell_refuses_the_batch reference_runtime (sample_model ["Y"])
           [trip_Y; trip_null_tip] trip_null_tip "tip_amount").
  - right; left; reflexivity.
  - vm_compute; auto 20.
  - reflexivity.
Defined.

Lemma bad_flag_fails (data : list record) (r : record) :
  In r data ->
  isnull (cell_of categorical_column r) = false ->
  in_value_set ["Y"; "N"] (cell_of categorical_column r) = false ->
  success (pd_DataFrame data columns)
          (ExpectColumnValuesToBeInSet "store_and_fwd_flag" ["Y"; "N"]) = false.
Proof.
  intros Ir N F; cbn [success]; change "store_and_fwd_flag" with categorical_column.
  rewrite column_pd_DataFrame by (vm_compute; auto).
  rewrite forallb_compose.
  destruct (forallb _ data) eqn:A; [|reflexivity].
  rewrite forallb_forall in A; specialize (A r Ir).
  rewrite N, F in A; discriminate.
Qed.

(** X4: a flag that is present but is not the text Y or N (another text, a
    number, a boolean) in any record refuses the whole batch: the request
    ends with the validation error and the value-set expectation is among
    the reported failures. *)
Theorem flag_outside_the_set_refuses_the_batch :
  forall (R : Runtime) (model : Model) (data : list record) (r : record),
    In r data ->
    isnull (cell_of categorical_column r) = false ->
    in_value_set ["Y"; "N"] (cell_of categorical_column r) = false ->
    let failed := failed_expectations (pd_DataFrame data columns) in
    In (ExpectColumnValuesToBeInSet "store_and_fwd_flag" ["Y"; "N"]) failed
    /\ request_matrix data = Raise (ValidationError (length failed) failed)
    /\ predict model data = Raise (ValidationError (length failed) failed).
Proof.
  intros R model data r Ir N F failed.
  assert (S := bad_flag_fails data r Ir N F).
  assert (Is : In (ExpectColumnValuesToBeInSet "store_and_fwd_flag" ["Y"; "N"]) suite)
    by (apply In_suite; auto).
  assert (V := validate_Raise _ _ Is S).
  split; [apply (proj2 (In_failed_expectations _ _)); auto|].
  split; [unfold request_matrix; rewrite V; reflexivity|].
  apply predict_validation_error, V.
Qed.

Lemma bad_flag_sample_witness :
  let failed := failed_expectations (pd_DataFrame [trip_bad_flag; trip_Y] columns) in
  In (ExpectColumnValuesToBeInSet "store_and_fwd_flag" ["Y"; "N"]) failed
  /\ request_matrix [trip_bad_flag; trip_Y]
     = Raise (ValidationError (length failed) failed)
  /\ predict (sample_model ["Y"]) [trip_bad_flag; trip_Y]
     = Raise (ValidationError (length failed) failed).
Proof.
  apply (flag_outside_the_set_refuses_the_batch reference_runtime
           (sample_model ["Y"]) [trip_bad_flag; trip_Y] trip_bad_flag);
    [left; reflexivity | reflexivity | reflexivity].
Defined.




(** X6: whenever the request path hands a matrix to the model, whatever the
    records were, the batch is not empty, the gate has passed, the matrix
    has element type float32 and one row per record, and every row has 22
    entries plus one per distinct flag of the batch. *)
Theorem returned_matrix_has_one_row_per_record :
  forall (R : Runtime) (data : list record) (X : ndarray),
    request_matrix data = Ok X ->
    data <> []
    /\ validate_input_data (pd_DataFrame data columns) = Ok true
    /\ arr_dtype X = float32
    /\ length (arr_rows X) = length data
    /\ Forall (fun row => length row = (22 + length (batch_categories data))%nat)
              (arr_rows X).
Proof.
  intros R data X E.
  destruct (accepted_matrix data X E) as (ts & V & Et & NE & ->).
  destruct (timed_read data ts Et) as (_ & _ & _ & _ & _ & L).
  split; [exact NE|]; split; [exact V|]; split; [reflexivity|].
  cbn [arr_rows]; split; [rewrite length_map; exact L|].
  apply Forall_forall; intros row I; apply in_map_iff in I as (ro & <- & _).
  apply matrix_row_length.
Qed.

Lemma returned_matrix_sample_witness :
  [trip_Y; trip_N] <> []
  /\ validate_input_data (pd_DataFrame [trip_Y; trip_N] columns) = Ok true
  /\ arr_dtype matrix_YN = float32
  /\ length (arr_rows matrix_YN) = length [trip_Y; trip_N]
  /\ Forall (fun row => length row
                        = (22 + length (batch_categories [trip_Y; trip_N]))%nat)
            (arr_rows matrix_YN).
Proof.
  apply (returned_matrix_has_one_row_per_record reference_runtime [trip_Y; trip_N]).
  vm_compute; reflexivity.
Defined.

(** X7: a request that passes the gate and whose pickup column
    [pd.to_datetime] reads, but on whose dropoff column it raises, ends with
    the parse error of the dropoff column: no matrix is built, although the
    dropoff column is dropped before preprocessing. *)
Theorem unreadable_dropoff_refuses_the_batch :
  forall (R : Runtime) (model : Model) (data : list record),
    validate_input_data (pd_DataFrame data columns) = Ok true ->
    to_datetime (map (cell_of "lpep_pickup_datetime") data) <> None ->
    to_datetime (map (cell_of "lpep_dropoff_datetime") data) = None ->
    request_matrix data = Raise (DateParseError "lpep_dropoff_datetime")
    /\ predict model data = Raise (DateParseError "lpep_dropoff_datetime").
Proof.
  intros R model data V P D.
  assert (C : convert_dates date_columns (pd_DataFrame data columns)
              = Raise (DateParseError "lpep_dropoff_datetime")).
  { rewrite convert_dates_request, D.
    destruct (to_datetime (map (cell_of "lpep_pickup_datetime") data));
      [reflexivity | congruence]. }
  split.
  - unfold request_matrix; rewrite V; cbn [bind]; rewrite C; reflexivity.
  - unfold predict; rewrite V; cbn [bind]; rewrite C; reflexivity.
Qed.

Lemma unreadable_dropoff_sample_witness :
  request_matrix [trip_Y; trip_bad_dropoff]
  = Raise (DateParseError "lpep_dropoff_datetime")
  /\ predict (sample_model ["Y"]) [trip_Y; trip_bad_dropoff]
     = Raise (DateParseError "lpep_dropoff_datetime").
Proof.
  apply (unreadable_dropoff_refuses_the_batch reference_runtime
           (sample_model ["Y"]) [trip_Y; trip_bad_dropoff]).
  - vm_compute; reflexivity.
  - vm_compute; discriminate.
  - vm_compute; reflexivity.
Defined.

(** The derived frame, column by column, for a batch whose pickup column is
    read. *)
Lemma tabulate_columns `{Runtime} (data : list record)
  (ts : list (option Timestamp)) (ls : list string) :
  to_datetime (map (cell_of "lpep_pickup_datetime") data) = Some ts ->
  tabulate data ls
  = map (fun c =>
           (c, match assoc c pickup_fields with
               | Some f => map (dt_cell (hasnans (map datetime_cell ts)) f)
                               (map datetime_cell ts)
               | None => map (cell_of c) data
               end)) ls.
Proof.
  intros Et; unfold tabulate; apply map_ext; intros c; f_equal.
  destruct (assoc c pickup_fields) as [f|] eqn:A.
  - apply (field_column_timed data ts c f Et A).
  - apply (raw_column_timed data ts c Et A).
Qed.

(** X8: the values under VendorID, ehail_fee and the dropoff time have no
    influence on the matrix or on the outcome: two valid batches that agree
    on every other contract column give the same matrix and the same
    result. *)
Theorem dropped_columns_do_not_influence_the_outcome :
  forall (R : Runtime) (model : Model) (data data' : list record),
    valid_batch data = true ->
    valid_batch data' = true ->
    Forall2 (fun r r' =>
               forall c, In c columns ->
                         ~ In c ["VendorID"; "ehail_fee"; "lpep_dropoff_datetime"] ->
                         cell_of c r = cell_of c r') data data' ->
    request_matrix data' = request_matrix data
    /\ predict model data' = predict model data.
Proof.
  intros R model data data' V V' F.
  assert (A : forall c, In c columns ->
                ~ In c ["VendorID"; "ehail_fee"; "lpep_dropoff_datetime"] ->
                map (cell_of c) data' = map (cell_of c) data).
  { intros c I N; clear V V'.
    induction F as [|r r' data data' E F IH]; [reflexivity|].
    cbn [map]; f_equal; [symmetry; apply E; assumption | exact IH]. }
  destruct (valid_batch_parts data V) as (_ & _ & P & _).
  destruct (pickup_column_read data P) as (ts & Et & _).
  assert (Et' : to_datetime (map (cell_of "lpep_pickup_datetime") data') = Some ts).
  { rewrite A; [exact Et | vm_compute; auto | simpl; intuition discriminate]. }
  assert (T : tabulate data' derived_labels = tabulate data derived_labels).
  { rewrite (tabulate_columns data' ts _ Et'), (tabulate_columns data ts _ Et).
    apply map_ext_in; intros c I; f_equal.
    destruct (assoc c pickup_fields) as [f|] eqn:E; [reflexivity|].
    apply A.
    - vm_compute in I |- *.
      repeat (destruct I as [<-|I]; [first [discriminate E | auto 30]|]); destruct I.
    - vm_compute in I.
      repeat (destruct I as [<-|I];
              [first [discriminate E | simpl; intuition discriminate]|]); destruct I. }
  assert (E : request_matrix data' = request_matrix data).
  { rewrite !valid_batch_request_matrix by assumption; rewrite T; reflexivity. }
  split; [exact E|].
  rewrite !predict_request_matrix, E; reflexivity.
Qed.

Lemma dropped_columns_sample_witness :
  request_matrix [trip_Y_other_vendor; trip_N] = request_matrix [trip_Y; trip_N]
  /\ predict (sample_model ["N"; "Y"]) [trip_Y_other_vendor; trip_N]
     = predict (sample_model ["N"; "Y"]) [trip_Y; trip_N].
Proof.
  apply (dropped_columns_do_not_influence_the_outcome reference_runtime
           (sample_model ["N"; "Y"]) [trip_Y; trip_N] [trip_Y_other_vendor; trip_N]).
  - vm_compute; reflexivity.
  - vm_compute; reflexivity.
  - constructor; [|constructor; [intros; reflexivity | constructor]].
    intros c I N; vm_compute in I.
    repeat (destruct I as [<-|I];
            [first [reflexivity | exfalso; apply N; simpl; tauto]|]);
      destruct I.
Defined.

(** ** Feature extraction and date conversion on any frame *)

Lemma mem_labels_setitem (df : DataFrame) (c l : string) (vs : list value) :
  mem l (labels (setitem df c vs)) = String.eqb l c || mem l (labels df).
Proof.
  induction df as [|[c0 vs0] df IH]; cbn [setitem labels map fst mem existsb].
  - rewrite orb_false_r; reflexivity.
  - fold (labels df); fold (mem l (labels df)).
    destruct (String.eqb_spec c c0) as [->|N];
      cbn [labels map fst mem existsb].
    + fold (labels df); fold (mem l (labels df)).
      destruct (String.eqb l c0); reflexivity.
    + fold (labels (setitem df c vs)); fold (mem l (labels (setitem df c vs))).
      rewrite IH. destruct (String.eqb l c0), (String.eqb l c); reflexivity.
Qed.

Lemma feature_extraction_unfold (df : DataFrame) (vs : list value) :
  column df "lpep_pickup_datetime" = Some vs ->
  is_datetimelike vs = true ->
  feature_extraction df = drop dropped (with_pickup_fields df vs).
Proof.
  intros E D; unfold feature_extraction, with_pickup_fields, pickup_fields.
  cbn [fold_left fst snd].
  repeat (rewrite (dt_datetimelike _ _ vs);
          [cbn [bind]
          | rewrite ?column_setitem; cbn [String.eqb Ascii.eqb Bool.eqb]; exact E
          | exact D]).
  reflexivity.
Qed.

Lemma column_with_pickup_fields (df : DataFrame) (vs : list value) (c : string) :
  column (with_pickup_fields df vs) c =
  match assoc c pickup_fields with
  | Some f => Some (map (dt_cell (hasnans vs) f) vs)
  | None => column df c
  end.
Proof.
  unfold with_pickup_fields, pickup_fields; cbn [fold_left fst snd assoc].
  rewrite !column_setitem.
  repeat match goal with
         | |- context [String.eqb c ?l] => destruct (String.eqb_spec c l) as [->|?]
         end; try reflexivity; try congruence.
Qed.

Lemma mem_labels_with_pickup_fields (df : DataFrame) (vs : list value) (l : string) :
  assoc l pickup_fields = None ->
  mem l (labels (with_pickup_fields df vs)) = mem l (labels df).
Proof.
  unfold with_pickup_fields, pickup_fields; cbn [fold_left fst snd assoc].
  rewrite !mem_labels_setitem.
  repeat match goal with
         | |- context [String.eqb l ?c] => destruct (String.eqb l c)
         end; try discriminate; reflexivity.
Qed.

Lemma missing_with_pickup_fields (df : DataFrame) (vs : list value) :
  missing (with_pickup_fields df vs) dropped = missing df dropped.
Proof.
  unfold missing, dropped; cbn [filter].
  rewrite !mem_labels_with_pickup_fields by reflexivity; reflexivity.
Qed.

Lemma column_filter_dropped (df : DataFrame) (c : string) :
  mem c dropped = true -> column (filter kept df) c = None.
Proof.
  intros M; apply column_None; rewrite labels_filter_kept; intros I.
  apply filter_In in I as [_ I]; rewrite M in I; discriminate.
Qed.

(** What [feature_extraction] does on an arbitrary frame. *)
Lemma feature_extraction_cases (df : DataFrame) :
  match column df "lpep_pickup_datetime" with
  | None => feature_extraction df = Raise (KeyError "lpep_pickup_datetime")
  | Some vs =>
      if is_datetimelike vs then
        match missing df dropped with
        | [] => feature_extraction df = Ok (filter kept (with_pickup_fields df vs))
        | ms => feature_extraction df = Raise (LabelsNotFound ms)
        end
      else feature_extraction df = Raise (AttributeError "lpep_pickup_datetime")
  end.
Proof.
  destruct (column df "lpep_pickup_datetime") as [vs|] eqn:E.
  - destruct (is_datetimelike vs) eqn:D.
    + rewrite (feature_extraction_unfold df vs E D); unfold drop.
      rewrite missing_with_pickup_fields.
      destruct (missing df dropped); reflexivity.
    + unfold feature_extraction, dt, getitem; rewrite E; cbn [bind].
      rewrite D; reflexivity.
  - unfold feature_extraction, dt, getitem; rewrite E; reflexivity.
Qed.

Lemma feature_extraction_Ok (df df' : DataFrame) :
  feature_extraction df = Ok df' ->
  exists vs, column df "lpep_pickup_datetime" = Some vs
             /\ is_datetimelike vs = true
             /\ df' = filter kept (with_pickup_fields df vs).
Proof.
  intros E; pose proof (feature_extraction_cases df) as C.
  destruct (column df "lpep_pickup_datetime") as [vs|]; [|congruence].
  destruct (is_datetimelike vs) eqn:D; [|congruence].
  destruct (missing df dropped); [|congruence].
  exists vs; split; [reflexivity|]; split; [exact D | congruence].
Qed.

(** X9: feature extraction on a frame with distinct labels.  Without a
    pickup column it raises the key error of that column.  With a pickup
    column of timestamps and [NaT] (a datetime column), it raises when
    columns it is to drop are missing, naming them all; otherwise it
    succeeds: the four columns are gone, each of the seven pickup columns
    holds the field of the pickup cell of its row, as integers when the
    pickup column has no [NaT] and as floats with [NaN] for [NaT]
    otherwise, replacing a column of that name if there was one, and every
    other column is unchanged. *)
Theorem feature_extraction_on_any_frame :
  forall df : DataFrame,
    NoDup (labels df) ->
    (column df "lpep_pickup_datetime" = None ->
     feature_extraction df = Raise (KeyError "lpep_pickup_datetime"))
    /\ (forall vs : list value,
           column df "lpep_pickup_datetime" = Some vs ->
           is_datetimelike vs = true ->
           match missing df dropped with
           | [] =>
               exists df',
                 feature_extraction df = Ok df'
                 /\ (forall l, In l dropped -> column df' l = None)
                 /\ (forall c f, In (c, f) pickup_fields ->
                        column df' c = Some (map (dt_cell (hasnans vs) f) vs))
                 /\ (forall c, ~ In c dropped ->
                               ~ In c (map fst pickup_fields) ->
                               column df' c = column df c)
           | ms => feature_extraction df = Raise (LabelsNotFound ms)
           end).
Proof.
  intros df _; pose proof (feature_extraction_cases df) as C; split.
  - intros N; rewrite N in C; exact C.
  - intros vs E D; rewrite E, D in C.
    destruct (missing df dropped); [|exact C].
    exists (filter kept (with_pickup_fields df vs)); split; [exact C|].
    split; [|split].
    + intros l I; apply column_filter_dropped, mem_In, I.
    + intros c f I.
      rewrite column_filter_kept, column_with_pickup_fields,
        (assoc_pickup_fields c f I); [reflexivity|].
      unfold pickup_fields in I; cbn [In] in I.
      repeat (destruct I as [X|I]; [injection X as <- _; reflexivity|]);
        destruct I.
    + intros c Nd Np.
      assert (M : mem c dropped = false).
      { destruct (mem c dropped) eqn:M; [|reflexivity].
        apply mem_In in M; contradiction. }
      rewrite column_filter_kept, column_with_pickup_fields by exact M.
      destruct (assoc c pickup_fields) as [f|] eqn:A; [|reflexivity].
      exfalso; apply Np, (assoc_pickup_fields_In c f A).
Qed.

Lemma feature_extraction_any_frame_witness :
  exists df',
    feature_extraction sample_frame = Ok df'
    /\ (forall l, In l dropped -> column df' l = None)
    /\ (forall c f, In (c, f) pickup_fields ->
           column df' c
           = Some (map (dt_cell (hasnans [VTime (mkTimestamp 2024 3 11 14 5 9)]) f)
                       [VTime (mkTimestamp 2024 3 11 14 5 9)]))
    /\ (forall c, ~ In c dropped ->
                  ~ In c (map fst pickup_fields) ->
                  column df' c = column sample_frame c).
Proof.
  apply (proj2 (feature_extraction_on_any_frame sample_frame
                  ltac:(unfold sample_frame, labels; cbn [map fst];
                        repeat (constructor; [simpl; intuition discriminate|]);
                        constructor))
           [VTime (mkTimestamp 2024 3 11 14 5 9)]); reflexivity.
Defined.

(** X10: feature extraction cannot be applied twice: the frame it returns
    no longer has the pickup column, so a second call raises the key error
    of the pickup column. *)
Theorem feature_extraction_twice_raises :
  forall df df' : DataFrame,
    feature_extraction df = Ok df' ->
    feature_extraction df' = Raise (KeyError "lpep_pickup_datetime").
Proof.
  intros df df' E.
  destruct (feature_extraction_Ok df df' E) as (vs & _ & _ & ->).
  pose proof (feature_extraction_cases (filter kept (with_pickup_fields df vs))) as C.
  rewrite column_filter_dropped in C by reflexivity; exact C.
Qed.

Lemma feature_extraction_twice_sample_witness :
  feature_extraction frame_Y = Raise (KeyError "lpep_pickup_datetime").
Proof.
  apply (feature_extraction_twice_raises sample_frame frame_Y).
  vm_compute; reflexivity.
Defined.

(** X11: the date conversion of [predict] on any frame.  When it succeeds it
    has changed nothing but the cells of the two date columns: the labels
    and their order are the same, each date column holds the converted
    cells of the column it replaces, one per row and datetime-like, and
    every other column is untouched.  A frame without the pickup column
    gets the key error of that column. *)
Theorem date_conversion_changes_only_the_date_columns :
  forall (R : Runtime) (df : DataFrame),
    (column df "lpep_pickup_datetime" = None ->
     convert_dates date_columns df = Raise (KeyError "lpep_pickup_datetime"))
    /\ (forall df',
           convert_dates date_columns df = Ok df' ->
           labels df' = labels df
           /\ (forall c, In c date_columns ->
                 exists vs ts,
                   column df c = Some vs /\ column df' c = Some ts
                   /\ pd_to_datetime c vs = Ok ts
                   /\ is_datetimelike ts = true /\ length ts = length vs)
           /\ (forall c, ~ In c date_columns -> column df' c = column df c)).
Proof.
  intros R df; unfold date_columns; cbn [convert_dates]; unfold getitem; split.
  - intros N; rewrite N; reflexivity.
  - intros df' E.
    destruct (column df "lpep_pickup_datetime") as [vs|] eqn:EP;
      [|discriminate]; cbn [bind] in E.
    apply bind_Ok in E as (ts & Et & E).
    rewrite column_setitem in E; cbn [String.eqb Ascii.eqb Bool.eqb] in E.
    destruct (column df "lpep_dropoff_datetime") as [vs'|] eqn:ED;
      [|discriminate]; cbn [bind] in E.
    apply bind_Ok in E as (ts' & Et' & E); injection E as <-.
    assert (IP : In "lpep_pickup_datetime" (labels df)).
    { destruct (in_dec string_dec "lpep_pickup_datetime" (labels df)) as [I|N];
        [exact I|]. apply column_None in N; congruence. }
    assert (ID : In "lpep_dropoff_datetime" (labels df)).
    { destruct (in_dec string_dec "lpep_dropoff_datetime" (labels df)) as [I|N];
        [exact I|]. apply column_None in N; congruence. }
    split; [|split].
    + rewrite !labels_setitem; auto. rewrite labels_setitem; auto.
    + intros c [<-|[<-|[]]].
      * exists vs, ts; rewrite !column_setitem; cbn [String.eqb Ascii.eqb Bool.eqb].
        repeat split; auto.
        -- apply (pd_to_datetime_datetimelike _ _ _ Et).
        -- apply (pd_to_datetime_length _ _ _ Et).
      * exists vs', ts'; rewrite !column_setitem; cbn [String.eqb Ascii.eqb Bool.eqb].
        repeat split; auto.
        -- apply (pd_to_datetime_datetimelike _ _ _ Et').
        -- apply (pd_to_datetime_length _ _ _ Et').
    + intros c N; rewrite !column_setitem.
      destruct (String.eqb_spec c "lpep_dropoff_datetime") as [->|N1];
        [exfalso; apply N; simpl; tauto|].
      destruct (String.eqb_spec c "lpep_pickup_datetime") as [->|N2];
        [exfalso; apply N; simpl; tauto|].
      reflexivity.
Qed.

(** ** Preprocessing on any frame *)

Lemma getitems_ext (df df' : DataFrame) (ls : list string) :
  (forall c, In c ls -> column df c = column df' c) ->
  getitems df ls = getitems df' ls.
Proof.
  intros E; unfold getitems.
  assert (M : missing df ls = missing df' ls).
  { unfold missing; apply filter_ext_in; intros l I; f_equal.
    specialize (E l I).
    destruct (mem l (labels df)) eqn:A, (mem l (labels df')) eqn:B; try reflexivity.
    - apply mem_In in A.
      assert (N : ~ In l (labels df')) by (intros X; apply mem_In in X; congruence).
      apply column_None in N; rewrite N in E; apply column_None in E; contradiction.
    - apply mem_In in B.
      assert (N : ~ In l (labels df)) by (intros X; apply mem_In in X; congruence).
      apply column_None in N; rewrite N in E; symmetry in E.
      apply column_None in E; contradiction. }
  rewrite M; destruct (missing df' ls); [|reflexivity].
  apply mapM_ext_in; intros c I.
  unfold getitem; rewrite (E c I); reflexivity.
Qed.

(** X12: the preprocessor reads the 22 numerical columns and the flag column
    by label and nothing else: two frames with distinct labels that hold the
    same cells under these 23 labels get the same result, whatever the
    position of the columns and whatever other columns the frames have. *)
Theorem preprocess_reads_only_the_selected_columns :
  forall (R : Runtime) (df df' : DataFrame),
    NoDup (labels df) -> NoDup (labels df') ->
    (forall c, In c (numerical ++ categorical) -> column df c = column df' c) ->
    preprocess df = preprocess df'.
Proof.
  intros R df df' _ _ E; unfold preprocess.
  rewrite (getitems_ext df df' _ E); reflexivity.
Qed.

Lemma NoDup_derived_labels : NoDup derived_labels.
Proof.
  unfold derived_labels.
  repeat (constructor; [simpl; intuition discriminate|]); constructor.
Qed.

Lemma preprocess_selected_columns_sample_witness :
  preprocess (rev frame_YN) = preprocess frame_YN.
Proof.
  apply (preprocess_reads_only_the_selected_columns reference_runtime).
  - unfold labels; rewrite map_rev; apply NoDup_rev, NoDup_derived_labels.
  - apply NoDup_derived_labels.
  - intros c I; vm_compute in I.
    repeat (destruct I as [<-|I]; [reflexivity|]); destruct I.
Defined.

(** X13: on a frame that lacks some of the 23 columns it selects, the
    preprocessor raises the key error of the selection, which names every
    missing label, in the order numerical columns first, flag last; nothing
    is fitted. *)
Theorem preprocess_missing_column_raises :
  forall (R : Runtime) (df : DataFrame),
    missing df (numerical ++ categorical) <> [] ->
    preprocess df = Raise (LabelsNotFound (missing df (numerical ++ categorical))).
Proof.
  intros R df N; unfold preprocess, getitems.
  destruct (missing df (numerical ++ categorical)); [congruence | reflexivity].
Qed.

Lemma preprocess_missing_column_sample_witness :
  preprocess sample_frame
  = Raise (LabelsNotFound ["pickup_year"; "pickup_month"; "pickup_dayofweek";
                           "pickup_day"; "pickup_hour"; "pickup_minute";
                           "pickup_second"]).
Proof.
  apply (preprocess_missing_column_raises reference_runtime sample_frame).
  vm_compute; discriminate.
Defined.

(** ** The indicator columns *)

Lemma flags_in_vocabulary (data : list record) (r : record) :
  In r data -> In (flag_of r) (batch_categories data).
Proof.
  intros I; apply sorted_unique_In, in_map, I.
Qed.

(** X14: the indicator columns follow the sorted vocabulary of the batch.
    Whenever the pipeline builds a matrix for a request: when both flags
    occur in the batch, there are two indicator columns, N first and Y
    second, so that the row of a record flagged N ends with 1, 0 and the
    row of a record flagged Y with 0, 1; when a single flag occurs in the
    batch, there is one indicator column and it is 1 in every row. *)
Theorem indicator_columns_of_a_valid_batch :
  forall (R : Runtime) (data : list record) (X : ndarray),
    request_matrix data = Ok X ->
    (batch_categories data = ["N"; "Y"]
     /\ forall (i : nat) (r : record) (row : list float),
          nth_error data i = Some r -> nth_error (arr_rows X) i = Some row ->
          (cell_of categorical_column r = VStr "N"
           /\ skipn 22 row = [1%float; 0%float])
          \/ (cell_of categorical_column r = VStr "Y"
              /\ skipn 22 row = [0%float; 1%float]))
    \/ (exists c, (c = "Y" \/ c = "N")
                  /\ batch_categories data = [c]
                  /\ forall (i : nat) (r : record) (row : list float),
                       nth_error data i = Some r ->
                       nth_error (arr_rows X) i = Some row ->
                       cell_of categorical_column r = VStr c
                       /\ skipn 22 row = [1%float]).
Proof.
  intros R data X E.
  destruct (accepted_matrix data X E) as (ts & V & Et & NE & ->).
  assert (Rw : forall i r row,
             nth_error data i = Some r ->
             nth_error (arr_rows (mk_ndarray float32
                                    (map (matrix_row data) (timed data)))) i
             = Some row ->
             In r data
             /\ cell_of categorical_column r = VStr (flag_of r)
             /\ skipn 22 row
                = map float32_of (indicator (batch_categories data) (flag_of r))).
  { intros i r row Er Erow; cbn [arr_rows] in Erow.
    destruct (timed_nth data ts i r Et Er) as (o & _ & Ero).
    rewrite nth_error_map, Ero in Erow; injection Erow as <-.
    pose proof (nth_error_In _ _ Er) as I.
    split; [exact I|]; split; [apply (gate_flag data r V I)|].
    apply matrix_row_tail. }
  destruct (gate_categories data V NE) as [C|[C|C]].
  - right; exists "N"; split; [auto|]; split; [exact C|].
    intros i r row Er Erow; destruct (Rw i r row Er Erow) as (I & F & T).
    pose proof (flags_in_vocabulary data r I) as M.
    rewrite C in M; destruct M as [M|[]].
    rewrite F, T, C, <- M; split; [reflexivity|]; cbn [indicator map].
    rewrite String.eqb_refl; apply f_equal2; [apply float32_of_one | reflexivity].
  - right; exists "Y"; split; [auto|]; split; [exact C|].
    intros i r row Er Erow; destruct (Rw i r row Er Erow) as (I & F & T).
    pose proof (flags_in_vocabulary data r I) as M.
    rewrite C in M; destruct M as [M|[]].
    rewrite F, T, C, <- M; split; [reflexivity|]; cbn [indicator map].
    rewrite String.eqb_refl; apply f_equal2; [apply float32_of_one | reflexivity].
  - left; split; [exact C|].
    intros i r row Er Erow; destruct (Rw i r row Er Erow) as (I & F & T).
    pose proof (flags_in_vocabulary data r I) as M.
    rewrite C in M; rewrite F, T, C.
    destruct M as [M|[M|[]]]; rewrite <- M; [left | right];
      (split; [reflexivity | vm_compute; reflexivity]).
Qed.

Lemma indicator_columns_sample_witness :
  (batch_categories [trip_Y; trip_N] = ["N"; "Y"]
   /\ forall (i : nat) (r : record) (row : list float),
        nth_error [trip_Y; trip_N] i = Some r ->
        nth_error (arr_rows matrix_YN) i = Some row ->
        (cell_of categorical_column r = VStr "N"
         /\ skipn 22 row = [1%float; 0%float])
        \/ (cell_of categorical_column r = VStr "Y"
            /\ skipn 22 row = [0%float; 1%float]))
  \/ (exists c, (c = "Y" \/ c = "N")
                /\ batch_categories [trip_Y; trip_N] = [c]
                /\ forall (i : nat) (r : record) (row : list float),
                     nth_error [trip_Y; trip_N] i = Some r ->
                     nth_error (arr_rows matrix_YN) i = Some row ->
                     cell_of categorical_column r = VStr c
                     /\ skipn 22 row = [1%float]).
Proof.
  apply (indicator_columns_of_a_valid_batch reference_runtime [trip_Y; trip_N]).
  vm_compute; reflexivity.
Defined.

(** X15: a request with a single valid record, the kind the form front end
    sends, always gives a matrix of one row and 23 columns whose last entry,
    the only indicator column, is 1 whether the record is flagged Y or N:
    in such a request the flag does not reach the model. *)
Theorem single_record_matrix_ignores_the_flag :
  forall (R : Runtime) (r : record),
    valid_batch [r] = true ->
    exists row : list float,
      request_matrix [r] = Ok (mk_ndarray float32 [row])
      /\ length row = 23%nat
      /\ nth_error row 22 = Some 1%float.
Proof.
  intros R r V; apply single_record_matrix, V.
Qed.

Lemma single_record_sample_witness :
  exists row : list float,
    request_matrix [trip_N] = Ok (mk_ndarray float32 [row])
    /\ length row = 23%nat
    /\ nth_error row 22 = Some 1%float.
Proof.
  apply (single_record_matrix_ignores_the_flag reference_runtime trip_N).
  vm_compute; reflexivity.
Defined.

(** ** What the transformer fits *)

Lemma ltb_of_leb (a b : string) : String.leb a b = true -> a <> b -> String.ltb a b = true.
Proof.
  unfold String.leb, String.ltb; intros L N.
  destruct (String.compare a b) eqn:C; try discriminate; [|reflexivity].
  apply String.compare_eq_iff in C; contradiction.
Qed.

Lemma ltb_of_not_leb (a b : string) : String.leb a b = false -> String.ltb b a = true.
Proof.
  unfold String.leb, String.ltb; intros L.
  rewrite String.compare_antisym.
  destruct (String.compare a b); try discriminate; reflexivity.
Qed.

Lemma insert_sorted_ascending (s : string) (l : list string) :
  ~ In s l -> ascending l = true -> ascending (insert_sorted s l) = true.
Proof.
  induction l as [|x l IH]; [reflexivity|]; intros N A.
  cbn [insert_sorted]; destruct (String.leb s x) eqn:L.
  - change (String.ltb s x && ascending (x :: l) = true).
    rewrite A, andb_true_r.
    apply ltb_of_leb; [exact L | intros ->; apply N; left; reflexivity].
  - assert (IH' : ascending (insert_sorted s l) = true).
    { apply IH; [intros I; apply N; right; exact I|].
      destruct l as [|y l]; [reflexivity|].
      change (String.ltb x y && ascending (y :: l) = true) in A.
      apply andb_prop in A as [_ A]; exact A. }
    destruct l as [|y l].
    + cbn [insert_sorted ascending]; rewrite andb_true_r; apply ltb_of_not_leb, L.
    + cbn [insert_sorted] in IH' |- *.
      change (String.ltb x y && ascending (y :: l) = true) in A.
      apply andb_prop in A as [Axy A].
      destruct (String.leb s y) eqn:L'.
      * change (String.ltb x s && ascending (s :: y :: l) = true).
        rewrite IH', andb_true_r; apply ltb_of_not_leb, L.
      * change (String.ltb x y && ascending (y :: insert_sorted s l) = true).
        rewrite Axy; exact IH'.
Qed.

Lemma insert_sorted_NoDup (s : string) (l : list string) :
  ~ In s l -> NoDup l -> NoDup (insert_sorted s l).
Proof.
  induction l as [|x l IH]; intros N D; cbn [insert_sorted].
  - constructor; [exact N | constructor].
  - destruct (String.leb s x); [constructor; assumption|].
    inversion D as [|? ? Nx Dl]; subst; constructor.
    + rewrite insert_sorted_In; intros [->|I]; [apply N; left; reflexivity | auto].
    + apply IH; [intros I; apply N; right; exact I | exact Dl].
Qed.

Lemma sorted_unique_sorted (ss : list string) :
  NoDup (sorted_unique ss) /\ ascending (sorted_unique ss) = true.
Proof.
  unfold sorted_unique.
  pose proof (NoDup_nodup string_dec ss) as D.
  induction D as [|s l N D IH]; [split; [constructor | reflexivity]|].
  destruct IH as [ND A]; cbn [fold_right].
  assert (N' : ~ In s (fold_right insert_sorted [] l)).
  { clear - N; intros I; apply N; clear N.
    induction l as [|x l IH]; [destruct I|].
    cbn [fold_right] in I; apply insert_sorted_In in I as [->|I];
      [left; reflexivity | right; auto]. }
  split; [apply insert_sorted_NoDup | apply insert_sorted_ascending]; assumption.
Qed.

Lemma fit_Ok `{Runtime} (X : DataFrame) (p : FittedParams) :
  fit X = Ok p ->
  exists cols ss,
    numeric_block X = Ok cols /\ flags X = Ok ss
    /\ p = mk_params (map fit_mean cols) (map fit_scale cols) (sorted_unique ss).
Proof.
  unfold fit, numeric_block, flags; intros E.
  apply bind_Ok in E as (num & En & E); apply bind_Ok in E as (cols & Ec & E).
  apply bind_Ok in E as (cat & Eg & E); apply bind_Ok in E as (ss & Es & E).
  injection E as <-; exists cols, ss.
  rewrite En, Eg; cbn [bind]; auto.
Qed.

(** X16: what the transformer of [preprocess] has after fitting on a frame:
    one mean and one scale per numerical column, each computed from that
    column of the frame, and as vocabulary the flags of the frame, each once
    and in strictly increasing order. *)
Theorem fitted_vocabulary_is_sorted_and_distinct :
  forall (R : Runtime) (X : DataFrame) (p : FittedParams),
    fit X = Ok p ->
    exists (cols : list (list float)) (ss : list string),
      numeric_block X = Ok cols /\ flags X = Ok ss
      /\ mean_ p = map fit_mean cols
      /\ scale_ p = map fit_scale cols
      /\ (forall s, In s (categories_ p) <-> In s ss)
      /\ NoDup (categories_ p)
      /\ ascending (categories_ p) = true.
Proof.
  intros R X p E; destruct (fit_Ok X p E) as (cols & ss & En & Ef & ->).
  exists cols, ss; cbn [mean_ scale_ categories_].
  destruct (sorted_unique_sorted ss) as [D A].
  split; [exact En|]; split; [exact Ef|]; split; [reflexivity|].
  split; [reflexivity|]; split; [apply sorted_unique_In|]; auto.
Qed.

Lemma fitted_vocabulary_sample_witness :
  exists (cols : list (list float)) (ss : list string),
    numeric_block selected_YN = Ok cols /\ flags selected_YN = Ok ss
    /\ mean_ (mk_params (map fit_mean cols_YN) (map fit_scale cols_YN) ["N"; "Y"])
       = map fit_mean cols
    /\ scale_ (mk_params (map fit_mean cols_YN) (map fit_scale cols_YN) ["N"; "Y"])
       = map fit_scale cols
    /\ (forall s,
           In s (categories_ (mk_params (map fit_mean cols_YN)
                                (map fit_scale cols_YN) ["N"; "Y"]))
           <-> In s ss)
    /\ NoDup (categories_ (mk_params (map fit_mean cols_YN)
                             (map fit_scale cols_YN) ["N"; "Y"]))
    /\ ascending (categories_ (mk_params (map fit_mean cols_YN)
                                 (map fit_scale cols_YN) ["N"; "Y"])) = true.
Proof.
  apply (fitted_vocabulary_is_sorted_and_distinct reference_runtime selected_YN).
  vm_compute; reflexivity.
Defined.

(** ** The form front end *)

Lemma form_cells_non_null (f : Form) (c : string) :
  amounts_are_numbers f = true -> In c columns ->
  forall r, In r (input_data f) -> isnull (cell_of c r) = false.
Proof.
  unfold amounts_are_numbers, amounts; cbn [forallb]; intros A I r [<-|[]].
  repeat (apply andb_prop in A as [?A A]).
  unfold columns in I; cbn [In] in I.
  repeat (destruct I as [<-|I];
          [vm_compute; first [reflexivity
                             | match goal with
                               | H : negb (is_nan ?x) = true |- _ =>
                                   apply negb_true_iff in H; exact H
                               end]|]).
  destruct I.
Qed.

(** X17: the record the form posts has exactly the contract's keys, in the
    contract's order, with the dropoff time equal to the pickup time; and
    whatever is chosen and entered in the form (with amounts that are
    numbers), the request passes the validation gate. *)
Theorem form_request_passes_the_gate :
  forall f : Form,
    widgets_ok f = true ->
    amounts_are_numbers f = true ->
    map (map fst) (input_data f) = [columns]
    /\ (forall r, In r (input_data f) ->
          get r "lpep_dropoff_datetime" = get r "lpep_pickup_datetime"
          /\ get r "total_amount" = Some (VFloat (total_amount f)))
    /\ validate_input_data (pd_DataFrame (input_data f) columns) = Ok true.
Proof.
  intros f W A; split; [reflexivity|]; split.
  - intros r [<-|[]]; split; reflexivity.
  - apply gate_records; intros r Ir; split.
    + intros c Ic; apply (form_cells_non_null f c A Ic r Ir).
    + destruct Ir as [<-|[]].
      unfold widgets_ok in W.
      repeat (apply andb_prop in W as [W ?W]).
      assumption.
Qed.

Lemma form_request_sample_witness :
  map (map fst) (input_data sample_form) = [columns]
  /\ (forall r, In r (input_data sample_form) ->
        get r "lpep_dropoff_datetime" = get r "lpep_pickup_datetime"
        /\ get r "total_amount" = Some (VFloat (total_amount sample_form)))
  /\ validate_input_data (pd_DataFrame (input_data sample_form) columns) = Ok true.
Proof.
  apply (form_request_passes_the_gate sample_form); vm_compute; reflexivity.
Defined.

Lemma digit_digit_char (d : Z) : 0 <= d <= 9 -> digit (digit_char d) = Some d.
Proof.
  intros B.
  assert (C : d = 0 \/ d = 1 \/ d = 2 \/ d = 3 \/ d = 4 \/ d = 5 \/ d = 6
              \/ d = 7 \/ d = 8 \/ d = 9) by lia.
  repeat (destruct C as [->|C]; [reflexivity|]); subst; reflexivity.
Qed.

Lemma number_of_pad2 (n : Z) :
  0 <= n < 100 -> number_of (pad2 n) 0 = Some n.
Proof.
  intros B; unfold pad2; cbn [number_of].
  repeat rewrite digit_digit_char by (Z.div_mod_to_equations; lia).
  f_equal; Z.div_mod_to_equations; lia.
Qed.

Lemma number_of_pad4 (n : Z) :
  0 <= n < 10000 -> number_of (pad4 n) 0 = Some n.
Proof.
  intros B; unfold pad4, pad2; cbn [number_of].
  repeat rewrite digit_digit_char by (Z.div_mod_to_equations; lia).
  f_equal; Z.div_mod_to_equations; lia.
Qed.

Lemma wellformed_bounds (t : Timestamp) :
  wellformed_timestamp t = true ->
  0 <= ts_year t < 10000 /\ 0 <= ts_month t < 100 /\ 0 <= ts_day t < 100
  /\ 0 <= ts_hour t < 100 /\ 0 <= ts_minute t < 100 /\ 0 <= ts_second t < 100.
Proof.
  unfold wellformed_timestamp; intros W.
  repeat (apply andb_prop in W as [W ?B]).
  repeat match goal with
         | X : (_ <=? _) = true |- _ => apply Z.leb_le in X
         end.
  pose proof (days_in_month_le (ts_year t) (ts_month t)); lia.
Qed.

Lemma long_text_not_NaT (s : string) :
  String.length s = 19%nat -> reads_as_NaT (VStr s) = false.
Proof.
  intros L; unfold reads_as_NaT, nat_strings, mem; cbn [isnull orb existsb].
  repeat match goal with
         | |- context [String.eqb s ?s'] =>
             destruct (String.eqb_spec s s') as [E|_];
             [rewrite E in L; discriminate L|]
         end.
  reflexivity.
Qed.

Lemma strftime_not_NaT (t : Timestamp) :
  reads_as_NaT (VStr (strftime t)) = false.
Proof.
  apply long_text_not_NaT; reflexivity.
Qed.

Lemma strftime_is_read_back_aux (t : Timestamp) :
  wellformed_timestamp t = true ->
  parse_iso (strftime t) = Some t
  /\ to_datetime [VStr (strftime t)] = Some [Some t]
  /\ to_datetime_cell (VStr (strftime t)) = Some (VTime t).
Proof.
  intros W; destruct (wellformed_bounds t W) as (By & Bm & Bd & Bh & Bi & Bs).
  assert (P : parse_iso (strftime t) = Some t).
  { unfold parse_iso.
    replace (String.length (strftime t) =? 19)%nat with true by reflexivity.
    replace (char_at (strftime t) 4 ["-"%char]) with true by reflexivity.
    replace (char_at (strftime t) 7 ["-"%char]) with true by reflexivity.
    replace (char_at (strftime t) 10 [" "%char; "T"%char]) with true by reflexivity.
    replace (char_at (strftime t) 13 [":"%char]) with true by reflexivity.
    replace (char_at (strftime t) 16 [":"%char]) with true by reflexivity.
    cbn [andb].
    change (field (strftime t) 0 4) with (number_of (pad4 (ts_year t)) 0).
    change (field (strftime t) 5 2) with (number_of (pad2 (ts_month t)) 0).
    change (field (strftime t) 8 2) with (number_of (pad2 (ts_day t)) 0).
    change (field (strftime t) 11 2) with (number_of (pad2 (ts_hour t)) 0).
    change (field (strftime t) 14 2) with (number_of (pad2 (ts_minute t)) 0).
    change (field (strftime t) 17 2) with (number_of (pad2 (ts_second t)) 0).
    rewrite number_of_pad4, !number_of_pad2 by assumption.
    destruct t as [y m d h mi s];
      cbn [ts_year ts_month ts_day ts_hour ts_minute ts_second] in *.
    rewrite W; reflexivity. }
  assert (C : to_datetime [VStr (strftime t)] = Some [Some t]).
  { cbn [to_datetime reference_runtime]; unfold read_column; cbn [find].
    rewrite strftime_not_NaT; cbn [negb].
    replace (String.get 10 (strftime t)) with (Some " "%char) by reflexivity.
    cbn [read_cells]; unfold read_cell; rewrite strftime_not_NaT.
    replace (char_at (strftime t) 10 [" "%char]) with true by reflexivity.
    rewrite P; reflexivity. }
  split; [exact P|]; split; [exact C|].
  unfold to_datetime_cell; rewrite C; reflexivity.
Qed.

(** X18: the text the form sends as pickup and dropoff time has 19
    characters and is read back by the reference date-time reader as the
    very timestamp it was written from, for every calendar timestamp in the
    reader's range. *)
Theorem strftime_is_read_back :
  forall t : Timestamp,
    wellformed_timestamp t = true ->
    String.length (strftime t) = 19%nat
    /\ parse_iso (strftime t) = Some t
    /\ to_datetime_cell (VStr (strftime t)) = Some (VTime t).
Proof.
  intros t W; split; [reflexivity|].
  destruct (strftime_is_read_back_aux t W) as (P & _ & C); auto.
Qed.

Lemma strftime_sample_witness :
  String.length (strftime (mkTimestamp 2024 3 11 14 5 9)) = 19%nat
  /\ parse_iso (strftime (mkTimestamp 2024 3 11 14 5 9))
     = Some (mkTimestamp 2024 3 11 14 5 9)
  /\ to_datetime_cell (VStr (strftime (mkTimestamp 2024 3 11 14 5 9)))
     = Some (VTime (mkTimestamp 2024 3 11 14 5 9)).
Proof.
  apply (strftime_is_read_back (mkTimestamp 2024 3 11 14 5 9)); reflexivity.
Defined.

Lemma one_of_In (options : list Z) (z : Z) : one_of options z = true -> In z options.
Proof.
  unfold one_of; intros E; apply existsb_exists in E as (o & I & E).
  apply Z.eqb_eq in E; subst; exact I.
Qed.

Lemma as_float64_option `{Runtime} (options : list Z) (z : Z) :
  one_of options z = true ->
  forallb (fun o => Z.abs o <? 10000) options = true ->
  is_Some (as_float64 (VInt z)) = true.
Proof.
  intros O B; apply one_of_In in O.
  rewrite forallb_forall in B; specialize (B z O); apply Z.ltb_lt in B.
  rewrite as_float64_small_int by lia; reflexivity.
Qed.

Lemma as_float64_location `{Runtime} (z : Z) :
  (1 <=? z) = true -> (z <? max_int_float) = true ->
  is_Some (as_float64 (VInt z)) = true.
Proof.
  intros L U; apply Z.leb_le in L; cbn [as_float64].
  rewrite Z.abs_eq by lia; rewrite U; reflexivity.
Qed.

Lemma as_float64_finite `{Runtime} (x : float) :
  is_finite x = true -> is_Some (as_float64 (VFloat x)) = true.
Proof.
  unfold is_finite; intros F; apply negb_true_iff, orb_false_iff in F as [_ F].
  cbn [as_float64]; unfold finite; rewrite F; reflexivity.
Qed.

Lemma is_finite_not_nan (x : float) : is_finite x = true -> negb (is_nan x) = true.
Proof.
  unfold is_finite; intros F; apply negb_true_iff, orb_false_iff in F as [F _].
  rewrite F; reflexivity.
Qed.

Lemma finite_numbers_are_numbers (f : Form) :
  numbers_are_finite f = true -> amounts_are_numbers f = true.
Proof.
  unfold numbers_are_finite, amounts_are_numbers; intros F.
  apply andb_prop in F as [F _]; apply andb_prop in F as [F _].
  rewrite forallb_forall in F |- *; intros x I.
  apply is_finite_not_nan, F, I.
Qed.

Lemma form_request_valid (f : Form) :
  widgets_ok f = true -> numbers_are_finite f = true ->
  wellformed_timestamp (now f) = true ->
  valid_batch (input_data f) = true.
Proof.
  intros W F T.
  pose proof (finite_numbers_are_numbers f F) as A.
  destruct (strftime_is_read_back_aux (now f) T) as (_ & C & _).
  unfold input_data, valid_batch, forallb; rewrite andb_true_r.
  apply andb_true_intro; split; [apply andb_true_intro; split|].
  - unfold valid_record.
    apply andb_true_intro; split; [apply andb_true_intro; split|].
    + apply forallb_forall; intros c Ic; apply negb_true_iff.
      apply (form_cells_non_null f c A Ic); left; reflexivity.
    + unfold widgets_ok in W.
      repeat (apply andb_prop in W as [W ?W]); assumption.
    + unfold widgets_ok in W; repeat (apply andb_prop in W as [W ?W]).
      unfold numbers_are_finite, amounts in F.
      apply andb_prop in F as [F Fdo]; apply andb_prop in F as [F Fpu].
      cbn [forallb] in F; repeat (apply andb_prop in F as [?F F]).
      unfold raw_numerical, numerical; cbn [firstn forallb].
      repeat (apply andb_true_intro; split);
        first [ reflexivity
              | apply as_float64_finite; assumption
              | apply as_float64_location; assumption
              | eapply as_float64_option; [eassumption | reflexivity] ].
  - unfold pickup_column_ok.
    change (map (cell_of "lpep_pickup_datetime") _) with [VStr (strftime (now f))].
    rewrite C; cbn [forallb]; rewrite T; reflexivity.
  - unfold dropoff_column_ok.
    change (map (cell_of "lpep_dropoff_datetime") _) with [VStr (strftime (now f))].
    rewrite C; reflexivity.
Qed.

(** X19: with the reference readers, every request the form can post (an
    option of each select box, finite numbers, a calendar time on the
    clock) is accepted by every stage up to the model, and the matrix
    handed to the model has one row of 23 entries whose last entry is 1:
    the flag chosen in the form has no effect on it. *)
Theorem form_request_reaches_the_model_with_23_columns :
  forall f : Form,
    widgets_ok f = true ->
    numbers_are_finite f = true ->
    wellformed_timestamp (now f) = true ->
    valid_batch (input_data f) = true
    /\ exists row : list float,
         request_matrix (input_data f) = Ok (mk_ndarray float32 [row])
         /\ length row = 23%nat
         /\ nth_error row 22 = Some 1%float.
Proof.
  intros f W F T; pose proof (form_request_valid f W F T) as V.
  split; [exact V|]; apply single_record_matrix, V.
Qed.

Lemma form_request_matrix_sample_witness :
  valid_batch (input_data sample_form) = true
  /\ exists row : list float,
       request_matrix (input_data sample_form) = Ok (mk_ndarray float32 [row])
       /\ length row = 23%nat
       /\ nth_error row 22 = Some 1%float.
Proof.
  apply (form_request_reaches_the_model_with_23_columns sample_form);
    vm_compute; reflexivity.
Defined.
